(** * ogamed: the HTTP control surface and the v7 page extractor

    A shallow embedding of the handlers of the [ogame] package that the
    control API exposes and of the v7 extractor
    (pkg/extractor/v7/extractor.go), with the properties that the design
    document states about them.

    Conventions.
    - Go [int64] values are [Z]; [strconv.ParseInt] is written out with its
      range check, so every parsed value is inside the int64 range.
    - Go strings and byte slices are [string] (sequences of bytes).
    - A handler is a program over the operations of the bot it calls
      ([Prog BotE]): every call of a bot method, every read or write of a
      bot field and every request sent to the lobby is one event, answered
      by whatever bot the program is run against ([run]).  A field that a
      handler reads twice with no call in between ([bot.otpSecret],
      [bot.apiNewHostname]) is read once.
    - A Go call that can panic has the panic among its outcomes:
      [Panicked] for a handler, [Panic] for an extraction. *)

From Stdlib Require Import ZArith List String Ascii Bool Lia.
From Stdlib Require Import Permutation DecimalString.
Import ListNotations.
Local Open Scope string_scope.
Local Open Scope Z_scope.

Set Implicit Arguments.

(** ** Programs over the operations of an environment *)

Inductive Prog (E : Type -> Type) (R : Type) : Type :=
| Ret (r : R)
| Vis (X : Type) (e : E X) (k : X -> Prog E R).

Arguments Ret {E R} r.
Arguments Vis {E R X} e k.

Fixpoint bind {E : Type -> Type} {R S : Type}
  (p : Prog E R) (k : R -> Prog E S) : Prog E S :=
  match p with
  | Ret r => k r
  | Vis e f => Vis e (fun x => bind (f x) k)
  end.

Definition call {E : Type -> Type} {X : Type} (e : E X) : Prog E X :=
  Vis e (fun x => Ret x).

Notation "x <- c ;; k" := (bind c (fun x => k))
  (at level 61, c at next level, right associativity).
Notation "' pat <- c ;; k" := (bind c (fun x => match x with pat => k end))
  (at level 61, pat pattern, c at next level, right associativity).

(** One entry of an execution trace: the operation called and its answer. *)
Inductive Call (E : Type -> Type) : Type :=
| Called (X : Type) (e : E X) (x : X).

Arguments Called {E X} e x.

(** Running a program against an environment [h] over a world [W]: the
    result, the final world and the calls made, in order. *)
Fixpoint run {E : Type -> Type} {R W : Type}
  (h : forall X, E X -> W -> X * W) (p : Prog E R) (w : W)
  : R * W * list (Call E) :=
  match p with
  | Ret r => (r, w, [])
  | Vis e k =>
      let '(x, w1) := h _ e w in
      let '(r, w2, tr) := run h (k x) w1 in
      (r, w2, Called e x :: tr)
  end.

(** ** strconv.ParseInt(s, 10, 64) and strings.Split(s, ",") *)

Definition maxUint64 : Z := 18446744073709551615.
Definition cutoff64 : Z := 9223372036854775808.

Definition digitOf (c : ascii) : option Z :=
  let n := Z.of_nat (nat_of_ascii c) in
  if (48 <=? n) && (n <=? 57) then Some (n - 48) else None.

(** ParseUint on a non-empty digit string: [None] on a character that is
    not a decimal digit and on a value above the uint64 range. *)
Fixpoint parseUintFrom (s : string) (acc : Z) : option Z :=
  match s with
  | EmptyString => Some acc
  | String c rest =>
      match digitOf c with
      | None => None
      | Some d =>
          let n := acc * 10 + d in
          if maxUint64 <? n then None else parseUintFrom rest n
      end
  end.

Definition ParseUint (s : string) : option Z :=
  match s with
  | EmptyString => None
  | _ => parseUintFrom s 0
  end.

(** [ParseInt s = None] is Go's [err != nil]. *)
Definition ParseInt (s : string) : option Z :=
  match s with
  | EmptyString => None
  | String c rest =>
      let '(neg, body) :=
        if Ascii.eqb c "+" then (false, rest)
        else if Ascii.eqb c "-" then (true, rest)
        else (false, s) in
      match ParseUint body with
      | None => None
      | Some un =>
          if negb neg && (cutoff64 <=? un) then None
          else if neg && (cutoff64 <? un) then None
          else Some (if neg then - un else un)
      end
  end.

(** strings.Split(s, sep) for a one-byte separator: the pieces between
    the separators, at least one. *)
Fixpoint splitOn (sep : ascii) (s : string) : string * list string :=
  match s with
  | EmptyString => (EmptyString, [])
  | String c rest =>
      let '(hd, tl) := splitOn sep rest in
      if Ascii.eqb c sep then (EmptyString, hd :: tl)
      else (String c hd, tl)
  end.

Definition Split (s : string) (sep : ascii) : list string :=
  let '(hd, tl) := splitOn sep s in hd :: tl.

(** ** Errors

    The sentinel errors of the package are distinct values; [err == ErrX]
    compares identities.  Every other error value is [ErrOther], with the
    text it carries. *)

Inductive error : Type :=
| ErrBadCredentials
| ErrInvalidPlanetID
| ErrNoShipSelected
| ErrUninhabitedPlanet
| ErrNoDebrisField
| ErrPlayerInVacationMode
| ErrAdminOrGM
| ErrNoAstrophysics
| ErrNoobProtection
| ErrPlayerTooStrong
| ErrNoMoonAvailable
| ErrNoRecyclerAvailable
| ErrNoEventsRunning
| ErrPlanetAlreadyReservedForRelocation
| ErrOther (msg : string).

Definition error_eqb (a b : error) : bool :=
  match a, b with
  | ErrBadCredentials, ErrBadCredentials
  | ErrInvalidPlanetID, ErrInvalidPlanetID
  | ErrNoShipSelected, ErrNoShipSelected
  | ErrUninhabitedPlanet, ErrUninhabitedPlanet
  | ErrNoDebrisField, ErrNoDebrisField
  | ErrPlayerInVacationMode, ErrPlayerInVacationMode
  | ErrAdminOrGM, ErrAdminOrGM
  | ErrNoAstrophysics, ErrNoAstrophysics
  | ErrNoobProtection, ErrNoobProtection
  | ErrPlayerTooStrong, ErrPlayerTooStrong
  | ErrNoMoonAvailable, ErrNoMoonAvailable
  | ErrNoRecyclerAvailable, ErrNoRecyclerAvailable
  | ErrNoEventsRunning, ErrNoEventsRunning
  | ErrPlanetAlreadyReservedForRelocation,
    ErrPlanetAlreadyReservedForRelocation => true
  | ErrOther m, ErrOther n => String.eqb m n
  | _, _ => false
  end.

(** ** The data the handlers exchange with the bot *)

(** Quantifiable{ID, Nbr}: a ship kind and a number of ships. *)
Record Quantifiable : Type := { ID : Z; Nbr : Z }.

(** Coordinate{Galaxy, System, Position, Type}. *)
Record Coordinate : Type :=
  { Galaxy : Z; System : Z; Position : Z; CType : Z }.

(** Resources: the handlers only write Metal, Crystal and Deuterium; the
    other fields of the struct keep the zero value of [Resources{}]. *)
Record Resources : Type := { Metal : Z; Crystal : Z; Deuterium : Z }.

(** url.Values, in the order in which a [range] loop visits it.  A Go map
    holds each key once and fixes no iteration order: a property of a
    handler is stated for every sequence. *)
Definition Values : Type := list (string * list string).

Definition hasKey (key : string) (v : Values) : bool :=
  existsb (fun kv => String.eqb (fst kv) key) v.

(** captchaSolver{ID, LastUpdated, Status}. *)
Record captchaSolver : Type :=
  { cs_ID : string; cs_LastUpdated : Z; cs_Status : string }.

(** ** Requests and responses of the control API (echo) *)

(** What a handler reads of an incoming request: the path parameters, the
    query parameters, the outcome of [ParseForm] and the form it fills. *)
Record Request : Type :=
  { PathParams : list (string * string);
    QueryParams : Values;
    ParseFormError : option error;
    PostForm : Values;
    Form : Values;
    TLS : bool;
    Host : string }.

(** c.Param(name): the path parameter, or the empty string. *)
Definition Param (c : Request) (name : string) : string :=
  match find (fun kv => String.eqb (fst kv) name) (PathParams c) with
  | Some kv => snd kv
  | None => EmptyString
  end.

(** Request.PostFormValue(key): the first value of the key, or the empty
    string. *)
Definition PostFormValue (c : Request) (key : string) : string :=
  match find (fun kv => String.eqb (fst kv) key) (PostForm c) with
  | Some (_, v :: _) => v
  | _ => EmptyString
  end.

(** ** Requests of the bot to the lobby (net/http) *)

Definition Header : Type := list (string * string).

Record HTTPRequest : Type :=
  { Method : string;
    URL : string;
    ReqBody : option string;
    ReqHeader : Header }.

Record HTTPResp : Type :=
  { RespStatusCode : Z;
    RespHeader : Header;
    RespBody : string }.

(** totp.ValidateOpts{Period, Skew, Digits, Algorithm}. *)
Inductive Digits : Type := DigitsSix | DigitsEight.
Inductive Algorithm : Type :=
  AlgorithmSHA1 | AlgorithmSHA256 | AlgorithmSHA512 | AlgorithmMD5.

Definition digitsLength (d : Digits) : Z :=
  match d with DigitsSix => 6 | DigitsEight => 8 end.

Record ValidateOpts : Type :=
  { Period : Z; Skew : Z; OptDigits : Digits; OptAlgorithm : Algorithm }.

(** The byte 0x22, which the string literals of the handlers contain. *)
Definition dq : string := String (ascii_of_nat 34) EmptyString.

Section Handlers.

(** Declarations of the package that the handlers use and that live in
    other files: the fleet type, the second result of [GetFleets], the
    ship-id test, three constants and the texts of the sentinel errors. *)
Variable Fleet : Type.
Variable Slots : Type.
Variable IsShipID : Z -> bool.
Variable PlanetType : Z.
Variable Transport : Z.
Variable HundredPercent : Z.
Variable sentinelText : error -> string.

(** err.Error() *)
Definition Error (e : error) : string :=
  match e with
  | ErrOther msg => msg
  | _ => sentinelText e
  end.

(** The [Result] field of an [APIResp] is an [interface{}]: one
    constructor for each kind of value a handler stores there. *)
Inductive ResultData : Type :=
| RNil
| RFleet (f : Fleet)
| RFleets (l : list Fleet)
| RBytes (b : string)
| RString (s : string)
| RCaptcha (out : captchaSolver).

Record APIResp : Type :=
  { Status : string; Code : Z; Message : string; Result : ResultData }.

Definition SuccessResp (data : ResultData) : APIResp :=
  {| Status := "ok"; Code := 200; Message := EmptyString; Result := data |}.

Definition ErrorResp (code : Z) (message : string) : APIResp :=
  {| Status := "error"; Code := code; Message := message; Result := RNil |}.

(** What a handler wrote to the client.  The status line is committed by
    the first write; a later write only adds to the body. *)
Inductive Chunk : Type :=
| JSONBody (r : APIResp)
| HTMLBody (s : string)
| HTMLBlobBody (b : string).

Record Response : Type :=
  { StatusCode : option Z; Written : list Chunk }.

Definition noResponse : Response :=
  {| StatusCode := None; Written := [] |}.

Definition write (code : Z) (ch : Chunk) (r : Response) : Response :=
  {| StatusCode := match StatusCode r with
                   | Some committed => Some committed
                   | None => Some code
                   end;
     Written := Written r ++ [ch] |}.

(** c.JSON, c.HTML and c.HTMLBlob on a response nothing was written to. *)
Definition JSON (code : Z) (r : APIResp) : Response :=
  write code (JSONBody r) noResponse.
Definition HTML (code : Z) (s : string) : Response :=
  write code (HTMLBody s) noResponse.
Definition HTMLBlob (code : Z) (b : string) : Response :=
  write code (HTMLBlobBody b) noResponse.

Inductive Outcome : Type :=
| Done (r : Response)
| Panicked.

(** The status a caller of the API receives. *)
Definition statusOf (o : Outcome) : option Z :=
  match o with
  | Done r => StatusCode r
  | Panicked => None
  end.

(** A success response, as a caller of the API sees it. *)
Definition isSuccess (o : Outcome) : bool :=
  match o with
  | Done {| StatusCode := Some code |} => code =? 200
  | _ => false
  end.

Definition StatusBadRequest : Z := 400.
Definition StatusInternalServerError : Z := 500.
Definition StatusOK : Z := 200.
Definition StatusConflict : Z := 409.

(** ** The bot, as the handlers see it *)

(** The local variables of SendFleetHandler that the form fills. *)
Record Locals : Type :=
  { ships : list Quantifiable;
    where_ : Coordinate;
    mission : Z;
    duration : Z;
    unionID : Z;
    payload : Resources;
    speed : Z }.

(** The operations that the handlers call.  [GetPageContent] is the
    exported page fetch of the bot and [getPageContent] its internal
    counterpart; the [Read...] events read a field of the bot at the
    moment the handler reaches them; [ReadBody] is the package's
    [readBody], of which the handlers use the bytes and the error;
    [TimeNow] is [time.Now()]. *)
Inductive BotE : Type -> Type :=
| SendFleet (celestialID : Z) (ships : list Quantifiable) (speed : Z)
    (where_ : Coordinate) (mission : Z) (payload : Resources)
    (duration unionID : Z) : BotE (Fleet * option error)
| GetPageContent (vals : Values) : BotE (string * option error)
| getPageContent (vals : Values) : BotE (string * option error)
| GetFleets : BotE (list Fleet * Slots)
| LoginWithExistingCookies : BotE (bool * option error)
| IsLoggedIn : BotE bool
| ReadState : BotE string
| ReadServerURL : BotE string
| ReadApiNewHostname : BotE string
| ReadUsername : BotE string
| ReadPassword : BotE string
| ReadOtpSecret : BotE string
| SetChallengeID (id : string) : BotE unit
| LogError (e : error) (more : list string) : BotE unit
| GetConfiguration : BotE (string * string * option error)
| DoReqWithLoginProxyTransport (req : HTTPRequest)
    : BotE (option HTTPResp * option error)
| ReadBody (resp : HTTPResp) : BotE (string * option error)
| TimeNow : BotE Z.

Definition Handler : Type := Prog BotE Outcome.

(** ** SendFleetHandler *)

(** Leaving a loop body: go on with the updated variables, or return
    from the handler. *)
Inductive Flow (A : Type) : Type :=
| Continue (a : A)
| Return (o : Outcome).

Arguments Continue {A} a.
Arguments Return {A} o.

Definition badRequest (message : string) : Outcome :=
  Done (JSON StatusBadRequest (ErrorResp 400 message)).

(** values[0] of a form entry, which panics on an empty slice. *)
Definition first {A : Type} (values : list string)
  (k : string -> Flow A) : Flow A :=
  match values with
  | [] => Return Panicked
  | v :: _ => k v
  end.

(** The body of the loop over the values of the "ships" key: one
    "id,nbr" pair. *)
Definition shipEntry (s : string) : Flow Quantifiable :=
  let a := Split s "," in
  let a0 := nth 0 a EmptyString in
  match ParseInt a0 with
  | None => Return (badRequest ("invalid ship id " ++ a0))
  | Some shipID =>
      if negb (IsShipID shipID)
      then Return (badRequest ("invalid ship id " ++ a0))
      else
        match nth_error a 1 with
        | None => Return Panicked
        | Some a1 =>
            match ParseInt a1 with
            | None => Return (badRequest ("invalid nbr " ++ a1))
            | Some nbr =>
                if nbr <? 0
                then Return (badRequest ("invalid nbr " ++ a1))
                else Continue {| ID := shipID; Nbr := nbr |}
            end
        end
  end.

Fixpoint shipEntries (values : list string) (acc : list Quantifiable)
  : Flow (list Quantifiable) :=
  match values with
  | [] => Continue acc
  | s :: rest =>
      match shipEntry s with
      | Return o => Return o
      | Continue q => shipEntries rest (acc ++ [q])
      end
  end.

Definition setShips (l : Locals) (v : list Quantifiable) : Locals :=
  {| ships := v; where_ := where_ l; mission := mission l;
     duration := duration l; unionID := unionID l;
     payload := payload l; speed := speed l |}.
Definition setWhere (l : Locals) (v : Coordinate) : Locals :=
  {| ships := ships l; where_ := v; mission := mission l;
     duration := duration l; unionID := unionID l;
     payload := payload l; speed := speed l |}.
Definition setMission (l : Locals) (v : Z) : Locals :=
  {| ships := ships l; where_ := where_ l; mission := v;
     duration := duration l; unionID := unionID l;
     payload := payload l; speed := speed l |}.
Definition setDuration (l : Locals) (v : Z) : Locals :=
  {| ships := ships l; where_ := where_ l; mission := mission l;
     duration := v; unionID := unionID l;
     payload := payload l; speed := speed l |}.
Definition setUnionID (l : Locals) (v : Z) : Locals :=
  {| ships := ships l; where_ := where_ l; mission := mission l;
     duration := duration l; unionID := v;
     payload := payload l; speed := speed l |}.
Definition setPayload (l : Locals) (v : Resources) : Locals :=
  {| ships := ships l; where_ := where_ l; mission := mission l;
     duration := duration l; unionID := unionID l;
     payload := v; speed := speed l |}.
Definition setSpeed (l : Locals) (v : Z) : Locals :=
  {| ships := ships l; where_ := where_ l; mission := mission l;
     duration := duration l; unionID := unionID l;
     payload := payload l; speed := v |}.

(** The [switch key] of the loop over the posted form. *)
Definition formEntry (key : string) (values : list string) (l : Locals)
  : Flow Locals :=
  if String.eqb key "ships" then
    match shipEntries values (ships l) with
    | Return o => Return o
    | Continue v => Continue (setShips l v)
    end
  else if String.eqb key "speed" then
    first values (fun v =>
      match ParseInt v with
      | None => Return (badRequest "invalid speed")
      | Some speedInt =>
          if (speedInt <? 0) || (10 <? speedInt)
          then Return (badRequest "invalid speed")
          else Continue (setSpeed l speedInt)
      end)
  else if String.eqb key "galaxy" then
    first values (fun v =>
      match ParseInt v with
      | None => Return (badRequest "invalid galaxy")
      | Some galaxy =>
          Continue (setWhere l
            {| Galaxy := galaxy; System := System (where_ l);
               Position := Position (where_ l);
               CType := CType (where_ l) |})
      end)
  else if String.eqb key "system" then
    first values (fun v =>
      match ParseInt v with
      | None => Return (badRequest "invalid system")
      | Some system =>
          Continue (setWhere l
            {| Galaxy := Galaxy (where_ l); System := system;
               Position := Position (where_ l);
               CType := CType (where_ l) |})
      end)
  else if String.eqb key "position" then
    first values (fun v =>
      match ParseInt v with
      | None => Return (badRequest "invalid position")
      | Some position =>
          Continue (setWhere l
            {| Galaxy := Galaxy (where_ l); System := System (where_ l);
               Position := position; CType := CType (where_ l) |})
      end)
  else if String.eqb key "type" then
    first values (fun v =>
      match ParseInt v with
      | None => Return (badRequest "invalid type")
      | Some t =>
          Continue (setWhere l
            {| Galaxy := Galaxy (where_ l); System := System (where_ l);
               Position := Position (where_ l); CType := t |})
      end)
  else if String.eqb key "mission" then
    first values (fun v =>
      match ParseInt v with
      | None => Return (badRequest "invalid mission")
      | Some missionInt => Continue (setMission l missionInt)
      end)
  else if String.eqb key "duration" then
    first values (fun v =>
      match ParseInt v with
      | None => Return (badRequest "invalid duration")
      | Some d => Continue (setDuration l d)
      end)
  else if String.eqb key "union" then
    first values (fun v =>
      match ParseInt v with
      | None => Return (badRequest "invalid union id")
      | Some u => Continue (setUnionID l u)
      end)
  else if String.eqb key "metal" then
    first values (fun v =>
      match ParseInt v with
      | None => Return (badRequest "invalid metal")
      | Some metal =>
          if metal <? 0 then Return (badRequest "invalid metal")
          else Continue (setPayload l
            {| Metal := metal; Crystal := Crystal (payload l);
               Deuterium := Deuterium (payload l) |})
      end)
  else if String.eqb key "crystal" then
    first values (fun v =>
      match ParseInt v with
      | None => Return (badRequest "invalid crystal")
      | Some crystal =>
          if crystal <? 0 then Return (badRequest "invalid crystal")
          else Continue (setPayload l
            {| Metal := Metal (payload l); Crystal := crystal;
               Deuterium := Deuterium (payload l) |})
      end)
  else if String.eqb key "deuterium" then
    first values (fun v =>
      match ParseInt v with
      | None => Return (badRequest "invalid deuterium")
      | Some deuterium =>
          if deuterium <? 0 then Return (badRequest "invalid deuterium")
          else Continue (setPayload l
            {| Metal := Metal (payload l); Crystal := Crystal (payload l);
               Deuterium := deuterium |})
      end)
  else Continue l.

(** for key, values := range c.Request().PostForm *)
Fixpoint rangePostForm (form : Values) (l : Locals) : Flow Locals :=
  match form with
  | [] => Continue l
  | (key, values) :: rest =>
      match formEntry key values l with
      | Return o => Return o
      | Continue l' => rangePostForm rest l'
      end
  end.

(** A field stays as it was unless the entry has its key. *)
Definition sameUnlessKeyed (key : string) (l l' : Locals) : Prop :=
  (key <> "ships" -> ships l' = ships l) /\
  (key <> "speed" -> speed l' = speed l) /\
  (key <> "type" -> CType (where_ l') = CType (where_ l)) /\
  (key <> "mission" -> mission l' = mission l) /\
  (key <> "duration" -> duration l' = duration l) /\
  (key <> "union" -> unionID l' = unionID l) /\
  (key <> "metal" -> Metal (payload l') = Metal (payload l)) /\
  (key <> "crystal" -> Crystal (payload l') = Crystal (payload l)) /\
  (key <> "deuterium" -> Deuterium (payload l') = Deuterium (payload l)).

(** A variable keeps its value through the loop when the form has no
    entry for its key. *)
Definition sameUnlessPosted (form : Values) (l l' : Locals) : Prop :=
  (hasKey "ships" form = false -> ships l' = ships l) /\
  (hasKey "speed" form = false -> speed l' = speed l) /\
  (hasKey "type" form = false -> CType (where_ l') = CType (where_ l)) /\
  (hasKey "mission" form = false -> mission l' = mission l) /\
  (hasKey "duration" form = false -> duration l' = duration l) /\
  (hasKey "union" form = false -> unionID l' = unionID l) /\
  (hasKey "metal" form = false ->
   Metal (payload l') = Metal (payload l)) /\
  (hasKey "crystal" form = false ->
   Crystal (payload l') = Crystal (payload l)) /\
  (hasKey "deuterium" form = false ->
   Deuterium (payload l') = Deuterium (payload l)).

(** The variables as declared before the loop. *)
Definition initialLocals : Locals :=
  {| ships := [];
     where_ := {| Galaxy := 0; System := 0; Position := 0;
                  CType := PlanetType |};
     mission := Transport;
     duration := 0;
     unionID := 0;
     payload := {| Metal := 0; Crystal := 0; Deuterium := 0 |};
     speed := HundredPercent |}.

(** The errors of bot.SendFleet that the handler reports as a bad
    request. *)
Definition isPreconditionViolation (err : error) : bool :=
  error_eqb err ErrInvalidPlanetID
  || error_eqb err ErrNoShipSelected
  || error_eqb err ErrUninhabitedPlanet
  || error_eqb err ErrNoDebrisField
  || error_eqb err ErrPlayerInVacationMode
  || error_eqb err ErrAdminOrGM
  || error_eqb err ErrNoAstrophysics
  || error_eqb err ErrNoobProtection
  || error_eqb err ErrPlayerTooStrong
  || error_eqb err ErrNoMoonAvailable
  || error_eqb err ErrNoRecyclerAvailable
  || error_eqb err ErrNoEventsRunning
  || error_eqb err ErrPlanetAlreadyReservedForRelocation.

(** What the handler answers to the result of bot.SendFleet. *)
Definition sendFleetReply (fleet : Fleet) (err : option error) : Outcome :=
  match err with
  | Some e =>
      if isPreconditionViolation e
      then Done (JSON StatusBadRequest (ErrorResp 400 (Error e)))
      else Done (JSON StatusInternalServerError (ErrorResp 500 (Error e)))
  | None => Done (JSON StatusOK (SuccessResp (RFleet fleet)))
  end.

Definition SendFleetHandler (c : Request) : Handler :=
  match ParseInt (Param c "planetID") with
  | None => Ret (badRequest "invalid planet id")
  | Some planetID =>
      match ParseFormError c with
      | Some _ => Ret (badRequest "invalid form")
      | None =>
          match rangePostForm (PostForm c) initialLocals with
          | Return o => Ret o
          | Continue l =>
              '(fleet, err) <- call (SendFleet planetID (ships l) (speed l)
                                       (where_ l) (mission l) (payload l)
                                       (duration l) (unionID l)) ;;
              Ret (sendFleetReply fleet err)
          end
      end
  end.

(** ** LoginHandler, PageContentHandler, GetFleetsHandler *)

Definition LoginHandler (c : Request) : Handler :=
  '(_, err) <- call LoginWithExistingCookies ;;
  match err with
  | Some e =>
      if error_eqb e ErrBadCredentials
      then Ret (Done (JSON StatusBadRequest (ErrorResp 400 (Error e))))
      else Ret (Done (JSON StatusInternalServerError
                        (ErrorResp 500 (Error e))))
  | None => Ret (Done (JSON StatusOK (SuccessResp RNil)))
  end.

Definition PageContentHandler (c : Request) : Handler :=
  match ParseFormError c with
  | Some e => Ret (Done (JSON StatusBadRequest (ErrorResp 400 (Error e))))
  | None =>
      '(pageHTML, _) <- call (GetPageContent (Form c)) ;;
      Ret (Done (JSON StatusOK (SuccessResp (RBytes pageHTML))))
  end.

Definition GetFleetsHandler (c : Request) : Handler :=
  '(fleets, _) <- call GetFleets ;;
  Ret (Done (JSON StatusOK (SuccessResp (RFleets fleets)))).

(** ** GetFromGameHandler *)

(** bytes.Replace and strings.Replace with n = -1 (every occurrence), of
    the Go library. *)
Variable ReplaceAll : string -> string -> string -> string.

Definition replaceHostname (requestHostname html : string)
  : Prog BotE string :=
  serverURLBytes <- call ReadServerURL ;;
  apiNewHostname <- call ReadApiNewHostname ;;
  let apiNewHostnameBytes :=
    if (0 <? Z.of_nat (String.length apiNewHostname))
    then apiNewHostname else requestHostname in
  let escapedServerURL := ReplaceAll serverURLBytes "/" "\/" in
  let doubleEscapedServerURL := ReplaceAll serverURLBytes "/" "\\\/" in
  let escapedAPINewHostname := ReplaceAll apiNewHostnameBytes "/" "\/" in
  let doubleEscapedAPINewHostname :=
    ReplaceAll apiNewHostnameBytes "/" "\\\/" in
  let html := ReplaceAll html serverURLBytes apiNewHostnameBytes in
  let html := ReplaceAll html escapedServerURL escapedAPINewHostname in
  let html :=
    ReplaceAll html doubleEscapedServerURL doubleEscapedAPINewHostname in
  Ret html.

Definition prepareHostname (tls : bool) (requestHost : string) : string :=
  if tls then "https://" ++ requestHost else "http://" ++ requestHost.

Definition disableCookiebanner1 (pageHTML : string) : string :=
  ReplaceAll pageHTML "<title>"
    "<style>.cookiebanner1{display: none;}</style><title>".

Definition GetFromGameHandler (c : Request) : Handler :=
  let vals :=
    if (0 <? Z.of_nat (List.length (QueryParams c)))
    then QueryParams c
    else [("page", ["ingame"]); ("component", ["overview"])] in
  state <- call ReadState ;;
  '(pageHTML, err) <-
     (if String.eqb state "Manuel Mode"
      then call (getPageContent vals)
      else call (GetPageContent vals)) ;;
  pageHTML <- replaceHostname (prepareHostname (TLS c) (Host c)) pageHTML ;;
  let pageHTML := disableCookiebanner1 pageHTML in
  let written :=
    match err with
    | Some e => write StatusOK (HTMLBlobBody (Error e)) noResponse
    | None => noResponse
    end in
  Ret (Done (write StatusOK (HTMLBlobBody pageHTML) written)).

(** ** GetCaptchaHandler *)

(** Of net/http and net/url: the error of http.NewRequest, if any, the
    canonical form of a header key and url.Values.Encode.  Of the otp
    library: totp.GenerateCodeCustom.  Of encoding/json: the error of
    json.Unmarshal into the challenge struct, and the [captchaSolver] that
    json.Unmarshal leaves in [out] with its error.  [gfChallengeID] is a
    constant of the package. *)
Variable newRequestError : string -> string -> option error.
Variable CanonicalHeaderKey : string -> string.
Variable Encode : Values -> string.
Variable GenerateCodeCustom :
  string -> Z -> ValidateOpts -> string * option error.
Variable UnmarshalChallenge : string -> option error.
Variable UnmarshalCaptchaSolver : string -> captchaSolver * option error.
Variable gfChallengeID : string.

Definition NewRequest (method url : string) (body : option string)
  : HTTPRequest + error :=
  match newRequestError method url with
  | Some e => inr e
  | None =>
      inl {| Method := method; URL := url; ReqBody := body;
             ReqHeader := [] |}
  end.

(** req.Header.Add(key, value) *)
Definition HeaderAdd (req : HTTPRequest) (key value : string)
  : HTTPRequest :=
  {| Method := Method req; URL := URL req; ReqBody := ReqBody req;
     ReqHeader := (ReqHeader req ++ [(CanonicalHeaderKey key, value)])%list |}.

(** The values a header holds for a key, and Header.Get(key): the first
    of them, or the empty string. *)
Definition HeaderValues (h : Header) (key : string) : list string :=
  map snd
    (filter (fun kv => String.eqb (fst kv) (CanonicalHeaderKey key)) h).

Definition HeaderGet (h : Header) (key : string) : string :=
  match HeaderValues h key with
  | v :: _ => v
  | [] => EmptyString
  end.

Definition nl : string := String (ascii_of_nat 10) EmptyString.
Definition tab : string := String (ascii_of_nat 9) EmptyString.

(** The page that shows the challenge and the form to answer it. *)
Definition captchaPage (challengeID : string) : string :=
  "<img style=" ++ dq ++ "background-color: black;" ++ dq ++ " src=" ++ dq
  ++ "captcha/question/" ++ challengeID ++ dq ++ " /><br />" ++ nl
  ++ "<img style=" ++ dq ++ "background-color: black;" ++ dq ++ " src="
  ++ dq ++ "captcha/icons/" ++ challengeID ++ dq ++ " /><br />" ++ nl
  ++ "<form action=" ++ dq ++ "captcha/solve" ++ dq ++ " method=" ++ dq
  ++ "POST" ++ dq ++ ">" ++ nl ++ tab ++ "<input type=" ++ dq ++ "hidden"
  ++ dq ++ " name=" ++ dq ++ "challenge_id" ++ dq ++ " value=" ++ dq
  ++ challengeID ++ dq ++ " />" ++ nl ++ tab ++ "<input name=" ++ dq
  ++ "answer" ++ dq ++ " type=" ++ dq ++ "radio" ++ dq ++ " value=" ++ dq
  ++ "0" ++ dq ++ " /> <label for=" ++ dq ++ "ans0" ++ dq
  ++ ">1</label></span>" ++ nl ++ tab ++ "<input name=" ++ dq ++ "answer"
  ++ dq ++ " type=" ++ dq ++ "radio" ++ dq ++ " value=" ++ dq ++ "1" ++ dq
  ++ " /> <label for=" ++ dq ++ "ans1" ++ dq ++ ">2</label></span>" ++ nl
  ++ tab ++ "<input name=" ++ dq ++ "answer" ++ dq ++ " type=" ++ dq
  ++ "radio" ++ dq ++ " value=" ++ dq ++ "2" ++ dq ++ dq
  ++ " /> <label for=" ++ dq ++ "ans1" ++ dq ++ ">3</label></span>" ++ nl
  ++ tab ++ "<input name=" ++ dq ++ "answer" ++ dq ++ " type=" ++ dq
  ++ "radio" ++ dq ++ " value=" ++ dq ++ "3" ++ dq ++ dq
  ++ " /> <label for=" ++ dq ++ "ans1" ++ dq ++ ">4</label></span>" ++ nl
  ++ "<br/>" ++ nl ++ "<button type=" ++ dq ++ "submit" ++ dq ++ " class="
  ++ dq ++ "btn btn-primary" ++ dq ++ ">Submit</button>" ++ nl ++ dq ++ nl
  ++ nl ++ "</form>" ++ challengeID.

Definition totpOpts : ValidateOpts :=
  {| Period := 30; Skew := 1; OptDigits := DigitsSix;
     OptAlgorithm := AlgorithmSHA1 |}.

(** From the two Add that every session request gets to the end of the
    handler. *)
Definition captchaExchange (payload : Values) (req : HTTPRequest)
  : Handler :=
  let req :=
    HeaderAdd req "Content-Type" "application/x-www-form-urlencoded" in
  let req := HeaderAdd req "Accept-Encoding" "gzip, deflate, br" in
  '(resp, err) <- call (DoReqWithLoginProxyTransport req) ;;
  match err, resp with
  | Some e, _ => Ret (Done (HTML StatusOK (Error e)))
  | None, None => Ret Panicked
  | None, Some resp =>
      if RespStatusCode resp =? 403 then
        '(data403, _) <- call (ReadBody resp) ;;
        Ret (Done (HTML (RespStatusCode resp) data403))
      else if RespStatusCode resp =? 409 then
        let challengeID := HeaderGet (RespHeader resp) gfChallengeID in
        let challengeID :=
          ReplaceAll challengeID ";https://challenge.gameforge.com"
            EmptyString in
        match NewRequest "GET"
                ("https://image-drop-challenge.gameforge.com/challenge/"
                 ++ challengeID ++ "/en-GB")
                (Some (Encode payload)) with
        | inr e => Ret (Done (HTML StatusOK (Error e)))
        | inl req2 =>
            '(resp2, err2) <- call (DoReqWithLoginProxyTransport req2) ;;
            match err2, resp2 with
            | Some e, _ => Ret (Done (HTML StatusOK (Error e)))
            | None, None => Ret Panicked
            | None, Some resp2 =>
                '(data, _) <- call (ReadBody resp2) ;;
                match UnmarshalChallenge data with
                | Some e =>
                    Ret (Done (HTML (RespStatusCode resp2) (Error e)))
                | None =>
                    Ret (Done (HTML StatusOK (captchaPage challengeID)))
                end
            end
        end
      else Ret (Done (HTML (RespStatusCode resp) "no captcha found"))
  end.

Definition GetCaptchaHandler (c : Request) : Handler :=
  '(gameEnvironmentID, platformGameID, err) <- call GetConfiguration ;;
  match err with
  | Some e => Ret (Done (HTML StatusOK (Error e)))
  | None =>
      username <- call ReadUsername ;;
      password <- call ReadPassword ;;
      let payload : Values :=
        [("autoGameAccountCreation", ["false"]);
         ("gameEnvironmentId", [gameEnvironmentID]);
         ("platformGameId", [platformGameID]);
         ("gfLang", ["en"]);
         ("locale", ["en_GB"]);
         ("identity", [username]);
         ("password", [password])] in
      match NewRequest "POST"
              "https://gameforge.com/api/v1/auth/thin/sessions"
              (Some (Encode payload)) with
      | inr e => Ret (Done (HTML StatusOK (Error e)))
      | inl req =>
          otpSecret <- call ReadOtpSecret ;;
          if negb (String.eqb otpSecret EmptyString) then
            now <- call TimeNow ;;
            match GenerateCodeCustom otpSecret now totpOpts with
            | (_, Some e) => Ret (Done (HTML StatusOK (Error e)))
            | (passcode, None) =>
                let req := HeaderAdd req "tnt-2fa-code" passcode in
                let req := HeaderAdd req "tnt-installation-id" EmptyString in
                captchaExchange payload req
            end
          else captchaExchange payload req
      end
  end.

(** ** GetCaptchaSolverHandler *)

Definition logIf (err : option error) (more : list string)
  : Prog BotE unit :=
  match err with
  | Some e => call (LogError e more)
  | None => Ret tt
  end.

Definition GetCaptchaSolverHandler (c : Request) : Handler :=
  let challengeID := PostFormValue c "challenge_id" in
  let answer := PostFormValue c "answer" in
  let payload := "{" ++ dq ++ "answer" ++ dq ++ ":" ++ answer ++ "}" in
  match NewRequest "POST"
          ("https://image-drop-challenge.gameforge.com/challenge/"
           ++ challengeID ++ "/en-GB")
          (Some payload) with
  | inr _ => Ret Panicked
  | inl req =>
      let req := HeaderAdd req "Content-Type" "application/json" in
      let req := HeaderAdd req "Accept-Encoding" "gzip, deflate, br" in
      '(resp, _) <- call (DoReqWithLoginProxyTransport req) ;;
      match resp with
      | None => Ret Panicked
      | Some resp =>
          '(by_, err) <- call (ReadBody resp) ;;
          _ <- logIf err [by_] ;;
          let '(out, uerr) := UnmarshalCaptchaSolver by_ in
          _ <- logIf uerr [by_] ;;
          _ <- (if String.eqb (cs_Status out) "solved"
                then call (SetChallengeID EmptyString)
                else Ret tt) ;;
          loggedIn <- call IsLoggedIn ;;
          if negb loggedIn then
            '(_, lerr) <- call LoginWithExistingCookies ;;
            match lerr with
            | Some e =>
                _ <- call (LogError e []) ;;
                Ret (Done (JSON StatusConflict
                             (SuccessResp (RString (cs_Status out)))))
            | None =>
                Ret (Done (JSON StatusOK (SuccessResp (RCaptcha out))))
            end
          else Ret (Done (JSON StatusOK (SuccessResp (RCaptcha out))))
      end
  end.

(** ** What a trace shows *)

(** The intent that a call of bot.SendFleet carries: the celestial and
    the variables the form filled. *)
Record Intent : Type := { celestial : Z; vars : Locals }.

Definition intentOf (cl : Call BotE) : list Intent :=
  match cl with
  | Called e _ =>
      match e with
      | SendFleet celestialID ships speed where_ mission payload
          duration unionID =>
          [ {| celestial := celestialID;
               vars := {| ships := ships; where_ := where_;
                          mission := mission; duration := duration;
                          unionID := unionID; payload := payload;
                          speed := speed |} |} ]
      | _ => []
      end
  end.

(** The intents dispatched to bot.SendFleet, in order. *)
Definition dispatched (tr : list (Call BotE)) : list Intent :=
  flat_map intentOf tr.

Definition sendFleetAnswerOf (cl : Call BotE)
  : list (Fleet * option error) :=
  match cl with
  | Called e x =>
      match e in BotE T return T -> list (Fleet * option error) with
      | SendFleet _ _ _ _ _ _ _ _ => fun r => [r]
      | _ => fun _ => []
      end x
  end.

(** What bot.SendFleet returned, call after call. *)
Definition sendFleetAnswers (tr : list (Call BotE))
  : list (Fleet * option error) :=
  flat_map sendFleetAnswerOf tr.

Definition loginAnswerOf (cl : Call BotE) : list (bool * option error) :=
  match cl with
  | Called e x =>
      match e in BotE T return T -> list (bool * option error) with
      | LoginWithExistingCookies => fun r => [r]
      | _ => fun _ => []
      end x
  end.

(** What bot.LoginWithExistingCookies returned, call after call. *)
Definition loginAnswers (tr : list (Call BotE))
  : list (bool * option error) :=
  flat_map loginAnswerOf tr.

Definition requestOf (cl : Call BotE) : list HTTPRequest :=
  match cl with
  | Called e _ =>
      match e with
      | DoReqWithLoginProxyTransport req => [req]
      | _ => []
      end
  end.

(** The requests handed to bot.doReqWithLoginProxyTransport, in order. *)
Definition requests (tr : list (Call BotE)) : list HTTPRequest :=
  flat_map requestOf tr.

Definition challengeWriteOf (cl : Call BotE) : list string :=
  match cl with
  | Called e _ =>
      match e with
      | SetChallengeID id => [id]
      | _ => []
      end
  end.

(** The values assigned to bot.ChallengeID, in order. *)
Definition challengeWrites (tr : list (Call BotE)) : list string :=
  flat_map challengeWriteOf tr.

Definition otpSecretReadOf (cl : Call BotE) : list string :=
  match cl with
  | Called e x =>
      match e in BotE T return T -> list string with
      | ReadOtpSecret => fun secret => [secret]
      | _ => fun _ => []
      end x
  end.

(** The values read from bot.otpSecret, in order. *)
Definition otpSecretReads (tr : list (Call BotE)) : list string :=
  flat_map otpSecretReadOf tr.

Definition clockReadOf (cl : Call BotE) : list Z :=
  match cl with
  | Called e x =>
      match e in BotE T return T -> list Z with
      | TimeNow => fun now => [now]
      | _ => fun _ => []
      end x
  end.

(** The values of time.Now(), in order. *)
Definition clockReads (tr : list (Call BotE)) : list Z :=
  flat_map clockReadOf tr.

Definition bodyReadOf (cl : Call BotE) : list (string * option error) :=
  match cl with
  | Called e x =>
      match e in BotE T return T -> list (string * option error) with
      | ReadBody _ => fun r => [r]
      | _ => fun _ => []
      end x
  end.

(** What readBody returned, call after call. *)
Definition bodiesRead (tr : list (Call BotE))
  : list (string * option error) :=
  flat_map bodyReadOf tr.

Definition loggedInAnswerOf (cl : Call BotE) : list bool :=
  match cl with
  | Called e x =>
      match e in BotE T return T -> list bool with
      | IsLoggedIn => fun b => [b]
      | _ => fun _ => []
      end x
  end.

(** What bot.IsLoggedIn() returned, call after call. *)
Definition loggedInAnswers (tr : list (Call BotE)) : list bool :=
  flat_map loggedInAnswerOf tr.

Definition pageAnswerOf (cl : Call BotE) : list (string * option error) :=
  match cl with
  | Called e x =>
      match e in BotE T return T -> list (string * option error) with
      | GetPageContent _ => fun r => [r]
      | getPageContent _ => fun r => [r]
      | _ => fun _ => []
      end x
  end.

(** What bot.GetPageContent and bot.getPageContent returned, call after
    call. *)
Definition pageAnswers (tr : list (Call BotE))
  : list (string * option error) :=
  flat_map pageAnswerOf tr.

Definition stateReadOf (cl : Call BotE) : list string :=
  match cl with
  | Called e x =>
      match e in BotE T return T -> list string with
      | ReadState => fun st => [st]
      | _ => fun _ => []
      end x
  end.

(** The values read from bot.state, in order. *)
Definition stateReads (tr : list (Call BotE)) : list string :=
  flat_map stateReadOf tr.

Definition fetchOf (cl : Call BotE) : list bool :=
  match cl with
  | Called e _ =>
      match e with
      | GetPageContent _ => [false]
      | getPageContent _ => [true]
      | _ => []
      end
  end.

(** The page fetches, in order: [true] for the internal
    bot.getPageContent, [false] for the exported bot.GetPageContent. *)
Definition internalFetches (tr : list (Call BotE)) : list bool :=
  flat_map fetchOf tr.

(** The errors of bot.SendFleet that the design document names as
    violated preconditions. *)
Definition namedViolations : list error :=
  [ ErrNoShipSelected; ErrUninhabitedPlanet; ErrNoDebrisField;
    ErrPlayerInVacationMode; ErrAdminOrGM; ErrNoAstrophysics;
    ErrNoobProtection; ErrPlayerTooStrong; ErrNoMoonAvailable;
    ErrNoRecyclerAvailable; ErrNoEventsRunning;
    ErrPlanetAlreadyReservedForRelocation; ErrInvalidPlanetID ].

(** ** The validator behind bot.SendFleet *)

(** What the validator leaves in the world: the requests sent to the
    remote game service so far, and the rest of the bot. *)
Record Remote (S : Type) : Type :=
  { sent : list HTTPRequest; session : S }.

(** Modelled from the spec: bot.SendFleet, whose code is in another file
    of the package.  "Preconditions (fail fast, zero network calls on
    violation): at least one ship selected; ...  Each violated
    precondition returns a distinct, named reason."  With no ship in the
    list the operation returns the zero [Fleet] and [ErrNoShipSelected]
    and leaves the world as it is; otherwise it goes on to the other
    preconditions and the submission, [dispatch]. *)
Definition validatedSendFleet (S : Type) (zeroFleet : Fleet)
  (dispatch : Z -> list Quantifiable -> Z -> Coordinate -> Z -> Resources ->
              Z -> Z -> Remote S -> (Fleet * option error) * Remote S)
  (celestialID : Z) (ships : list Quantifiable) (speed : Z)
  (where_ : Coordinate) (mission : Z) (payload : Resources)
  (duration unionID : Z) (w : Remote S)
  : (Fleet * option error) * Remote S :=
  match ships with
  | [] => ((zeroFleet, Some ErrNoShipSelected), w)
  | _ :: _ =>
      dispatch celestialID ships speed where_ mission payload
        duration unionID w
  end.

(** A bot whose SendFleet is the validator; [others] answers the other
    operations. *)
Definition validatingBot (S : Type) (zeroFleet : Fleet)
  (dispatch : Z -> list Quantifiable -> Z -> Coordinate -> Z -> Resources ->
              Z -> Z -> Remote S -> (Fleet * option error) * Remote S)
  (others : forall X, BotE X -> Remote S -> X * Remote S)
  (X : Type) (e : BotE X) : Remote S -> X * Remote S :=
  match e in BotE T return Remote S -> T * Remote S with
  | SendFleet celestialID ships speed where_ mission payload
      duration unionID =>
      validatedSendFleet zeroFleet dispatch celestialID ships speed where_
        mission payload duration unionID
  | e' => others _ e'
  end.

End Handlers.

Arguments Continue {Fleet A} a.
Arguments Return {Fleet A} o.
Arguments Panicked {Fleet}.
Arguments ErrorResp {Fleet} code message.
Arguments noResponse {Fleet}.
Arguments HTML {Fleet} code s.
Arguments HTMLBlob {Fleet} code b.
Arguments HTMLBody {Fleet} s.
Arguments HTMLBlobBody {Fleet} b.
Arguments badRequest {Fleet} message.
Arguments RNil {Fleet}.
Arguments RBytes {Fleet} b.
Arguments RString {Fleet} s.
Arguments RCaptcha {Fleet} out.
Arguments SendFleet {Fleet Slots} celestialID ships speed where_ mission
  payload duration unionID.
Arguments GetPageContent {Fleet Slots} vals.
Arguments getPageContent {Fleet Slots} vals.
Arguments GetFleets {Fleet Slots}.
Arguments LoginWithExistingCookies {Fleet Slots}.
Arguments IsLoggedIn {Fleet Slots}.
Arguments ReadState {Fleet Slots}.
Arguments ReadServerURL {Fleet Slots}.
Arguments ReadApiNewHostname {Fleet Slots}.
Arguments ReadUsername {Fleet Slots}.
Arguments ReadPassword {Fleet Slots}.
Arguments ReadOtpSecret {Fleet Slots}.
Arguments SetChallengeID {Fleet Slots} id.
Arguments LogError {Fleet Slots} e more.
Arguments GetConfiguration {Fleet Slots}.
Arguments DoReqWithLoginProxyTransport {Fleet Slots} req.
Arguments ReadBody {Fleet Slots} resp.
Arguments TimeNow {Fleet Slots}.

(** ** The v7 extractor (pkg/extractor/v7/extractor.go) *)

(** The outcome of a Go call: the values returned, or a panic. *)
Inductive Returns (A : Type) : Type :=
| Returned (a : A)
| Panic.

Arguments Returned {A} a.
Arguments Panic {A}.

Definition andThen {A B : Type} (r : Returns A) (k : A -> Returns B)
  : Returns B :=
  match r with
  | Returned a => k a
  | Panic => Panic
  end.

Section ExtractorV7.

(** goquery: the document type and NewDocumentFromReader over the bytes
    of a page, which returns a nil document with its error. *)
Variable Document : Type.
Variable NewDocumentFromReader : string -> option Document * option error.

(** Types of the ogame package. *)
Variable Location : Type.
Variable Clock : Type.
Variable ResourcesDetails : Type.
Variable ExpeditionMessage : Type.
Variable MarketplaceMessage : Type.
Variable DefensesInfos : Type.
Variable Facilities : Type.
Variable Researches : Type.
Variable ShipsInfos : Type.
Variable ResourceSettings : Type.
Variable CharacterClass : Type.
Variable ResourcesBuildings : Type.
Variable CombatReportSummary : Type.
Variable EspionageReport : Type.

(** [e.GetLocation()], a method of the embedded v6 extractor, and
    clockwork.NewRealClock(). *)
Variable GetLocation : Location.
Variable NewRealClock : Clock.

(** The package-level functions of v7 that the methods delegate to; they
    are in the other files of the package. *)
Variable extractPremiumToken : string -> Z -> Returns (string * option error).
Variable extractResourcesDetailsFromFullPageFromDoc :
  option Document -> Returns ResourcesDetails.
Variable extractExpeditionMessagesFromDoc :
  option Document -> Location ->
  Returns (list ExpeditionMessage * Z * option error).
Variable extractMarketplaceMessagesFromDoc :
  option Document -> Location ->
  Returns (list MarketplaceMessage * Z * option error).
Variable extractDefenseFromDoc :
  option Document -> Returns (DefensesInfos * option error).
Variable PkgExtractFacilitiesFromDoc :
  option Document -> Returns (Facilities * option error).
Variable extractResearchFromDoc : option Document -> Returns Researches.
Variable extractShipsFromDoc :
  option Document -> Returns (ShipsInfos * option error).
Variable extractResourceSettingsFromDoc :
  option Document -> Returns (ResourceSettings * string * option error).
Variable extractCharacterClassFromDoc :
  option Document -> Returns (CharacterClass * option error).
Variable extractResourcesDetails :
  string -> Returns (ResourcesDetails * option error).
Variable PkgExtractConstructions :
  string -> Clock -> Returns (Z * Z * Z * Z * Z * Z * Z * Z).
Variable extractFleet1ShipsFromDoc : option Document -> Returns ShipsInfos.
Variable extractCombatReportMessagesFromDoc :
  option Document -> Returns (list CombatReportSummary * Z * option error).
Variable extractIPMFromDoc : option Document -> Returns (Z * Z * string).
Variable extractEspionageReportFromDoc :
  option Document -> Location -> Returns (EspionageReport * option error).
Variable extractOverviewShipSumCountdownFromBytes : string -> Returns Z.
Variable extractOverviewProductionFromDoc :
  option Document -> Returns (list Quantifiable * option error).
Variable extractCancelBuildingInfos :
  string -> Returns (string * Z * Z * option error).
Variable extractCancelResearchInfos :
  string -> Returns (string * Z * Z * option error).

(** Modelled from the spec: the v6 extractor's reading of the building
    levels and v7's package-level extractResourcesBuildingsFromDoc, both in
    files that are not part of these sources.  "Each newer generation ...
    supplies replacements only for operations whose markup differs in that
    generation"; "both interpreters return identical building levels for
    unchanged markup".  [resourcesMarkupChanged] tells whether the
    resources markup of a document is that of the new generation, read by
    [readV7ResourcesBuildings]; unchanged markup is read as v6 reads it. *)
Variable v6ExtractResourcesBuildingsFromDoc :
  option Document -> Returns (ResourcesBuildings * option error).
Variable resourcesMarkupChanged : option Document -> bool.
Variable readV7ResourcesBuildings :
  option Document -> Returns (ResourcesBuildings * option error).

Definition extractResourcesBuildingsFromDoc (doc : option Document)
  : Returns (ResourcesBuildings * option error) :=
  if resourcesMarkupChanged doc
  then readV7ResourcesBuildings doc
  else v6ExtractResourcesBuildingsFromDoc doc.

(** Modelled from the spec: v6's ExtractResourcesBuildings over the bytes
    of a page, the operation that v7 replaces: the document of the page,
    read by v6. *)
Definition v6ExtractResourcesBuildings (pageHTML : string)
  : Returns (ResourcesBuildings * option error) :=
  v6ExtractResourcesBuildingsFromDoc (fst (NewDocumentFromReader pageHTML)).

(** [doc, _ := goquery.NewDocumentFromReader(bytes.NewReader(pageHTML))] *)
Definition document (pageHTML : string) : option Document :=
  let '(doc, _) := NewDocumentFromReader pageHTML in doc.

(** The methods of v7.Extractor, in the order of the file. *)

Definition ExtractResourcesDetailsFromFullPageFromDoc
  (doc : option Document) : Returns ResourcesDetails :=
  extractResourcesDetailsFromFullPageFromDoc doc.

Definition ExtractExpeditionMessagesFromDoc (doc : option Document)
  : Returns (list ExpeditionMessage * Z * option error) :=
  extractExpeditionMessagesFromDoc doc GetLocation.

Definition ExtractMarketplaceMessagesFromDoc (doc : option Document)
  (location : Location)
  : Returns (list MarketplaceMessage * Z * option error) :=
  extractMarketplaceMessagesFromDoc doc location.

Definition ExtractDefenseFromDoc (doc : option Document)
  : Returns (DefensesInfos * option error) :=
  extractDefenseFromDoc doc.

Definition ExtractFacilitiesFromDoc (doc : option Document)
  : Returns (Facilities * option error) :=
  PkgExtractFacilitiesFromDoc doc.

Definition ExtractResearchFromDoc (doc : option Document)
  : Returns Researches :=
  extractResearchFromDoc doc.

Definition ExtractShipsFromDoc (doc : option Document)
  : Returns (ShipsInfos * option error) :=
  extractShipsFromDoc doc.

Definition ExtractResourceSettingsFromDoc (doc : option Document)
  : Returns (ResourceSettings * string * option error) :=
  extractResourceSettingsFromDoc doc.

Definition ExtractCharacterClassFromDoc (doc : option Document)
  : Returns (CharacterClass * option error) :=
  extractCharacterClassFromDoc doc.

Definition ExtractResourcesBuildingsFromDoc (doc : option Document)
  : Returns (ResourcesBuildings * option error) :=
  extractResourcesBuildingsFromDoc doc.

Definition ExtractFleet1ShipsFromDoc (doc : option Document)
  : Returns ShipsInfos :=
  extractFleet1ShipsFromDoc doc.

Definition ExtractCombatReportMessagesFromDoc (doc : option Document)
  : Returns (list CombatReportSummary * Z * option error) :=
  extractCombatReportMessagesFromDoc doc.

Definition ExtractIPMFromDoc (doc : option Document)
  : Returns (Z * Z * string) :=
  extractIPMFromDoc doc.

Definition ExtractEspionageReportFromDoc (doc : option Document)
  : Returns (EspionageReport * option error) :=
  extractEspionageReportFromDoc doc GetLocation.

Definition ExtractOverviewShipSumCountdownFromBytes (pageHTML : string)
  : Returns Z :=
  extractOverviewShipSumCountdownFromBytes pageHTML.

Definition ExtractOverviewProductionFromDoc (doc : option Document)
  : Returns (list Quantifiable * option error) :=
  extractOverviewProductionFromDoc doc.

Definition ExtractPremiumToken (pageHTML : string) (days : Z)
  : Returns (string * option error) :=
  extractPremiumToken pageHTML days.

Definition ExtractResourcesDetailsFromFullPage (pageHTML : string)
  : Returns ResourcesDetails :=
  ExtractResourcesDetailsFromFullPageFromDoc (document pageHTML).

Definition ExtractExpeditionMessages (pageHTML : string)
  : Returns (list ExpeditionMessage * Z * option error) :=
  ExtractExpeditionMessagesFromDoc (document pageHTML).

Definition ExtractMarketplaceMessages (pageHTML : string)
  : Returns (list MarketplaceMessage * Z * option error) :=
  ExtractMarketplaceMessagesFromDoc (document pageHTML) GetLocation.

Definition ExtractDefense (pageHTML : string)
  : Returns (DefensesInfos * option error) :=
  ExtractDefenseFromDoc (document pageHTML).

Definition ExtractFacilities (pageHTML : string)
  : Returns (Facilities * option error) :=
  ExtractFacilitiesFromDoc (document pageHTML).

Definition ExtractResearch (pageHTML : string) : Returns Researches :=
  ExtractResearchFromDoc (document pageHTML).

Definition ExtractShips (pageHTML : string)
  : Returns (ShipsInfos * option error) :=
  ExtractShipsFromDoc (document pageHTML).

Definition ExtractResourceSettings (pageHTML : string)
  : Returns (ResourceSettings * string * option error) :=
  ExtractResourceSettingsFromDoc (document pageHTML).

Definition ExtractCharacterClass (pageHTML : string)
  : Returns (CharacterClass * option error) :=
  ExtractCharacterClassFromDoc (document pageHTML).

Definition ExtractResourcesBuildings (pageHTML : string)
  : Returns (ResourcesBuildings * option error) :=
  ExtractResourcesBuildingsFromDoc (document pageHTML).

Definition ExtractResourcesDetails (pageHTML : string)
  : Returns (ResourcesDetails * option error) :=
  extractResourcesDetails pageHTML.

Definition ExtractConstructions (pageHTML : string)
  : Returns (Z * Z * Z * Z * Z * Z * Z * Z) :=
  PkgExtractConstructions pageHTML NewRealClock.

Definition ExtractFleet1Ships (pageHTML : string) : Returns ShipsInfos :=
  ExtractFleet1ShipsFromDoc (document pageHTML).

Definition ExtractCombatReportMessagesSummary (pageHTML : string)
  : Returns (list CombatReportSummary * Z * option error) :=
  ExtractCombatReportMessagesFromDoc (document pageHTML).

Definition ExtractIPM (pageHTML : string) : Returns (Z * Z * string) :=
  ExtractIPMFromDoc (document pageHTML).

Definition ExtractEspionageReport (pageHTML : string)
  : Returns (EspionageReport * option error) :=
  ExtractEspionageReportFromDoc (document pageHTML).

Definition ExtractOverviewProduction (pageHTML : string)
  : Returns (list Quantifiable * Z * option error) :=
  let doc := document pageHTML in
  andThen (ExtractOverviewShipSumCountdownFromBytes pageHTML)
    (fun shipSumCountdown =>
       andThen (ExtractOverviewProductionFromDoc doc)
         (fun '(production, err) =>
            Returned (production, shipSumCountdown, err))).

Definition ExtractCancelBuildingInfos (pageHTML : string)
  : Returns (string * Z * Z * option error) :=
  extractCancelBuildingInfos pageHTML.

Definition ExtractCancelResearchInfos (pageHTML : string)
  : Returns (string * Z * Z * option error) :=
  extractCancelResearchInfos pageHTML.

End ExtractorV7.

(** ** The method set of v7.Extractor

    [type Extractor struct { v6.Extractor }]: a method that the file
    declares on v7.Extractor is the one a call selects; every other method
    of v6.Extractor is promoted, and a call runs the v6 body. *)

(** The methods that extractor.go declares on v7.Extractor. *)
Definition declaredMethods : list string :=
  [ "ExtractPremiumToken";
    "ExtractResourcesDetailsFromFullPage";
    "ExtractResourcesDetailsFromFullPageFromDoc";
    "ExtractExpeditionMessages";
    "ExtractMarketplaceMessages";
    "ExtractDefense";
    "ExtractFacilities";
    "ExtractResearch";
    "ExtractShips";
    "ExtractResourceSettings";
    "ExtractCharacterClass";
    "ExtractResourcesBuildings";
    "ExtractResourcesDetails";
    "ExtractConstructions";
    "ExtractFleet1Ships";
    "ExtractCombatReportMessagesSummary";
    "ExtractIPM";
    "ExtractIPMFromDoc";
    "ExtractEspionageReport";
    "ExtractOverviewProduction";
    "ExtractOverviewShipSumCountdownFromBytes";
    "ExtractOverviewProductionFromDoc";
    "ExtractFleet1ShipsFromDoc";
    "ExtractResourceSettingsFromDoc";
    "ExtractDefenseFromDoc";
    "ExtractExpeditionMessagesFromDoc";
    "ExtractMarketplaceMessagesFromDoc";
    "ExtractFacilitiesFromDoc";
    "ExtractResearchFromDoc";
    "ExtractShipsFromDoc";
    "ExtractResourcesBuildingsFromDoc";
    "ExtractCombatReportMessagesFromDoc";
    "ExtractEspionageReportFromDoc";
    "ExtractCancelBuildingInfos";
    "ExtractCancelResearchInfos";
    "ExtractCharacterClassFromDoc" ].

Definition declares (name : string) : bool :=
  existsb (String.eqb name) declaredMethods.

Section MethodSets.

(** An operation takes the arguments of the call (the page among them)
    to its results. *)
Variable Args : Type.
Variable Results : Type.

Definition Operation : Type := Args -> Results.
Definition MethodTable : Type := string -> option Operation.

(** The selector [e.name] on a struct with the methods [own] and an
    embedded value with the methods [embedded]. *)
Definition selectMethod (own : list (string * Operation))
  (embedded : MethodTable) : MethodTable :=
  fun name =>
    match find (fun d => String.eqb (fst d) name) own with
    | Some d => Some (snd d)
    | None => embedded name
    end.

(** The words of the design document: a generation is its predecessor's
    table of operations, cloned, with the changed entries replaced. *)
Definition replaceEntry (name : string) (op : Operation) (t : MethodTable)
  : MethodTable :=
  fun n => if String.eqb name n then Some op else t n.

Definition deltaOf (replacements : list (string * Operation))
  (predecessor : MethodTable) : MethodTable :=
  fold_right (fun d t => replaceEntry (fst d) (snd d) t)
    predecessor replacements.

(** The v6 extractor, and the bodies of the methods v7 declares. *)
Variable v6 : MethodTable.
Variable v7Body : string -> Operation.

Definition v7Own : list (string * Operation) :=
  map (fun name => (name, v7Body name)) declaredMethods.

Definition v7 : MethodTable := selectMethod v7Own v6.

(** Calling an operation of a generation on its arguments. *)
Definition callOn (t : MethodTable) (name : string) (a : Args)
  : option Results :=
  match t name with
  | Some op => Some (op a)
  | None => None
  end.

End MethodSets.

(** ** Concurrent calls of the handlers *)

Module Executor.

(** The handlers that reach the remote side, by the operation of the bot
    that carries the request: GetFromGameHandler calls
    bot.getPageContent when [bot.state] is "Manuel Mode" and
    bot.GetPageContent otherwise; PageContentHandler calls
    bot.GetPageContent; GetStaticHandler calls bot.Client.Do;
    GetCaptchaImgHandler and GetCaptchaTextHandler call
    bot.doReqWithLoginProxyTransport. *)
Inductive Kind : Type :=
| FromGame
| PageContent
| Static
| CaptchaImg.

(** Where a call stands: before its handler has chosen the operation; on
    the way of an operation outside the lane, before and during the
    request; on the way of bot.GetPageContent, waiting for the lane and
    during the request; after the request. *)
Inductive Call : Type :=
| Entered (k : Kind)
| Direct
| DirectRequest
| Waiting
| LaneRequest
| Finished.














End Executor.

(** ** A bot to run the handlers against

    Values for the declarations that the handlers take from the other
    files of the package, and a bot that answers every operation from a
    script and counts the calls made to it. *)

Module Example.

Definition Fleet : Type := Z.
Definition Slots : Type := Z.

Definition IsShipID (id : Z) : bool := (202 <=? id) && (id <=? 219).
Definition PlanetType : Z := 1.
Definition Transport : Z := 3.
Definition HundredPercent : Z := 10.

Definition sentinelText (e : error) : string :=
  match e with
  | ErrBadCredentials => "bad credentials"
  | ErrInvalidPlanetID => "invalid planet id"
  | ErrNoShipSelected => "no ship selected"
  | ErrUninhabitedPlanet => "uninhabited planet"
  | ErrNoDebrisField => "no debris field"
  | ErrPlayerInVacationMode => "player in vacation mode"
  | ErrAdminOrGM => "admin or GM"
  | ErrNoAstrophysics => "no astrophysics"
  | ErrNoobProtection => "noob protection"
  | ErrPlayerTooStrong => "player too strong"
  | ErrNoMoonAvailable => "no moon available"
  | ErrNoRecyclerAvailable => "no recycler available"
  | ErrNoEventsRunning => "no events running"
  | ErrPlanetAlreadyReservedForRelocation =>
      "planet already reserved for relocation"
  | ErrOther msg => msg
  end.

Record Script : Type :=
  { sendFleetReturns : Fleet * option error;
    pageReturns : string * option error;
    fleetsReturn : list Fleet * Slots;
    loginReturns : bool * option error;
    loggedIn : bool;
    stateIs : string;
    serverURL : string;
    apiNewHostname : string;
    username : string;
    password : string;
    otpSecret : string;
    configuration : string * string * option error;
    transport : HTTPRequest -> option HTTPResp * option error;
    bodyOf : HTTPResp -> string * option error;
    clock : Z }.

Definition answer (s : Script) (X : Type) (e : BotE Fleet Slots X) : X :=
  match e in BotE _ _ T return T with
  | SendFleet _ _ _ _ _ _ _ _ => sendFleetReturns s
  | GetPageContent _ => pageReturns s
  | getPageContent _ => pageReturns s
  | GetFleets => fleetsReturn s
  | LoginWithExistingCookies => loginReturns s
  | IsLoggedIn => loggedIn s
  | ReadState => stateIs s
  | ReadServerURL => serverURL s
  | ReadApiNewHostname => apiNewHostname s
  | ReadUsername => username s
  | ReadPassword => password s
  | ReadOtpSecret => otpSecret s
  | SetChallengeID _ => tt
  | LogError _ _ => tt
  | GetConfiguration => configuration s
  | DoReqWithLoginProxyTransport req => transport s req
  | ReadBody resp => bodyOf s resp
  | TimeNow => clock s
  end.

(** The scripted bot; its world is the number of calls it served. *)
Definition scripted (s : Script) (X : Type) (e : BotE Fleet Slots X)
  (served : nat) : X * nat :=
  (answer s e, S served).

(** A lobby that answers every request with the status and the body
    given. *)
Definition lobby (status : Z) (body : string) (req : HTTPRequest)
  : option HTTPResp * option error :=
  (Some {| RespStatusCode := status; RespHeader := [];
           RespBody := body |}, None).

(** A logged-out bot in front of a lobby that answers 200 with [body];
    SendFleet, GetPageContent and LoginWithExistingCookies return what is
    given. *)
Definition script (sendFleet : Fleet * option error)
  (page : string * option error) (login : bool * option error)
  (state secret body : string) : Script :=
  {| sendFleetReturns := sendFleet;
     pageReturns := page;
     fleetsReturn := ([], 0);
     loginReturns := login;
     loggedIn := false;
     stateIs := state;
     serverURL := "https://s1-en.ogame.gameforge.com";
     apiNewHostname := EmptyString;
     username := "player";
     password := "secret";
     otpSecret := secret;
     configuration := ("env", "game", None);
     transport := lobby 200 body;
     bodyOf := fun resp => (RespBody resp, None);
     clock := 1700000000 |}.

(** Stand-ins for the functions of the Go library: a Replace that leaves
    the text as it is, header keys kept as written, a fixed encoding, a
    fixed one-time code, and a json.Unmarshal that takes the body for the
    status. *)
Definition ReplaceAll (s old new : string) : string := s.
Definition newRequestError (method url : string) : option error := None.
Definition CanonicalHeaderKey (key : string) : string := key.
Definition Encode (v : Values) : string := "identity=player".
Definition GenerateCodeCustom (secret : string) (now : Z)
  (opts : ValidateOpts) : string * option error := ("123456", None).
Definition UnmarshalChallenge (data : string) : option error := None.
Definition UnmarshalCaptchaSolver (data : string)
  : captchaSolver * option error :=
  ({| cs_ID := "c434aa65"; cs_LastUpdated := 1611749410077;
      cs_Status := data |}, None).
Definition gfChallengeID : string := "gf-challenge-id".

(** A request with the planet id 123 in its path and the form given. *)
Definition requestWith (form : Values) : Request :=
  {| PathParams := [("planetID", "123")];
     QueryParams := [];
     ParseFormError := None;
     PostForm := form;
     Form := form;
     TLS := false;
     Host := "127.0.0.1:1234" |}.

(** The validator in front of a remote side that accepts every fleet and
    records one request for it. *)
Definition submit (celestialID : Z) (ships : list Quantifiable) (speed : Z)
  (where_ : Coordinate) (mission : Z) (payload : Resources)
  (duration unionID : Z) (w : Remote unit)
  : (Fleet * option error) * Remote unit :=
  ((1, None),
   {| sent := sent w ++
              [{| Method := "POST"; URL := "sendFleet";
                  ReqBody := None; ReqHeader := [] |}];
      session := session w |}).

Definition quiet (s : Script) (X : Type) (e : BotE Fleet Slots X)
  (w : Remote unit) : X * Remote unit :=
  (answer s e, w).

Definition validating (s : Script)
  : forall X, BotE Fleet Slots X -> Remote unit -> X * Remote unit :=
  fun X e => validatingBot 0 submit (quiet s) e.

Definition offline : Remote unit := {| sent := []; session := tt |}.

(** A reader of pages for the examples: a document is the level that the
    page shows, the page is the level in decimal, and any other page is a
    document of level 0.  Every page gives a document and no error, as
    with the parser of goquery, which reads any bytes as HTML. *)
Definition Document : Type := Z.

Definition NewDocumentFromReader (pageHTML : string)
  : option Document * option error :=
  match ParseInt pageHTML with
  | Some level => (Some level, None)
  | None => (Some 0, None)
  end.

Definition levelOrError (doc : option Document)
  : Returns (Z * option error) :=
  match doc with
  | Some level => Returned (level, None)
  | None => Returned (0, Some ErrInvalidPlanetID)
  end.

(** A v6 extractor with two operations, one of which v7 declares, and
    bodies for the methods of v7; an operation takes the page to a
    level. *)
Definition v6 : MethodTable string Z :=
  fun name =>
    if String.eqb name "ExtractPlanets" then Some (fun _ => 6)
    else if String.eqb name "ExtractResearch" then Some (fun _ => 6)
    else None.

Definition v7Body (name : string) : Operation string Z := fun _ => 7.

(** Markup counts as changed from level 100 on. *)
Definition resourcesMarkupChanged (doc : option Document) : bool :=
  match doc with
  | Some level => 100 <=? level
  | None => false
  end.

Definition readV7ResourcesBuildings (doc : option Document)
  : Returns (Z * option error) :=
  match doc with
  | Some level => Returned (level - 100, None)
  | None => Returned (0, Some ErrInvalidPlanetID)
  end.

End Example.

(** ** The handlers that have the bot act

    bot.Build, bot.CancelBuilding, bot.TearDown and the like return an
    error and nothing else; their handlers answer a success with
    [SuccessResp(nil)]. *)

(** ResourceSettings{MetalMine, CrystalMine, DeuteriumSynthesizer,
    SolarPlant, FusionReactor, SolarSatellite, Crawler}. *)
Record ResourceSettings : Type :=
  { MetalMine : Z;
    CrystalMine : Z;
    DeuteriumSynthesizer : Z;
    SolarPlant : Z;
    FusionReactor : Z;
    SolarSatellite : Z;
    Crawler : Z }.

(** A call of one of these operations, with its arguments.  CelestialID,
    PlanetID and ID are integer types of the package: the conversions in
    the handlers keep the value. *)
Inductive Command : Type :=
| Build (celestialID id nbr : Z)
| BuildCancelable (celestialID id : Z)
| BuildProduction (celestialID id nbr : Z)
| BuildBuilding (celestialID id : Z)
| BuildTechnology (celestialID id : Z)
| BuildDefense (celestialID id nbr : Z)
| BuildShips (celestialID id nbr : Z)
| CancelBuilding (celestialID : Z)
| CancelResearch (celestialID : Z)
| SetResourceSettings (planetID : Z) (settings : ResourceSettings)
| SendMessage (playerID : Z) (message : string)
| BuyOfferOfTheDay
| ActivateItem (ref : string) (celestialID : Z)
| DeleteMessage (messageID : Z)
| DeleteAllMessagesFromTab (tabID : Z)
| TearDown (celestialID id : Z).

Inductive CommandE : Type -> Type :=
| Perform (cmd : Command) : CommandE (option error).

(** strconv.FormatInt(n, 10) *)
Definition FormatInt (n : Z) : string :=
  NilZero.string_of_int (Z.to_int n).

Section Commands.

Variable Fleet : Type.
Variable sentinelText : error -> string.

(** Of strconv: the text of the error that ParseInt returns for an input
    it refuses. *)
Variable parseIntErrorText : string -> string.

Definition CommandHandler : Type := Prog CommandE (Outcome Fleet).

Definition serverError (message : string) : Outcome Fleet :=
  Done (JSON StatusInternalServerError (ErrorResp 500 message)).

(** c.JSON(http.StatusOK, SuccessResp(nil)) *)
Definition okNil : Outcome Fleet :=
  Done (JSON StatusOK (SuccessResp RNil)).

Definition SendMessageHandler (c : Request) : CommandHandler :=
  match ParseInt (PostFormValue c "playerID") with
  | None =>
      Ret (badRequest (parseIntErrorText (PostFormValue c "playerID")))
  | Some playerID =>
      let message := PostFormValue c "message" in
      err <- call (Perform (SendMessage playerID message)) ;;
      match err with
      | Some e =>
          if String.eqb (Error sentinelText e) "invalid parameters"
          then Ret (badRequest (Error sentinelText e))
          else Ret (serverError (Error sentinelText e))
      | None => Ret okNil
      end
  end.

Definition BuyOfferOfTheDayHandler (c : Request) : CommandHandler :=
  err <- call (Perform BuyOfferOfTheDay) ;;
  match err with
  | Some e => Ret (badRequest (Error sentinelText e))
  | None => Ret okNil
  end.

Definition ActivateCelestialItemHandler (c : Request) : CommandHandler :=
  match ParseInt (Param c "celestialID") with
  | None => Ret (badRequest "invalid celestial id")
  | Some celestialID =>
      let ref := Param c "itemRef" in
      err <- call (Perform (ActivateItem ref celestialID)) ;;
      match err with
      | Some e => Ret (badRequest (Error sentinelText e))
      | None => Ret okNil
      end
  end.

Definition SetResourceSettingsHandler (c : Request) : CommandHandler :=
  match ParseInt (Param c "planetID") with
  | None => Ret (badRequest "invalid planet id")
  | Some planetID =>
  match ParseInt (PostFormValue c "metalMine") with
  | None => Ret (badRequest "invalid metalMine")
  | Some metalMine =>
  match ParseInt (PostFormValue c "crystalMine") with
  | None => Ret (badRequest "invalid crystalMine")
  | Some crystalMine =>
  match ParseInt (PostFormValue c "deuteriumSynthesizer") with
  | None => Ret (badRequest "invalid deuteriumSynthesizer")
  | Some deuteriumSynthesizer =>
  match ParseInt (PostFormValue c "solarPlant") with
  | None => Ret (badRequest "invalid solarPlant")
  | Some solarPlant =>
  match ParseInt (PostFormValue c "fusionReactor") with
  | None => Ret (badRequest "invalid fusionReactor")
  | Some fusionReactor =>
  match ParseInt (PostFormValue c "solarSatellite") with
  | None => Ret (badRequest "invalid solarSatellite")
  | Some solarSatellite =>
  match ParseInt (PostFormValue c "crawler") with
  | None => Ret (badRequest "invalid crawler")
  | Some crawler =>
      let settings :=
        {| MetalMine := metalMine;
           CrystalMine := crystalMine;
           DeuteriumSynthesizer := deuteriumSynthesizer;
           SolarPlant := solarPlant;
           FusionReactor := fusionReactor;
           SolarSatellite := solarSatellite;
           Crawler := crawler |} in
      err <- call (Perform (SetResourceSettings planetID settings)) ;;
      match err with
      | Some e =>
          if error_eqb e ErrInvalidPlanetID
          then Ret (badRequest (Error sentinelText e))
          else Ret (serverError (Error sentinelText e))
      | None => Ret okNil
      end
  end end end end end end end end.

Definition BuildHandler (c : Request) : CommandHandler :=
  match ParseInt (Param c "planetID") with
  | None => Ret (badRequest "invalid planet id")
  | Some planetID =>
      match ParseInt (Param c "ogameID") with
      | None => Ret (badRequest "invalid ogame id")
      | Some ogameID =>
          match ParseInt (Param c "nbr") with
          | None => Ret (badRequest "invalid nbr")
          | Some nbr =>
              err <- call (Perform (Build planetID ogameID nbr)) ;;
              match err with
              | Some e => Ret (serverError (Error sentinelText e))
              | None => Ret okNil
              end
          end
      end
  end.

Definition BuildCancelableHandler (c : Request) : CommandHandler :=
  match ParseInt (Param c "planetID") with
  | None => Ret (badRequest "invalid planet id")
  | Some planetID =>
      match ParseInt (Param c "ogameID") with
      | None => Ret (badRequest "invalid ogame id")
      | Some ogameID =>
          err <- call (Perform (BuildCancelable planetID ogameID)) ;;
          match err with
          | Some e => Ret (serverError (Error sentinelText e))
          | None => Ret okNil
          end
      end
  end.

Definition BuildProductionHandler (c : Request) : CommandHandler :=
  match ParseInt (Param c "planetID") with
  | None => Ret (badRequest "invalid planet id")
  | Some planetID =>
      match ParseInt (Param c "ogameID") with
      | None => Ret (badRequest "invalid ogame id")
      | Some ogameID =>
          match ParseInt (Param c "nbr") with
          | None => Ret (badRequest "invalid nbr")
          | Some nbr =>
              err <- call (Perform (BuildProduction planetID ogameID nbr)) ;;
              match err with
              | Some e => Ret (serverError (Error sentinelText e))
              | None => Ret okNil
              end
          end
      end
  end.

Definition BuildBuildingHandler (c : Request) : CommandHandler :=
  match ParseInt (Param c "planetID") with
  | None => Ret (badRequest "invalid planet id")
  | Some planetID =>
      match ParseInt (Param c "ogameID") with
      | None => Ret (badRequest "invalid ogame id")
      | Some ogameID =>
          err <- call (Perform (BuildBuilding planetID ogameID)) ;;
          match err with
          | Some e => Ret (serverError (Error sentinelText e))
          | None => Ret okNil
          end
      end
  end.

Definition BuildTechnologyHandler (c : Request) : CommandHandler :=
  match ParseInt (Param c "planetID") with
  | None => Ret (badRequest "invalid planet id")
  | Some planetID =>
      match ParseInt (Param c "ogameID") with
      | None => Ret (badRequest "invalid ogame id")
      | Some ogameID =>
          err <- call (Perform (BuildTechnology planetID ogameID)) ;;
          match err with
          | Some e => Ret (serverError (Error sentinelText e))
          | None => Ret okNil
          end
      end
  end.

Definition BuildDefenseHandler (c : Request) : CommandHandler :=
  match ParseInt (Param c "planetID") with
  | None => Ret (badRequest "invalid planet id")
  | Some planetID =>
      match ParseInt (Param c "ogameID") with
      | None => Ret (badRequest "invalid ogame id")
      | Some ogameID =>
          match ParseInt (Param c "nbr") with
          | None => Ret (badRequest "invalid nbr")
          | Some nbr =>
              err <- call (Perform (BuildDefense planetID ogameID nbr)) ;;
              match err with
              | Some e => Ret (serverError (Error sentinelText e))
              | None => Ret okNil
              end
          end
      end
  end.

Definition BuildShipsHandler (c : Request) : CommandHandler :=
  match ParseInt (Param c "planetID") with
  | None => Ret (badRequest "invalid planet id")
  | Some planetID =>
      match ParseInt (Param c "ogameID") with
      | None => Ret (badRequest "invalid ogame id")
      | Some ogameID =>
          match ParseInt (Param c "nbr") with
          | None => Ret (badRequest "invalid nbr")
          | Some nbr =>
              err <- call (Perform (BuildShips planetID ogameID nbr)) ;;
              match err with
              | Some e => Ret (serverError (Error sentinelText e))
              | None => Ret okNil
              end
          end
      end
  end.

Definition CancelBuildingHandler (c : Request) : CommandHandler :=
  match ParseInt (Param c "planetID") with
  | None => Ret (badRequest "invalid planet id")
  | Some planetID =>
      err <- call (Perform (CancelBuilding planetID)) ;;
      match err with
      | Some e => Ret (serverError (Error sentinelText e))
      | None => Ret okNil
      end
  end.

Definition CancelResearchHandler (c : Request) : CommandHandler :=
  match ParseInt (Param c "planetID") with
  | None => Ret (badRequest "invalid planet id")
  | Some planetID =>
      err <- call (Perform (CancelResearch planetID)) ;;
      match err with
      | Some e => Ret (serverError (Error sentinelText e))
      | None => Ret okNil
      end
  end.

Definition DeleteMessageHandler (c : Request) : CommandHandler :=
  match ParseInt (Param c "messageID") with
  | None => Ret (badRequest "invalid message id")
  | Some messageID =>
      err <- call (Perform (DeleteMessage messageID)) ;;
      match err with
      | Some e => Ret (badRequest (Error sentinelText e))
      | None => Ret okNil
      end
  end.

Definition DeleteEspionageMessagesHandler (c : Request) : CommandHandler :=
  err <- call (Perform (DeleteAllMessagesFromTab 20)) ;;
  match err with
  | Some _ => Ret (badRequest "Unable to delete Espionage Reports")
  | None => Ret okNil
  end.

Definition DeleteMessagesFromTabHandler (c : Request) : CommandHandler :=
  match ParseInt (Param c "tabIndex") with
  | None => Ret (badRequest "must provide tabIndex")
  | Some tabIndex =>
      if (tabIndex <? 20) || (24 <? tabIndex)
      then Ret (badRequest "invalid tabIndex provided")
      else
        err <- call (Perform (DeleteAllMessagesFromTab tabIndex)) ;;
        match err with
        | Some _ =>
            Ret (badRequest ("Unable to delete message from tab "
                             ++ FormatInt tabIndex))
        | None => Ret okNil
        end
  end.

(** The second test repeats [planetID < 0], as the source has it. *)
Definition TeardownHandler (c : Request) : CommandHandler :=
  match ParseInt (Param c "planetID") with
  | None => Ret (badRequest "invalid planet id")
  | Some planetID =>
      if planetID <? 0 then Ret (badRequest "invalid planet id")
      else
        match ParseInt (Param c "ogameID") with
        | None => Ret (badRequest "invalid ogame id")
        | Some ogameID =>
            if planetID <? 0 then Ret (badRequest "invalid ogame id")
            else
              err <- call (Perform (TearDown planetID ogameID)) ;;
              match err with
              | Some e => Ret (badRequest (Error sentinelText e))
              | None => Ret okNil
              end
        end
  end.

(** The handlers of this group. *)
Definition commandHandlers : list (Request -> CommandHandler) :=
  [ SendMessageHandler; BuyOfferOfTheDayHandler;
    ActivateCelestialItemHandler; SetResourceSettingsHandler;
    BuildHandler; BuildCancelableHandler; BuildProductionHandler;
    BuildBuildingHandler; BuildTechnologyHandler; BuildDefenseHandler;
    BuildShipsHandler; CancelBuildingHandler; CancelResearchHandler;
    DeleteMessageHandler; DeleteEspionageMessagesHandler;
    DeleteMessagesFromTabHandler; TeardownHandler ].

End Commands.

(** The operations performed, with what they returned, in order. *)
Definition answeredOf (cl : Call CommandE) : Command * option error :=
  match cl with
  | Called e x =>
      match e in CommandE T return T -> Command * option error with
      | Perform cmd => fun err => (cmd, err)
      end x
  end.

Definition answered (tr : list (Call CommandE))
  : list (Command * option error) :=
  map answeredOf tr.

Definition performed (tr : list (Call CommandE)) : list Command :=
  map fst (answered tr).

(** ** More of what a trace shows *)

Section Observations.

Variable Fleet : Type.
Variable Slots : Type.



Definition pageRequestOf (cl : Call (BotE Fleet Slots)) : list Values :=
  match cl with
  | Called e _ =>
      match e with
      | GetPageContent vals => [vals]
      | getPageContent vals => [vals]
      | _ => []
      end
  end.

(** The values handed to bot.GetPageContent and bot.getPageContent, in
    order. *)
Definition pageRequests (tr : list (Call (BotE Fleet Slots)))
  : list Values :=
  flat_map pageRequestOf tr.

Definition hostnameReadOf (cl : Call (BotE Fleet Slots)) : list string :=
  match cl with
  | Called e x =>
      match e in BotE _ _ T return T -> list string with
      | ReadApiNewHostname => fun name => [name]
      | _ => fun _ => []
      end x
  end.

(** The values read from bot.apiNewHostname, in order. *)
Definition hostnameReads (tr : list (Call (BotE Fleet Slots)))
  : list string :=
  flat_map hostnameReadOf tr.



End Observations.

(** Two passes through a loop come to the same: the same variables after
    it, or a return from the handler in both. *)
Definition sameFlow {Fleet A : Type} (a b : Flow Fleet A) : Prop :=
  match a, b with
  | Continue x, Continue y => x = y
  | Return _, Return _ => True
  | _, _ => False
  end.

(** ** Bots for the other handlers *)

Module Scripted.

(** A bot that answers every operation with [err] and counts the calls
    made to it. *)
Definition always (err : option error) (X : Type) (e : CommandE X)
  (served : nat) : X * nat :=
  match e in CommandE T return T * nat with
  | Perform _ => (err, S served)
  end.

(** A stand-in for the text of the errors of strconv.ParseInt. *)
Definition parseIntErrorText (s : string) : string :=
  "strconv.ParseInt: parsing " ++ dq ++ s ++ dq ++ ": invalid syntax".

(** A request with the path parameters and the form given. *)
Definition requestAt (params : list (string * string)) (form : Values)
  : Request :=
  {| PathParams := params;
     QueryParams := [];
     ParseFormError := None;
     PostForm := form;
     Form := form;
     TLS := false;
     Host := "127.0.0.1:1234" |}.

(** The same request, received over TLS under another name. *)
Definition overTLS (c : Request) : Request :=
  {| PathParams := PathParams c;
     QueryParams := QueryParams c;
     ParseFormError := ParseFormError c;
     PostForm := PostForm c;
     Form := Form c;
     TLS := true;
     Host := "ogamed.example.org" |}.

(** A logged-in bot with bot.apiNewHostname set, which returns [page] for
    every page. *)
Definition behindProxy (page : string) : Example.Script :=
  {| Example.sendFleetReturns := (0, None);
     Example.pageReturns := (page, None);
     Example.fleetsReturn := ([], 0);
     Example.loginReturns := (true, None);
     Example.loggedIn := true;
     Example.stateIs := EmptyString;
     Example.serverURL := "https://s1-en.ogame.gameforge.com";
     Example.apiNewHostname := "http://proxy.example.org";
     Example.username := "player";
     Example.password := "secret";
     Example.otpSecret := EmptyString;
     Example.configuration := ("env", "game", None);
     Example.transport := Example.lobby 200 EmptyString;
     Example.bodyOf := fun resp => (RespBody resp, None);
     Example.clock := 1700000000 |}.

End Scripted.

(** * Properties *)

(** ** The handlers *)

Lemma error_eqb_eq (a b : error) : error_eqb a b = true <-> a = b.
Proof.
  split.
  - destruct a, b; simpl; try discriminate; try reflexivity.
    intro H. apply String.eqb_eq in H. now subst.
  - intros <-. destruct a; simpl; try reflexivity. apply String.eqb_refl.
Qed.

Section HandlerFacts.

Variable Fleet : Type.
Variable Slots : Type.
Variable IsShipID : Z -> bool.
Variable PlanetType : Z.
Variable Transport : Z.
Variable HundredPercent : Z.
Variable sentinelText : error -> string.

Local Abbreviation sendFleetHandler :=
  (SendFleetHandler Fleet Slots IsShipID PlanetType Transport
     HundredPercent sentinelText).
Local Abbreviation start := (initialLocals PlanetType Transport HundredPercent).
Local Abbreviation errorText := (Error sentinelText).

(** The handler either answers by itself or hands one intent to the bot
    and answers with what [sendFleetReply] makes of the result. *)
Lemma SendFleetHandler_shape (c : Request) :
  (exists o, sendFleetHandler c = Ret o) \/
  (exists planetID l,
      rangePostForm Fleet IsShipID (PostForm c) start = Continue l /\
      sendFleetHandler c =
      Vis (SendFleet planetID (ships l) (speed l) (where_ l)
             (mission l) (payload l) (duration l) (unionID l))
        (fun r => let '(fleet, err) := r in
                  Ret (sendFleetReply sentinelText fleet err))).
Proof.
  unfold SendFleetHandler.
  destruct (ParseInt (Param c "planetID")) as [planetID|]; [|left; eauto].
  destruct (ParseFormError c); [left; eauto|].
  destruct (rangePostForm Fleet IsShipID (PostForm c) start) as [l|o];
    [|left; eauto].
  right. exists planetID, l. split; [reflexivity|].
  reflexivity.
Qed.

Ltac flow_cases :=
  repeat match goal with
    | H : Continue _ = Continue _ |- _ => injection H as H; subst
    | H : Return _ = Continue _ |- _ => discriminate H
    | H : first _ _ = Continue _ |- _ => unfold first in H
    | H : context [match ?x with _ => _ end] |- _ => destruct x eqn:?
    end.

Lemma formEntry_sameUnlessKeyed (key : string) (values : list string)
  (l l' : Locals) :
  formEntry Fleet IsShipID key values l = Continue l' ->
  sameUnlessKeyed key l l'.
Proof.
  unfold formEntry, sameUnlessKeyed. intro H.
  repeat match type of H with
    | context [String.eqb key ?k] =>
        let E := fresh "E" in
        destruct (String.eqb key k) eqn:E;
        [apply String.eqb_eq in E; subst key | clear E]
    end;
    flow_cases; simpl;
    repeat split; intro NE; try reflexivity; exfalso; apply NE; reflexivity.
Qed.


Lemma hasKey_cons (k key : string) (values : list string) (rest : Values) :
  hasKey k ((key, values) :: rest) = false ->
  key <> k /\ hasKey k rest = false.
Proof.
  unfold hasKey. simpl. intro H.
  apply orb_false_iff in H. destruct H as [H1 H2].
  split; [|exact H2].
  intro E. subst. rewrite String.eqb_refl in H1. discriminate.
Qed.

Lemma rangePostForm_sameUnlessPosted (form : Values) :
  forall l l',
    rangePostForm Fleet IsShipID form l = Continue l' ->
    sameUnlessPosted form l l'.
Proof.
  induction form as [|[key values] rest IH]; intros l l' H.
  - simpl in H. injection H as <-. unfold sameUnlessPosted. tauto.
  - simpl in H.
    destruct (formEntry Fleet IsShipID key values l) as [l1|o] eqn:E;
      [|discriminate].
    apply formEntry_sameUnlessKeyed in E. apply IH in H.
    unfold sameUnlessKeyed in E. unfold sameUnlessPosted in *.
    repeat match goal with
      | H : _ /\ _ |- _ => destruct H
      end.
    repeat split; intro K; apply hasKey_cons in K; destruct K as [K1 K2];
      match goal with
      | Hr : hasKey ?k rest = false -> ?a = ?b,
        He : key <> ?k -> ?b = ?c |- ?a = ?c =>
          rewrite (Hr K2); exact (He K1)
      end.
Qed.


(** A form that the loop refuses gets a bad request or, where an entry
    has no value to read ([values[0]], [a[1]]), a panic. *)
Lemma shipEntry_refusal (s : string) (o : Outcome Fleet) :
  shipEntry Fleet IsShipID s = Return o ->
  o = Panicked \/ exists message, o = badRequest message.
Proof.
  unfold shipEntry. intro H.
  repeat match type of H with
    | context [match ?x with _ => _ end] => destruct x
    end;
    try discriminate H; injection H as <-; eauto.
Qed.

Lemma shipEntries_refusal (values : list string) :
  forall acc (o : Outcome Fleet),
    shipEntries Fleet IsShipID values acc = Return o ->
    o = Panicked \/ exists message, o = badRequest message.
Proof.
  induction values as [|v values IH]; intros acc o H; simpl in H.
  - discriminate.
  - destruct (shipEntry Fleet IsShipID v) as [q|o'] eqn:Ev.
    + eapply IH. exact H.
    + injection H as <-. eapply shipEntry_refusal. exact Ev.
Qed.

Lemma formEntry_refusal (key : string) (values : list string) (l : Locals)
  (o : Outcome Fleet) :
  formEntry Fleet IsShipID key values l = Return o ->
  o = Panicked \/ exists message, o = badRequest message.
Proof.
  unfold formEntry. intro H.
  repeat match type of H with
    | context [String.eqb key ?k] => destruct (String.eqb key k)
    end;
    try discriminate H;
    try (destruct (shipEntries Fleet IsShipID values (ships l)) eqn:E;
         [discriminate H|];
         injection H as <-; eapply shipEntries_refusal; exact E);
    unfold first in H; destruct values as [|v vs];
    try (injection H as <-; now left);
    destruct (ParseInt v) as [n|];
    repeat match type of H with
      | context [if ?b then _ else _] => destruct b
      end;
    try discriminate H; injection H as <-; eauto.
Qed.

Lemma rangePostForm_refusal (form : Values) :
  forall l (o : Outcome Fleet),
    rangePostForm Fleet IsShipID form l = Return o ->
    o = Panicked \/ exists message, o = badRequest message.
Proof.
  induction form as [|[key values] rest IH]; intros l o H; simpl in H.
  - discriminate.
  - destruct (formEntry Fleet IsShipID key values l) as [l1|o'] eqn:E.
    + eapply IH. exact H.
    + injection H as <-. eapply formEntry_refusal. exact E.
Qed.

(** Running the handler: no call at all, or the one call of SendFleet
    with the variables of the loop, answered through [sendFleetReply]. *)
Lemma run_SendFleetHandler (W : Type)
  (h : forall X, BotE Fleet Slots X -> W -> X * W) (w : W) (c : Request) :
  (exists o, run h (sendFleetHandler c) w = (o, w, [])) \/
  (exists planetID l fleet err w1,
      rangePostForm Fleet IsShipID (PostForm c) start = Continue l /\
      run h (sendFleetHandler c) w =
      (sendFleetReply sentinelText fleet err, w1,
       [Called (SendFleet planetID (ships l) (speed l) (where_ l)
                  (mission l) (payload l) (duration l) (unionID l))
          (fleet, err)])).
Proof.
  destruct (SendFleetHandler_shape c) as [[o E] | (planetID & l & El & E)].
  - left. exists o. rewrite E. reflexivity.
  - right. rewrite E. simpl.
    destruct (h _ (SendFleet planetID (ships l) (speed l) (where_ l)
                     (mission l) (payload l) (duration l) (unionID l)) w)
      as [[fleet err] w1] eqn:Eh.
    exists planetID, l, fleet, err, w1. split; [exact El|].
    reflexivity.
Qed.

(** C10.  Whatever bot serves the request: in the intent that
    SendFleetHandler dispatches, the mission is Transport, the speed
    HundredPercent, the type of the destination PlanetType, the metal,
    crystal and deuterium of the cargo 0, the duration 0 and the union id
    0, each of them when the form has no entry for its key; and a value
    other than the default is only there when the form has the key. *)
Theorem SendFleetHandler_defaults (W : Type)
  (h : forall X, BotE Fleet Slots X -> W -> X * W) (w : W) (c : Request)
  (i : Intent) :
  In i (dispatched (snd (run h (sendFleetHandler c) w))) ->
  ((hasKey "mission" (PostForm c) = false -> mission (vars i) = Transport)
   /\ (hasKey "speed" (PostForm c) = false ->
       speed (vars i) = HundredPercent)
   /\ (hasKey "type" (PostForm c) = false ->
       CType (where_ (vars i)) = PlanetType)
   /\ (hasKey "metal" (PostForm c) = false -> Metal (payload (vars i)) = 0)
   /\ (hasKey "crystal" (PostForm c) = false ->
       Crystal (payload (vars i)) = 0)
   /\ (hasKey "deuterium" (PostForm c) = false ->
       Deuterium (payload (vars i)) = 0)
   /\ (hasKey "duration" (PostForm c) = false -> duration (vars i) = 0)
   /\ (hasKey "union" (PostForm c) = false -> unionID (vars i) = 0))
  /\
  ((mission (vars i) <> Transport -> hasKey "mission" (PostForm c) = true)
   /\ (speed (vars i) <> HundredPercent ->
       hasKey "speed" (PostForm c) = true)
   /\ (CType (where_ (vars i)) <> PlanetType ->
       hasKey "type" (PostForm c) = true)
   /\ (Metal (payload (vars i)) <> 0 -> hasKey "metal" (PostForm c) = true)
   /\ (Crystal (payload (vars i)) <> 0 ->
       hasKey "crystal" (PostForm c) = true)
   /\ (Deuterium (payload (vars i)) <> 0 ->
       hasKey "deuterium" (PostForm c) = true)
   /\ (duration (vars i) <> 0 -> hasKey "duration" (PostForm c) = true)
   /\ (unionID (vars i) <> 0 -> hasKey "union" (PostForm c) = true)).
Proof.
  intro Hin.
  destruct (run_SendFleetHandler h w c)
    as [[o E] | (planetID & l & fleet & err & w1 & El & E)];
    rewrite E in Hin; simpl in Hin; [contradiction|].
  destruct Hin as [<- | []]. simpl.
  apply rangePostForm_sameUnlessPosted in El.
  unfold sameUnlessPosted in El. simpl in El.
  repeat match goal with
    | H : _ /\ _ |- _ => destruct H
    end.
  split.
  - repeat split; assumption.
  - repeat split; intro NE;
      match goal with
      | |- hasKey ?k ?f = true =>
          destruct (hasKey k f) eqn:K; [reflexivity|];
          exfalso; apply NE; auto
      end.
Qed.


Lemma isPreconditionViolation_named (e : error) :
  isPreconditionViolation e = true <-> In e namedViolations.
Proof.
  unfold namedViolations. simpl. split.
  - destruct e; simpl; intro H; try discriminate; tauto.
  - intro H.
    repeat (destruct H as [<- | H]; [reflexivity|]). contradiction.
Qed.

(** C1.  Whatever bot serves the request: when bot.SendFleet has
    returned, it was called once and no other operation of the bot was;
    for one of the named errors the handler answers 400 with the status
    "error", the code 400 and the message of that very error (not that of
    an error with another text), for any other error 500 with its
    message, and without error 200 with the status "ok", the code 200 and
    the fleet that bot.SendFleet returned as the result. *)
Theorem SendFleetHandler_reports (W : Type)
  (h : forall X, BotE Fleet Slots X -> W -> X * W) (w : W) (c : Request)
  (fleet : Fleet) (err : option error) :
  In (fleet, err) (sendFleetAnswers (snd (run h (sendFleetHandler c) w))) ->
  let outcome := fst (fst (run h (sendFleetHandler c) w)) in
  let tr := snd (run h (sendFleetHandler c) w) in
  sendFleetAnswers tr = [(fleet, err)] /\
  List.length tr = 1%nat /\
  match err with
  | Some e =>
      (In e namedViolations ->
       outcome =
       Done {| StatusCode := Some 400;
               Written :=
                 [JSONBody {| Status := "error"; Code := 400;
                              Message := errorText e; Result := RNil |}] |}
       /\
       forall e', errorText e' <> errorText e ->
                  outcome <>
                  Done {| StatusCode := Some 400;
                          Written :=
                            [JSONBody {| Status := "error"; Code := 400;
                                         Message := errorText e';
                                         Result := RNil |}] |})
      /\
      (~ In e namedViolations ->
       outcome =
       Done {| StatusCode := Some 500;
               Written :=
                 [JSONBody {| Status := "error"; Code := 500;
                              Message := errorText e; Result := RNil |}] |})
  | None =>
      outcome =
      Done {| StatusCode := Some 200;
              Written :=
                [JSONBody {| Status := "ok"; Code := 200;
                             Message := EmptyString;
                             Result := RFleet fleet |}] |}
  end.
Proof.
  intro Hin.
  destruct (run_SendFleetHandler h w c)
    as [[o E] | (planetID & l & fleet' & err' & w1 & El & E)];
    rewrite E in *; simpl in *; [contradiction|].
  destruct Hin as [Heq | []]. injection Heq as -> ->.
  split; [reflexivity|]. split; [reflexivity|].
  destruct err as [e|]; [|reflexivity].
  unfold sendFleetReply.
  split.
  - intro Hn. apply isPreconditionViolation_named in Hn. rewrite Hn.
    split; [reflexivity|].
    intros e' Hne Heq. injection Heq as Heq. apply Hne. symmetry. exact Heq.
  - intro Hn.
    destruct (isPreconditionViolation e) eqn:Ep; [|reflexivity].
    exfalso. apply Hn. apply isPreconditionViolation_named. exact Ep.
Qed.

Local Abbreviation loginHandler := (LoginHandler Fleet Slots sentinelText).

(** C8.  Whatever bot serves the request: LoginHandler calls
    bot.LoginWithExistingCookies once; ErrBadCredentials is answered with
    400 and its message, every other error with 500 and the message of
    that error, no error with 200; the status is 400 exactly for
    ErrBadCredentials. *)
Theorem LoginHandler_classifies (W : Type)
  (h : forall X, BotE Fleet Slots X -> W -> X * W) (w : W) (c : Request)
  (ok : bool) (err : option error) :
  In (ok, err) (loginAnswers (snd (run h (loginHandler c) w))) ->
  let outcome := fst (fst (run h (loginHandler c) w)) in
  loginAnswers (snd (run h (loginHandler c) w)) = [(ok, err)] /\
  match err with
  | Some e =>
      (e = ErrBadCredentials ->
       outcome =
       Done (JSON 400 (ErrorResp 400 (errorText ErrBadCredentials)))) /\
      (e <> ErrBadCredentials ->
       outcome = Done (JSON 500 (ErrorResp 500 (errorText e))))
  | None => outcome = Done (JSON 200 (SuccessResp RNil))
  end /\
  (statusOf outcome = Some 400 <-> err = Some ErrBadCredentials).
Proof.
  unfold LoginHandler. simpl.
  destruct (h _ LoginWithExistingCookies w) as [[ok' err'] w1].
  assert (Hrun :
    forall o : Outcome Fleet,
      run h (Ret o : Handler Fleet Slots) w1 = (o, w1, [])) by reflexivity.
  destruct err' as [e'|].
  - destruct (error_eqb e' ErrBadCredentials) eqn:Ee;
      simpl; intros [Heq | []]; injection Heq as <- <-;
      (split; [reflexivity|]).
    + apply error_eqb_eq in Ee. subst e'.
      split; [split; [reflexivity | congruence]|].
      split; reflexivity.
    + assert (e' <> ErrBadCredentials).
      { intro Hc. subst. simpl in Ee. discriminate. }
      split; [split; [congruence | reflexivity]|].
      split; [discriminate | congruence].
  - simpl. intros [Heq | []]. injection Heq as <- <-.
    split; [reflexivity|]. split; [reflexivity|].
    split; discriminate.
Qed.


(** C2, as the code has it.  With the validator of the design document
    behind bot.SendFleet and a form without "ships": no request is sent
    to the remote side; a request whose planet id and form pass the checks
    of the handler is dispatched once, with an empty ship list, the
    validator answers ErrNoShipSelected and the handler 400 with its
    message; a request that the handler refuses (the planet id, the form
    or one of its entries) gets no call of the bot at all: it is answered
    400 by the handler, or the handler panics on an entry without value. *)
Theorem SendFleetHandler_no_ships (S : Type) (zeroFleet : Fleet)
  (dispatch : Z -> list Quantifiable -> Z -> Coordinate -> Z -> Resources ->
              Z -> Z -> Remote S -> (Fleet * option error) * Remote S)
  (others : forall X, BotE Fleet Slots X -> Remote S -> X * Remote S)
  (w : Remote S) (c : Request) :
  hasKey "ships" (PostForm c) = false ->
  let bot := validatingBot zeroFleet dispatch others in
  let outcome := fst (fst (run bot (sendFleetHandler c) w)) in
  let w' := snd (fst (run bot (sendFleetHandler c) w)) in
  let tr := snd (run bot (sendFleetHandler c) w) in
  sent w' = sent w /\
  (forall planetID l,
      ParseInt (Param c "planetID") = Some planetID ->
      ParseFormError c = None ->
      rangePostForm Fleet IsShipID (PostForm c) start = Continue l ->
      ships l = [] /\
      sendFleetAnswers tr = [(zeroFleet, Some ErrNoShipSelected)] /\
      List.length tr = 1%nat /\
      outcome =
      Done (JSON 400 (ErrorResp 400 (errorText ErrNoShipSelected)))) /\
  (ParseInt (Param c "planetID") = None ->
   tr = [] /\ outcome = badRequest "invalid planet id") /\
  (forall planetID e,
      ParseInt (Param c "planetID") = Some planetID ->
      ParseFormError c = Some e ->
      tr = [] /\ outcome = badRequest "invalid form") /\
  (forall planetID o,
      ParseInt (Param c "planetID") = Some planetID ->
      ParseFormError c = None ->
      rangePostForm Fleet IsShipID (PostForm c) start = Return o ->
      tr = [] /\ outcome = o /\
      (o = Panicked \/ exists message, o = badRequest message)) /\
  (tr = [] \/
   outcome = Done (JSON 400 (ErrorResp 400 (errorText ErrNoShipSelected)))).
Proof.
  intros Hno bot outcome w' tr.
  assert (Hships : forall l,
             rangePostForm Fleet IsShipID (PostForm c) start = Continue l ->
             ships l = []).
  { intros l El. apply rangePostForm_sameUnlessPosted in El.
    destruct El as [El _]. exact (El Hno). }
  subst outcome w' tr. unfold SendFleetHandler.
  destruct (ParseInt (Param c "planetID")) as [planetID|].
  2:{ simpl. split; [reflexivity|]. split; [intros; congruence|].
      split; [intros _; split; reflexivity|].
      split; [intros; congruence|]. split; [intros; congruence|].
      now left. }
  destruct (ParseFormError c) as [fe|].
  { simpl. split; [reflexivity|]. split; [intros; congruence|].
    split; [discriminate|].
    split; [intros; split; reflexivity|].
    split; [intros; congruence|]. now left. }
  destruct (rangePostForm Fleet IsShipID (PostForm c) start) as [l|o] eqn:El.
  2:{ simpl. split; [reflexivity|]. split; [intros; congruence|].
      split; [discriminate|]. split; [intros; congruence|].
      split; [|now left].
      intros planetID' o' _ _ Ho. injection Ho as <-.
      split; [reflexivity|]. split; [reflexivity|].
      eapply rangePostForm_refusal. exact El. }
  pose proof (Hships l eq_refl) as Hl.
  simpl. rewrite Hl. simpl.
  split; [reflexivity|].
  split.
  { intros planetID' l' Hp _ Hc. injection Hc as <-.
    repeat split; assumption || reflexivity. }
  split; [discriminate|]. split; [intros; congruence|].
  split; [intros; congruence|]. now right.
Qed.


Variable ReplaceAll : string -> string -> string -> string.
Variable newRequestError : string -> string -> option error.
Variable CanonicalHeaderKey : string -> string.
Variable Encode : Values -> string.
Variable GenerateCodeCustom :
  string -> Z -> ValidateOpts -> string * option error.
Variable UnmarshalChallenge : string -> option error.
Variable UnmarshalCaptchaSolver : string -> captchaSolver * option error.
Variable gfChallengeID : string.

Local Abbreviation getCaptchaHandler :=
  (GetCaptchaHandler Fleet Slots sentinelText ReplaceAll newRequestError
     CanonicalHeaderKey Encode GenerateCodeCustom UnmarshalChallenge
     gfChallengeID).
Local Abbreviation exchange :=
  (captchaExchange Fleet Slots sentinelText ReplaceAll newRequestError
     CanonicalHeaderKey Encode UnmarshalChallenge gfChallengeID).

Ltac answer h :=
  match goal with
  | |- context [h ?X ?e ?w] =>
      let a := fresh "a" in
      let w' := fresh "w" in
      destruct (h X e w) as [a w'] eqn:?
  end.

(** The exchange sends the request it is given, with the two headers of
    every session request added, before any other request, and reads
    neither the seed nor the clock. *)
Lemma run_captchaExchange (W : Type)
  (h : forall X, BotE Fleet Slots X -> W -> X * W) (w : W)
  (payload : Values) (req : HTTPRequest) :
  let tr := snd (run h (exchange payload req) w) in
  (exists rest,
      requests tr =
      HeaderAdd CanonicalHeaderKey
        (HeaderAdd CanonicalHeaderKey req "Content-Type"
           "application/x-www-form-urlencoded")
        "Accept-Encoding" "gzip, deflate, br" :: rest) /\
  otpSecretReads tr = [] /\ clockReads tr = [].
Proof.
  unfold captchaExchange. simpl.
  answer h. destruct a as [resp err].
  destruct err as [e|]; [simpl; eauto|].
  destruct resp as [resp|]; [|simpl; eauto].
  destruct (RespStatusCode resp =? 403).
  { simpl. answer h. destruct a as [data403 ?]. simpl. eauto. }
  destruct (RespStatusCode resp =? 409); [|simpl; eauto].
  destruct (NewRequest _ _ _ _) as [req2|e]; [|simpl; eauto].
  simpl. answer h. destruct a as [resp2 err2].
  destruct err2 as [e|]; [simpl; eauto|].
  destruct resp2 as [resp2|]; [|simpl; eauto].
  simpl. answer h. destruct a as [data ?].
  destruct (UnmarshalChallenge data); simpl; eauto.
Qed.


(** C5.  Whatever bot serves the request: the first request that
    GetCaptchaHandler sends is the POST of the credentials to the sessions
    endpoint; when the seed read from the bot is not empty, its header
    starts with tnt-2fa-code, holding the code that
    totp.GenerateCodeCustom gives for the seed, the time read and the
    options period 30, skew 1, six digits, SHA1; when the seed is empty,
    the header has the content type and the accepted encodings and
    nothing else, and the clock is not read. *)
Theorem GetCaptchaHandler_second_factor (W : Type)
  (h : forall X, BotE Fleet Slots X -> W -> X * W) (w : W) (c : Request)
  (req : HTTPRequest) (rest : list HTTPRequest) :
  requests (snd (run h (getCaptchaHandler c) w)) = req :: rest ->
  let tr := snd (run h (getCaptchaHandler c) w) in
  Method req = "POST" /\
  URL req = "https://gameforge.com/api/v1/auth/thin/sessions" /\
  digitsLength DigitsSix = 6 /\
  exists secret,
    otpSecretReads tr = [secret] /\
    (secret <> EmptyString ->
     exists now passcode,
       clockReads tr = [now] /\
       GenerateCodeCustom secret now
         {| Period := 30; Skew := 1; OptDigits := DigitsSix;
            OptAlgorithm := AlgorithmSHA1 |} = (passcode, None) /\
       ReqHeader req =
       [ (CanonicalHeaderKey "tnt-2fa-code", passcode);
         (CanonicalHeaderKey "tnt-installation-id", EmptyString);
         (CanonicalHeaderKey "Content-Type",
          "application/x-www-form-urlencoded");
         (CanonicalHeaderKey "Accept-Encoding", "gzip, deflate, br") ]) /\
    (secret = EmptyString ->
     clockReads tr = [] /\
     ReqHeader req =
     [ (CanonicalHeaderKey "Content-Type",
        "application/x-www-form-urlencoded");
       (CanonicalHeaderKey "Accept-Encoding", "gzip, deflate, br") ]).
Proof.
  pose proof (fun w' p q => run_captchaExchange h w' p q) as L.
  unfold GetCaptchaHandler.
  set (ex := captchaExchange Fleet Slots sentinelText ReplaceAll
               newRequestError CanonicalHeaderKey Encode UnmarshalChallenge
               gfChallengeID) in *.
  clearbody ex. simpl.
  answer h. destruct a as [[gameEnvironmentID platformGameID] err].
  destruct err as [e|]; [simpl; discriminate|].
  simpl. answer h. simpl. answer h. simpl.
  unfold NewRequest.
  destruct (newRequestError _ _) as [e|]; [simpl; discriminate|].
  simpl. answer h. rename a1 into secret.
  destruct (String.eqb secret EmptyString) eqn:Es; simpl.
  - apply String.eqb_eq in Es. subst secret.
    match goal with
    | |- context [run h (ex ?p ?q) ?w'] =>
        specialize (L w' p q);
        destruct (run h (ex p q) w') as [[o wf] trf]
    end.
    unfold requests, otpSecretReads, clockReads in L |- *.
    simpl in L |- *. destruct L as ([rest' L1] & L2 & L3).
    rewrite L1, L2, L3. intro H. injection H as <- <-.
    repeat split. exists EmptyString. split; [reflexivity|].
    split; [intro Hc; now elim Hc|]. intros _. split; reflexivity.
  - assert (Hs : secret <> EmptyString).
    { intro Hc. subst. simpl in Es. discriminate. }
    answer h. rename a1 into now.
    unfold totpOpts.
    destruct (GenerateCodeCustom secret now _) as [passcode gerr] eqn:Eg.
    destruct gerr as [e|]; [simpl; discriminate|].
    match goal with
    | |- context [run h (ex ?p ?q) ?w'] =>
        specialize (L w' p q);
        destruct (run h (ex p q) w') as [[o wf] trf]
    end.
    unfold requests, otpSecretReads, clockReads in L |- *.
    simpl in L |- *. destruct L as ([rest' L1] & L2 & L3).
    rewrite L1, L2, L3. intro H. injection H as <- <-.
    repeat split. exists secret. split; [reflexivity|].
    split; [|intro Hc; now elim Hs].
    intros _. exists now, passcode. repeat split. exact Eg.
Qed.


Local Abbreviation solverHandler :=
  (GetCaptchaSolverHandler Fleet Slots newRequestError CanonicalHeaderKey
     UnmarshalCaptchaSolver).

(** C6, as the code has it.  Whatever bot serves the request: when the
    handler has read the answer of the challenge service, it has sent one
    request, the POST of the selected answer, and read one body; it
    assigns the empty string to bot.ChallengeID exactly when the status in
    that body is "solved"; and it calls bot.LoginWithExistingCookies
    exactly when bot.IsLoggedIn() is false, whatever the status. *)
Theorem GetCaptchaSolverHandler_single_submission (W : Type)
  (h : forall X, BotE Fleet Slots X -> W -> X * W) (w : W) (c : Request)
  (body : string) (rerr : option error) :
  In (body, rerr) (bodiesRead (snd (run h (solverHandler c) w))) ->
  let tr := snd (run h (solverHandler c) w) in
  let out := fst (UnmarshalCaptchaSolver body) in
  (exists req,
      requests tr = [req] /\
      Method req = "POST" /\
      URL req =
      "https://image-drop-challenge.gameforge.com/challenge/"
      ++ PostFormValue c "challenge_id" ++ "/en-GB" /\
      ReqBody req =
      Some ("{" ++ dq ++ "answer" ++ dq ++ ":"
            ++ PostFormValue c "answer" ++ "}")) /\
  bodiesRead tr = [(body, rerr)] /\
  challengeWrites tr =
  (if String.eqb (cs_Status out) "solved" then [EmptyString] else []) /\
  exists loggedIn,
    loggedInAnswers tr = [loggedIn] /\
    List.length (loginAnswers tr) = (if loggedIn then 0 else 1)%nat.
Proof.
  unfold GetCaptchaSolverHandler, NewRequest.
  destruct (newRequestError _ _); [simpl; contradiction|].
  simpl. answer h. destruct a as [resp derr].
  destruct resp as [resp|]; [|simpl; contradiction].
  simpl. answer h. destruct a as [body' rerr'].
  destruct (UnmarshalCaptchaSolver body') as [out uerr] eqn:Eu.
  assert (Eout : out = fst (UnmarshalCaptchaSolver body'))
    by (rewrite Eu; reflexivity).
  clear Eu.
  destruct rerr' as [re|]; simpl; [answer h|];
    (destruct uerr as [ue|]; simpl; [answer h|]);
    (destruct (String.eqb (cs_Status out) "solved") eqn:Est; simpl;
     [answer h|]);
    (answer h;
     match goal with
     | a : bool |- _ => destruct a; simpl
     end;
     [|answer h;
       match goal with
       | a : (bool * option error)%type |- _ =>
           destruct a as [ok [le|]]; simpl; [answer h|]
       end]);
    simpl; (intros [Hin | []]); injection Hin as <- <-;
    rewrite <- Eout; rewrite Est;
    (split; [eexists; repeat split|]);
    (split; [reflexivity|]); (split; [reflexivity|]);
    eexists; split; reflexivity.
Qed.

(** The three handlers that do not look at the error of the operation
    they call, against any bot. *)
Lemma PageContentHandler_answers_ok (W : Type)
  (h : forall X, BotE Fleet Slots X -> W -> X * W) (w : W) (c : Request) :
  ParseFormError c = None ->
  exists pageHTML err,
    pageAnswers
      (snd (run h (PageContentHandler Fleet Slots sentinelText c) w))
    = [(pageHTML, err)] /\
    fst (fst (run h (PageContentHandler Fleet Slots sentinelText c) w))
    = Done (JSON 200 (SuccessResp (RBytes pageHTML))).
Proof.
  intro Hf. unfold PageContentHandler. rewrite Hf. simpl.
  answer h. destruct a as [pageHTML err]. simpl.
  exists pageHTML, err. split; reflexivity.
Qed.

Lemma GetFromGameHandler_answers_200 (W : Type)
  (h : forall X, BotE Fleet Slots X -> W -> X * W) (w : W) (c : Request) :
  statusOf
    (fst (fst (run h (GetFromGameHandler Fleet Slots sentinelText
                        ReplaceAll c) w)))
  = Some 200.
Proof.
  unfold GetFromGameHandler. simpl.
  answer h. destruct (String.eqb a "Manuel Mode"); simpl;
    answer h; destruct a0 as [pageHTML err]; simpl;
    answer h; answer h; simpl; destruct err; reflexivity.
Qed.

Lemma GetFleetsHandler_answers_ok (W : Type)
  (h : forall X, BotE Fleet Slots X -> W -> X * W) (w : W) (c : Request) :
  isSuccess (fst (fst (run h (GetFleetsHandler Fleet Slots c) w))) = true.
Proof.
  unfold GetFleetsHandler. simpl.
  answer h. destruct a as [fleets slots]. reflexivity.
Qed.

(** GetFromGameHandler fetches the page once: with the internal
    bot.getPageContent when the state it reads is "Manuel Mode", with the
    exported bot.GetPageContent otherwise.  The calls of the executor
    model branch in the same way. *)
Lemma GetFromGameHandler_branch (W : Type)
  (h : forall X, BotE Fleet Slots X -> W -> X * W) (w : W) (c : Request) :
  let tr :=
    snd (run h (GetFromGameHandler Fleet Slots sentinelText ReplaceAll c)
           w) in
  exists st,
    stateReads tr = [st] /\
    internalFetches tr = [String.eqb st "Manuel Mode"].
Proof.
  unfold GetFromGameHandler. simpl.
  answer h. exists a. destruct (String.eqb a "Manuel Mode"); simpl;
    answer h; destruct a0 as [pageHTML err]; simpl;
    answer h; answer h; simpl; split; reflexivity.
Qed.

(** PageContentHandler fetches through the exported bot.GetPageContent,
    once, when the form parses, and not at all otherwise. *)
Lemma PageContentHandler_fetch (W : Type)
  (h : forall X, BotE Fleet Slots X -> W -> X * W) (w : W) (c : Request) :
  internalFetches
    (snd (run h (PageContentHandler Fleet Slots sentinelText c) w))
  = match ParseFormError c with
    | Some _ => []
    | None => [false]
    end.
Proof.
  unfold PageContentHandler.
  destruct (ParseFormError c); [reflexivity|].
  simpl. answer h. destruct a as [pageHTML err]. reflexivity.
Qed.

End HandlerFacts.

(** ** The handlers on the scripted bot *)

Local Abbreviation sendFleetOn :=
  (SendFleetHandler Example.Fleet Example.Slots Example.IsShipID
     Example.PlanetType Example.Transport Example.HundredPercent
     Example.sentinelText).

(** A recycling fleet towards a position without debris. *)
Lemma SendFleetHandler_reports_witness :
  let bot :=
    Example.scripted
      (Example.script (0, Some ErrNoDebrisField) (EmptyString, None)
         (true, None) EmptyString EmptyString EmptyString) in
  let c :=
    Example.requestWith
      [("ships", ["209,2"]); ("mission", ["8"]); ("galaxy", ["1"])] in
  In (0, Some ErrNoDebrisField)
    (sendFleetAnswers (snd (run bot (sendFleetOn c) 0%nat))) /\
  fst (fst (run bot (sendFleetOn c) 0%nat)) =
  Done (JSON 400 (ErrorResp 400 "no debris field")).
Proof.
  intros bot c.
  assert (H : In (0, Some ErrNoDebrisField)
                (sendFleetAnswers (snd (run bot (sendFleetOn c) 0%nat))))
    by (simpl; left; reflexivity).
  split; [exact H|].
  destruct (SendFleetHandler_reports Example.IsShipID Example.PlanetType
              Example.Transport Example.HundredPercent Example.sentinelText
              bot 0%nat c _ _ H) as (_ & _ & T & _).
  apply T. simpl. tauto.
Defined.

(** A form with ships and a galaxy only. *)
Lemma SendFleetHandler_defaults_witness :
  let bot :=
    Example.scripted
      (Example.script (1, None) (EmptyString, None) (true, None)
         EmptyString EmptyString EmptyString) in
  let c :=
    Example.requestWith [("ships", ["203,1"]); ("galaxy", ["4"])] in
  let i :=
    {| celestial := 123;
       vars := {| ships := [{| ID := 203; Nbr := 1 |}];
                  where_ := {| Galaxy := 4; System := 0; Position := 0;
                               CType := Example.PlanetType |};
                  mission := Example.Transport;
                  duration := 0;
                  unionID := 0;
                  payload := {| Metal := 0; Crystal := 0; Deuterium := 0 |};
                  speed := Example.HundredPercent |} |} in
  In i (dispatched (snd (run bot (sendFleetOn c) 0%nat))) /\
  (hasKey "mission" (PostForm c) = false ->
   mission (vars i) = Example.Transport).
Proof.
  intros bot c i.
  assert (H : In i (dispatched (snd (run bot (sendFleetOn c) 0%nat))))
    by (simpl; left; reflexivity).
  split; [exact H|].
  exact (proj1 (proj1 (SendFleetHandler_defaults Example.IsShipID
                         Example.PlanetType Example.Transport
                         Example.HundredPercent Example.sentinelText
                         bot 0%nat c i H))).
Defined.

(** A login that the lobby refuses. *)
Lemma LoginHandler_classifies_witness :
  let bot :=
    Example.scripted
      (Example.script (0, None) (EmptyString, None)
         (false, Some ErrBadCredentials) EmptyString EmptyString
         EmptyString) in
  let c := Example.requestWith [] in
  let handler :=
    LoginHandler Example.Fleet Example.Slots Example.sentinelText c in
  In (false, Some ErrBadCredentials)
    (loginAnswers (snd (run bot handler 0%nat))) /\
  statusOf (fst (fst (run bot handler 0%nat))) = Some 400.
Proof.
  intros bot c handler.
  assert (H : In (false, Some ErrBadCredentials)
                (loginAnswers (snd (run bot handler 0%nat))))
    by (simpl; left; reflexivity).
  split; [exact H|].
  destruct (LoginHandler_classifies Example.sentinelText bot 0%nat c
              _ _ H) as (_ & _ & T).
  apply T. reflexivity.
Defined.

Local Abbreviation getCaptchaOn :=
  (GetCaptchaHandler Example.Fleet Example.Slots Example.sentinelText
     Example.ReplaceAll Example.newRequestError Example.CanonicalHeaderKey
     Example.Encode Example.GenerateCodeCustom Example.UnmarshalChallenge
     Example.gfChallengeID).

(** An account with a seed. *)
Lemma GetCaptchaHandler_second_factor_witness :
  let bot :=
    Example.scripted
      (Example.script (0, None) (EmptyString, None) (true, None)
         EmptyString "JBSWY3DPEHPK3PXP" EmptyString) in
  let c := Example.requestWith [] in
  let req :=
    {| Method := "POST";
       URL := "https://gameforge.com/api/v1/auth/thin/sessions";
       ReqBody := Some "identity=player";
       ReqHeader :=
         [ ("tnt-2fa-code", "123456");
           ("tnt-installation-id", EmptyString);
           ("Content-Type", "application/x-www-form-urlencoded");
           ("Accept-Encoding", "gzip, deflate, br") ] |} in
  requests (snd (run bot (getCaptchaOn c) 0%nat)) = [req] /\
  Method req = "POST".
Proof.
  intros bot c req.
  assert (H : requests (snd (run bot (getCaptchaOn c) 0%nat)) = [req])
    by reflexivity.
  split; [exact H|].
  exact (proj1 (GetCaptchaHandler_second_factor Example.sentinelText
                  Example.ReplaceAll Example.newRequestError
                  Example.CanonicalHeaderKey Example.Encode
                  Example.GenerateCodeCustom Example.UnmarshalChallenge
                  Example.gfChallengeID bot 0%nat c H)).
Defined.

Local Abbreviation solverOn :=
  (GetCaptchaSolverHandler Example.Fleet Example.Slots
     Example.newRequestError Example.CanonicalHeaderKey
     Example.UnmarshalCaptchaSolver).

(** The answer 2 to a challenge that the service reports as solved. *)
Lemma GetCaptchaSolverHandler_single_submission_witness :
  let bot :=
    Example.scripted
      (Example.script (0, None) (EmptyString, None) (true, None)
         EmptyString EmptyString "solved") in
  let c :=
    Example.requestWith
      [("challenge_id", ["c434aa65"]); ("answer", ["2"])] in
  In ("solved", None) (bodiesRead (snd (run bot (solverOn c) 0%nat))) /\
  challengeWrites (snd (run bot (solverOn c) 0%nat)) = [EmptyString].
Proof.
  intros bot c.
  assert (H : In ("solved", None)
                (bodiesRead (snd (run bot (solverOn c) 0%nat))))
    by (simpl; left; reflexivity).
  split; [exact H|].
  destruct (GetCaptchaSolverHandler_single_submission
              Example.newRequestError Example.CanonicalHeaderKey
              Example.UnmarshalCaptchaSolver bot 0%nat c _ _ H)
    as (_ & _ & T & _).
  exact T.
Defined.

(** C6, counterexample.  The challenge service reports the status
    "pending": the handler has sent its one request, does not ask again,
    and calls bot.LoginWithExistingCookies all the same. *)
Lemma login_resumed_before_solved :
  let bot :=
    Example.scripted
      (Example.script (0, None) (EmptyString, None) (true, None)
         EmptyString EmptyString "pending") in
  let c :=
    Example.requestWith
      [("challenge_id", ["c434aa65"]); ("answer", ["2"])] in
  let tr := snd (run bot (solverOn c) 0%nat) in
  bodiesRead tr = [("pending", None)] /\
  List.length (requests tr) = 1%nat /\
  loginAnswers tr = [(true, None)] /\
  fst (fst (run bot (solverOn c) 0%nat)) =
  Done (JSON 200
          (SuccessResp
             (RCaptcha {| cs_ID := "c434aa65";
                          cs_LastUpdated := 1611749410077;
                          cs_Status := "pending" |}))).
Proof.
  repeat split.
Qed.

(** A form with a speed only, which the validator rejects. *)
Lemma SendFleetHandler_no_ships_witness :
  let bot :=
    Example.validating
      (Example.script (0, None) (EmptyString, None) (true, None)
         EmptyString EmptyString EmptyString) in
  let c := Example.requestWith [("speed", ["5"])] in
  hasKey "ships" (PostForm c) = false /\
  sent (snd (fst (run bot (sendFleetOn c) Example.offline))) = [] /\
  fst (fst (run bot (sendFleetOn c) Example.offline)) =
  Done (JSON 400 (ErrorResp 400 "no ship selected")).
Proof.
  intros bot c.
  assert (H : hasKey "ships" (PostForm c) = false) by reflexivity.
  split; [exact H|].
  destruct (SendFleetHandler_no_ships Example.IsShipID Example.PlanetType
              Example.Transport Example.HundredPercent Example.sentinelText
              0 Example.submit
              (Example.quiet
                 (Example.script (0, None) (EmptyString, None) (true, None)
                    EmptyString EmptyString EmptyString))
              Example.offline c H) as (T1 & T2 & _).
  split; [exact T1|].
  exact (proj2 (proj2 (proj2 (T2 123 _ eq_refl eq_refl eq_refl)))).
Defined.

(** C2, counterexample.  A form without "ships" whose speed is 11: the
    handler answers "invalid speed" without a call of the bot, not "no
    ship selected". *)
Lemma no_ships_but_invalid_speed :
  let bot :=
    Example.validating
      (Example.script (0, None) (EmptyString, None) (true, None)
         EmptyString EmptyString EmptyString) in
  let c := Example.requestWith [("speed", ["11"])] in
  hasKey "ships" (PostForm c) = false /\
  snd (run bot (sendFleetOn c) Example.offline) = [] /\
  fst (fst (run bot (sendFleetOn c) Example.offline)) =
  Done (JSON 400 (ErrorResp 400 "invalid speed")) /\
  fst (fst (run bot (sendFleetOn c) Example.offline)) <>
  Done (JSON 400
          (ErrorResp 400 (Error Example.sentinelText ErrNoShipSelected))).
Proof.
  repeat split. discriminate.
Qed.

(** C7, on a bot that is not logged in.  bot.GetPageContent returns the
    error "not logged": PageContentHandler answers 200 with the status
    "ok", and GetFromGameHandler answers 200, the text of the error
    followed by the page.  GetFleetsHandler answers 200 whatever the
    second result of bot.GetFleets is. *)
Theorem errors_answered_as_success :
  let bot :=
    Example.scripted
      (Example.script (0, None) (EmptyString, Some (ErrOther "not logged"))
         (true, None) EmptyString EmptyString EmptyString) in
  let c := Example.requestWith [] in
  let pageContent :=
    run bot
      (PageContentHandler Example.Fleet Example.Slots Example.sentinelText
         c) 0%nat in
  let fromGame :=
    run bot
      (GetFromGameHandler Example.Fleet Example.Slots Example.sentinelText
         Example.ReplaceAll c) 0%nat in
  let fleets :=
    run bot (GetFleetsHandler Example.Fleet Example.Slots c) 0%nat in
  (pageAnswers (snd pageContent) =
   [(EmptyString, Some (ErrOther "not logged"))] /\
   fst (fst pageContent) =
   Done (JSON 200 (SuccessResp (RBytes EmptyString))) /\
   isSuccess (fst (fst pageContent)) = true) /\
  (pageAnswers (snd fromGame) =
   [(EmptyString, Some (ErrOther "not logged"))] /\
   fst (fst fromGame) =
   Done {| StatusCode := Some 200;
           Written := [HTMLBlobBody "not logged";
                       HTMLBlobBody EmptyString] |} /\
   isSuccess (fst (fst fromGame)) = true) /\
  fst (fst fleets) = Done (JSON 200 (SuccessResp (RFleets []))).
Proof.
  repeat split.
Qed.

(** ** The v7 extractor *)

Section MethodSetFacts.

Variable Args : Type.
Variable Results : Type.
Variable v6 : MethodTable Args Results.
Variable v7Body : string -> Operation Args Results.

(** Selecting a method on the struct is looking it up in the table
    cloned from the embedded value with the declared entries replaced. *)
Lemma selectMethod_deltaOf (own : list (string * Operation Args Results))
  (name : string) :
  selectMethod own v6 name = deltaOf own v6 name.
Proof.
  unfold selectMethod.
  induction own as [|[n op] own IH]; simpl; [reflexivity|].
  unfold replaceEntry at 1. simpl.
  destruct (String.eqb n name); [reflexivity | exact IH].
Qed.

Lemma find_declared (names : list string) (name : string) :
  find (fun d : string * Operation Args Results => String.eqb (fst d) name)
    (map (fun n => (n, v7Body n)) names) =
  if existsb (String.eqb name) names
  then Some (name, v7Body name) else None.
Proof.
  induction names as [|n names IH]; simpl; [reflexivity|].
  rewrite (String.eqb_sym name n).
  destruct (String.eqb n name) eqn:E; simpl; [|exact IH].
  apply String.eqb_eq in E. subst. reflexivity.
Qed.

Lemma v7_select (name : string) :
  v7 v6 v7Body name =
  if declares name then Some (v7Body name) else v6 name.
Proof.
  unfold v7, selectMethod, v7Own. rewrite find_declared.
  fold (declares name). destruct (declares name); reflexivity.
Qed.

Lemma declares_In (name : string) :
  declares name = true <-> In name declaredMethods.
Proof.
  unfold declares. rewrite existsb_exists. split.
  - intros (n & Hin & E). apply String.eqb_eq in E. now subst.
  - intro Hin. exists name. split; [exact Hin | apply String.eqb_refl].
Qed.

End MethodSetFacts.

Section ExtractorFacts.

Variable Args : Type.
Variable Results : Type.
Variable v6 : MethodTable Args Results.
Variable v7Body : string -> Operation Args Results.

Variable Document : Type.
Variable NewDocumentFromReader : string -> option Document * option error.
Variable ResourcesBuildings : Type.
Variable v6ExtractResourcesBuildingsFromDoc :
  option Document -> Returns (ResourcesBuildings * option error).
Variable resourcesMarkupChanged : option Document -> bool.
Variable readV7ResourcesBuildings :
  option Document -> Returns (ResourcesBuildings * option error).

(** C3.  The method set of v7.Extractor is the table of v6 with the
    entries of the declared methods replaced; an operation that
    extractor.go does not declare gives on every argument what v6 gives;
    the two generations can only differ on a declared one, which runs the
    v7 body; and the building levels of a page whose resources markup is
    unchanged are those that v6 reads. *)
Theorem v7_is_delta_of_v6 :
  (forall name,
      v7 v6 v7Body name = deltaOf (v7Own v7Body) v6 name) /\
  (forall name a,
      ~ In name declaredMethods ->
      callOn (v7 v6 v7Body) name a = callOn v6 name a) /\
  (forall name a,
      callOn (v7 v6 v7Body) name a <> callOn v6 name a ->
      In name declaredMethods) /\
  (forall name a,
      In name declaredMethods ->
      callOn (v7 v6 v7Body) name a = Some (v7Body name a)) /\
  (forall pageHTML,
      resourcesMarkupChanged (document NewDocumentFromReader pageHTML)
      = false ->
      ExtractResourcesBuildings NewDocumentFromReader
        v6ExtractResourcesBuildingsFromDoc resourcesMarkupChanged
        readV7ResourcesBuildings pageHTML =
      v6ExtractResourcesBuildings NewDocumentFromReader
        v6ExtractResourcesBuildingsFromDoc pageHTML).
Proof.
  split; [intro name; apply selectMethod_deltaOf|].
  split.
  { intros name a Hn. unfold callOn. rewrite v7_select.
    destruct (declares name) eqn:E; [|reflexivity].
    exfalso. apply Hn. apply declares_In. exact E. }
  split.
  { intros name a Hd. apply declares_In.
    destruct (declares name) eqn:E; [reflexivity|].
    exfalso. apply Hd. unfold callOn. rewrite v7_select, E. reflexivity. }
  split.
  { intros name a Hin. apply declares_In in Hin.
    unfold callOn. rewrite v7_select, Hin. reflexivity. }
  intros pageHTML Hm.
  unfold ExtractResourcesBuildings, ExtractResourcesBuildingsFromDoc,
    extractResourcesBuildingsFromDoc, v6ExtractResourcesBuildings.
  rewrite Hm. unfold document.
  destruct (NewDocumentFromReader pageHTML). reflexivity.
Qed.

End ExtractorFacts.

(** ** The extractor on the example reader *)

(** ExtractPlanets, which v7 does not declare, and the page of level 3. *)
Lemma v7_is_delta_of_v6_witness :
  ~ In "ExtractPlanets" declaredMethods /\
  In "ExtractResearch" declaredMethods /\
  Example.resourcesMarkupChanged
    (document Example.NewDocumentFromReader "3") = false /\
  callOn (v7 Example.v6 Example.v7Body) "ExtractPlanets" "3" = Some 6 /\
  callOn (v7 Example.v6 Example.v7Body) "ExtractResearch" "3" = Some 7 /\
  ExtractResourcesBuildings Example.NewDocumentFromReader
    Example.levelOrError Example.resourcesMarkupChanged
    Example.readV7ResourcesBuildings "3" = Returned (3, None).
Proof.
  assert (H1 : ~ In "ExtractPlanets" declaredMethods).
  { intro H. simpl in H.
    repeat (destruct H as [H | H]; [discriminate H|]). exact H. }
  assert (H2 : In "ExtractResearch" declaredMethods)
    by (simpl; tauto).
  assert (H3 : Example.resourcesMarkupChanged
                 (document Example.NewDocumentFromReader "3") = false)
    by reflexivity.
  destruct (v7_is_delta_of_v6 Example.v6 Example.v7Body
              Example.NewDocumentFromReader Example.levelOrError
              Example.resourcesMarkupChanged
              Example.readV7ResourcesBuildings)
    as (_ & T2 & _ & T4 & T5).
  split; [exact H1|]. split; [exact H2|]. split; [exact H3|].
  split; [rewrite (T2 "ExtractPlanets" "3" H1); reflexivity|].
  split; [rewrite (T4 "ExtractResearch" "3" H2); reflexivity|].
  rewrite (T5 "3" H3). reflexivity.
Defined.

(** ** strconv.ParseInt and strings.Split on the values of a form *)

Lemma digitOf_range (c : ascii) (d : Z) :
  digitOf c = Some d -> 0 <= d <= 9.
Proof.
  unfold digitOf. intro H.
  destruct ((48 <=? Z.of_nat (nat_of_ascii c))
            && (Z.of_nat (nat_of_ascii c) <=? 57)) eqn:E; [|discriminate].
  injection H as <-. apply andb_true_iff in E. destruct E as [E1 E2].
  apply Z.leb_le in E1, E2. lia.
Qed.

Lemma parseUintFrom_range (s : string) :
  forall acc n, 0 <= acc <= maxUint64 ->
                parseUintFrom s acc = Some n -> 0 <= n <= maxUint64.
Proof.
  induction s as [|c s IH]; intros acc n Hacc H; simpl in H.
  - injection H as <-. exact Hacc.
  - destruct (digitOf c) as [d|] eqn:Ed; [|discriminate].
    apply digitOf_range in Ed.
    destruct (maxUint64 <? acc * 10 + d) eqn:El; [discriminate|].
    apply Z.ltb_ge in El. eapply IH; [|exact H]. lia.
Qed.

(** A parsed value is an int64. *)
Lemma ParseInt_int64 (s : string) (n : Z) :
  ParseInt s = Some n -> - cutoff64 <= n < cutoff64.
Proof.
  unfold ParseInt. destruct s as [|c rest]; [discriminate|].
  assert (R : forall body un, ParseUint body = Some un ->
                              0 <= un <= maxUint64).
  { intros body un H. unfold ParseUint in H.
    destruct body; [discriminate|].
    eapply parseUintFrom_range; [|exact H]. unfold maxUint64. lia. }
  destruct (Ascii.eqb c "+"); [|destruct (Ascii.eqb c "-")];
    match goal with
    | |- context [ParseUint ?b] =>
        destruct (ParseUint b) as [un|] eqn:Eu; [|discriminate];
        apply R in Eu
    end; simpl;
    try (destruct (cutoff64 <=? un) eqn:E1; [discriminate|];
         apply Z.leb_gt in E1; intro H; injection H as <-;
         unfold cutoff64 in *; lia).
  destruct (cutoff64 <? un) eqn:E1; [discriminate|].
  apply Z.ltb_ge in E1. intro H; injection H as <-. unfold cutoff64 in *. lia.
Qed.

Local Abbreviation comma := (","%char).

Lemma digitOf_not_comma (c : ascii) (d : Z) :
  digitOf c = Some d -> Ascii.eqb c comma = false.
Proof.
  intro H. destruct (Ascii.eqb c comma) eqn:E; [|reflexivity].
  apply Ascii.eqb_eq in E. subst c. discriminate H.
Qed.

Lemma parseUintFrom_splitOn (s : string) :
  forall acc n, parseUintFrom s acc = Some n -> splitOn comma s = (s, []).
Proof.
  induction s as [|c s IH]; intros acc n H; simpl in *; [reflexivity|].
  destruct (digitOf c) as [d|] eqn:Ed; [|discriminate].
  destruct (maxUint64 <? acc * 10 + d); [discriminate|].
  rewrite (IH _ _ H). rewrite (digitOf_not_comma c Ed). reflexivity.
Qed.

(** A text that parses as an integer has no comma: Split leaves it in one
    piece. *)
Lemma ParseInt_Split (s : string) (n : Z) :
  ParseInt s = Some n -> Split s comma = [s].
Proof.
  unfold ParseInt, Split. destruct s as [|c rest]; [discriminate|].
  assert (R : forall body un, ParseUint body = Some un ->
                              splitOn comma body = (body, [])).
  { intros body un H. unfold ParseUint in H.
    destruct body; [discriminate|]. eapply parseUintFrom_splitOn. exact H. }
  destruct (Ascii.eqb c "+") eqn:Ep.
  - apply Ascii.eqb_eq in Ep. subst c.
    destruct (ParseUint rest) as [un|] eqn:Eu; [|discriminate].
    intros _. simpl. rewrite (R _ _ Eu). reflexivity.
  - destruct (Ascii.eqb c "-") eqn:Em.
    + apply Ascii.eqb_eq in Em. subst c.
      destruct (ParseUint rest) as [un|] eqn:Eu; [|discriminate].
      intros _. simpl. rewrite (R _ _ Eu). reflexivity.
    + destruct (ParseUint (String c rest)) as [un|] eqn:Eu; [|discriminate].
      intros _. rewrite (R _ _ Eu). reflexivity.
Qed.

(** Split of two texts joined by a comma. *)
Lemma splitOn_app (s t : string) :
  splitOn comma (s ++ String comma t) =
  let '(hs, ts) := splitOn comma s in
  let '(ht, tl) := splitOn comma t in
  (hs, (ts ++ ht :: tl)%list).
Proof.
  induction s as [|c s IH]; simpl.
  - destruct (splitOn comma t). reflexivity.
  - rewrite IH. destruct (splitOn comma s) as [hs ts].
    destruct (splitOn comma t) as [ht tl].
    destruct (Ascii.eqb c comma); reflexivity.
Qed.

Lemma Split_app (s t : string) :
  Split (s ++ String comma t) comma = (Split s comma ++ Split t comma)%list.
Proof.
  unfold Split. rewrite splitOn_app.
  destruct (splitOn comma s) as [hs ts].
  destruct (splitOn comma t) as [ht tl]. reflexivity.
Qed.

Section SendFleetFacts.

Variable Fleet : Type.
Variable Slots : Type.
Variable IsShipID : Z -> bool.
Variable PlanetType : Z.
Variable Transport : Z.
Variable HundredPercent : Z.
Variable sentinelText : error -> string.

Local Abbreviation entry := (shipEntry Fleet IsShipID).
Local Abbreviation entries := (shipEntries Fleet IsShipID).
Local Abbreviation form_entry := (formEntry Fleet IsShipID).
Local Abbreviation range_form := (rangePostForm Fleet IsShipID).
Local Abbreviation start := (initialLocals PlanetType Transport HundredPercent).
Local Abbreviation sendFleetHandler :=
  (SendFleetHandler Fleet Slots IsShipID PlanetType Transport
     HundredPercent sentinelText).

Ltac flows :=
  repeat match goal with
    | H : Continue _ = Continue _ |- _ => injection H as H; subst
    | H : Return _ = Continue _ |- _ => discriminate H
    | H : Continue _ = Return _ |- _ => discriminate H
    | H : Return _ = Return _ |- _ => injection H as H; subst
    | H : first _ _ = _ |- _ => unfold first in H
    | H : context [match ?x with _ => _ end] |- _ => destruct x eqn:?
    end.

(** What a ship of a dispatched fleet satisfies. *)
Lemma shipEntry_valid (s : string) (q : Quantifiable) :
  entry s = Continue q ->
  IsShipID (ID q) = true /\ 0 <= Nbr q < cutoff64.
Proof.
  unfold shipEntry. intro H.
  destruct (ParseInt (nth 0 (Split s ",") EmptyString)) as [shipID|]; [|discriminate].
  destruct (IsShipID shipID) eqn:Ei; cbn [negb] in H; [|discriminate].
  destruct (nth_error (Split s ",") 1) as [a1|]; [|discriminate].
  destruct (ParseInt a1) as [nbr|] eqn:En; [|discriminate].
  destruct (nbr <? 0) eqn:El; [discriminate|].
  injection H as H. subst q. simpl. apply ParseInt_int64 in En.
  apply Z.ltb_ge in El. split; [exact Ei | lia].
Qed.

(** The loop over the values of "ships" appends one ship for each value,
    in the order of the values. *)
Lemma shipEntries_Forall2 (values : list string) :
  forall acc out,
    entries values acc = Continue out ->
    exists qs, out = (acc ++ qs)%list /\
               Forall2 (fun v q => entry v = Continue q) values qs.
Proof.
  induction values as [|v values IH]; intros acc out H; simpl in H.
  - injection H as <-. exists []. split; [now rewrite app_nil_r | constructor].
  - destruct (shipEntry Fleet IsShipID v) as [q|o] eqn:Ev; [|discriminate].
    apply IH in H. destruct H as (qs & -> & HF).
    exists (q :: qs). split; [now rewrite <- app_assoc | now constructor].
Qed.

Lemma Forall2_shipEntries (values : list string) (qs : list Quantifiable) :
  Forall2 (fun v q => entry v = Continue q) values qs ->
  forall acc, entries values acc = Continue (acc ++ qs)%list.
Proof.
  induction 1 as [|v q values qs Hv _ IH]; intro acc; simpl.
  - now rewrite app_nil_r.
  - rewrite Hv, IH, <- app_assoc. reflexivity.
Qed.

Lemma shipEntries_rejects (values : list string) :
  forall acc o,
    entries values acc = Return o ->
    forall acc', entries values acc' = Return o.
Proof.
  induction values as [|v values IH]; intros acc o H acc'; simpl in *.
  - discriminate.
  - destruct (shipEntry Fleet IsShipID v) as [q|o']; [|exact H].
    eapply IH. exact H.
Qed.

(** Whether an entry of the form is refused, and with what answer, does
    not depend on the variables. *)
Lemma formEntry_rejects (key : string) (values : list string)
  (l : Locals) (o : Outcome Fleet) :
  form_entry key values l = Return o ->
  forall l', form_entry key values l' = Return o.
Proof.
  unfold formEntry. intros H l'.
  repeat match type of H with
    | context [String.eqb key ?k] =>
        destruct (String.eqb key k)
    end;
    try discriminate H;
    try (destruct (shipEntries Fleet IsShipID values (ships l)) eqn:E;
         [discriminate H|];
         injection H as <-;
         now rewrite (shipEntries_rejects _ _ E (ships l')));
    unfold first in *; destruct values as [|v vs]; try exact H;
    destruct (ParseInt v) as [n|]; try exact H;
    repeat match type of H with
      | context [if ?b then _ else _] => destruct b
      end; try exact H; discriminate H.
Qed.


Lemma shipEntries_acc (values : list string) (acc out acc' : list Quantifiable) :
  entries values acc = Continue out ->
  exists qs, out = (acc ++ qs)%list /\
             entries values acc' = Continue (acc' ++ qs)%list.
Proof.
  intro H. apply shipEntries_Forall2 in H. destruct H as (qs & -> & HF).
  exists qs. split; [reflexivity|]. now apply Forall2_shipEntries.
Qed.

(** Two entries with different keys fill different variables: they can be
    visited in either order. *)
Lemma formEntry_commute (k1 k2 : string) (v1 v2 : list string)
  (l l1 l12 : Locals) :
  k1 <> k2 ->
  form_entry k1 v1 l = Continue l1 ->
  form_entry k2 v2 l1 = Continue l12 ->
  exists l2, form_entry k2 v2 l = Continue l2 /\
             form_entry k1 v1 l2 = Continue l12.
Proof.
  intros Hne H1 H2. unfold formEntry in *.
  repeat match type of H1 with
    | context [String.eqb k1 ?k] =>
        let E := fresh "E" in
        destruct (String.eqb k1 k) eqn:E;
        [apply String.eqb_eq in E; subst k1 | ]
    end;
  repeat match type of H2 with
    | context [String.eqb k2 ?k] =>
        let E := fresh "E" in
        destruct (String.eqb k2 k) eqn:E;
        [apply String.eqb_eq in E; subst k2 | ]
    end;
  try (exfalso; apply Hne; reflexivity);
  cbn [String.eqb Ascii.eqb Bool.eqb] in *;
  repeat match goal with
    | E : String.eqb _ _ = false |- _ => rewrite E
    end;
  flows; unfold first; simpl in *;
  repeat match goal with
    | E : ?x = _ |- context [?x] => rewrite E
    end;
  eexists; (split; [reflexivity|]); simpl;
  repeat match goal with
    | E : ?x = _ |- context [?x] => rewrite E
    end;
  reflexivity.
Qed.

Local Abbreviation shipOK :=
  (fun q : Quantifiable => IsShipID (ID q) = true /\ 0 <= Nbr q < cutoff64).
Local Abbreviation checked l :=
  (Forall shipOK (ships l) /\
   (speed l = HundredPercent \/ 0 <= speed l <= 10) /\
   0 <= Metal (payload l) < cutoff64 /\
   0 <= Crystal (payload l) < cutoff64 /\
   0 <= Deuterium (payload l) < cutoff64).

Lemma shipEntries_checked (values : list string)
  (acc out : list Quantifiable) :
  entries values acc = Continue out ->
  Forall shipOK acc -> Forall shipOK out.
Proof.
  intros H Hacc. apply shipEntries_Forall2 in H.
  destruct H as (qs & -> & HF). apply Forall_app. split; [exact Hacc|].
  clear Hacc. induction HF as [|v q values qs Hv _ IH]; constructor.
  - exact (@shipEntry_valid v q Hv).
  - exact IH.
Qed.

Lemma formEntry_checked (key : string) (values : list string)
  (l l' : Locals) :
  form_entry key values l = Continue l' -> checked l -> checked l'.
Proof.
  unfold formEntry. intros H (Hs & Hv & Hm & Hc & Hd).
  repeat match type of H with
    | context [String.eqb key ?k] =>
        destruct (String.eqb key k)
    end;
    flows; simpl;
    repeat match goal with
      | E : ParseInt _ = Some _ |- _ => apply ParseInt_int64 in E
      | E : _ || _ = false |- _ => apply orb_false_iff in E; destruct E
      | E : (_ <? _) = false |- _ => apply Z.ltb_ge in E
      end;
    repeat split; try assumption; try tauto; try lia;
    eapply shipEntries_checked; eassumption.
Qed.

Lemma rangePostForm_checked (form : Values) :
  forall l l', range_form form l = Continue l' -> checked l -> checked l'.
Proof.
  induction form as [|[key values] rest IH]; intros l l' H Hl; simpl in H.
  - injection H as <-. exact Hl.
  - destruct (formEntry Fleet IsShipID key values l) as [l1|o] eqn:E;
      [|discriminate].
    eapply IH; [exact H|]. eapply formEntry_checked; eassumption.
Qed.


Lemma shipEntry_reads (s : string) (q : Quantifiable) :
  entry s = Continue q ->
  exists a1,
    nth_error (Split s ",") 1 = Some a1 /\
    ParseInt (nth 0 (Split s ",") EmptyString) = Some (ID q) /\
    ParseInt a1 = Some (Nbr q).
Proof.
  unfold shipEntry. intro H.
  destruct (ParseInt (nth 0 (Split s ",") EmptyString)) as [shipID|]; [|discriminate].
  destruct (IsShipID shipID) eqn:Ei; cbn [negb] in H; [|discriminate].
  destruct (nth_error (Split s ",") 1) as [a1|]; [|discriminate].
  destruct (ParseInt a1) as [nbr|] eqn:En; [|discriminate].
  destruct (nbr <? 0) eqn:El; [discriminate|].
  injection H as H. subst q. exists a1. repeat split. exact En.
Qed.

(** The ships after the loop: those before it, then one for each value
    posted under "ships", in the order of the form. *)
Lemma rangePostForm_ships (form : Values) :
  forall l l',
    range_form form l = Continue l' ->
    exists qs,
      ships l' = (ships l ++ qs)%list /\
      Forall2 (fun v q => entry v = Continue q)
        (flat_map snd
           (filter (fun kv => String.eqb (fst kv) "ships") form)) qs.
Proof.
  induction form as [|[key values] rest IH]; intros l l' H; simpl in H.
  - injection H as <-. exists []. split; [now rewrite app_nil_r|constructor].
  - destruct (formEntry Fleet IsShipID key values l) as [l1|o] eqn:E;
      [|discriminate].
    apply IH in H. destruct H as (qs & Hq & HF). simpl.
    destruct (String.eqb key "ships") eqn:Ek.
    + unfold formEntry in E. rewrite Ek in E.
      destruct (shipEntries Fleet IsShipID values (ships l)) as [v|] eqn:Ev;
        [|discriminate].
      injection E as <-. simpl in Hq.
      apply shipEntries_Forall2 in Ev. destruct Ev as (qs0 & -> & HF0).
      exists (qs0 ++ qs)%list. split; [now rewrite app_assoc|].
      simpl. now apply Forall2_app.
    + apply formEntry_sameUnlessKeyed in E. destruct E as [E _].
      exists qs. split; [|exact HF]. rewrite Hq, E; [reflexivity|].
      intro Hc. subst key. discriminate Ek.
Qed.

Lemma rangePostForm_app (before after : Values) (l : Locals) :
  range_form (before ++ after)%list l =
  match range_form before l with
  | Continue l1 => range_form after l1
  | Return o => Return o
  end.
Proof.
  revert l. induction before as [|[key values] rest IH]; intro l; simpl.
  - reflexivity.
  - destruct (formEntry Fleet IsShipID key values l); [apply IH|reflexivity].
Qed.

Lemma rangePostForm_rejects (form : Values) :
  forall l o, range_form form l = Return o ->
              forall l', exists o', range_form form l' = Return o'.
Proof.
  induction form as [|[key values] rest IH]; intros l o H l'; simpl in *.
  - discriminate.
  - destruct (formEntry Fleet IsShipID key values l) as [l1|o1] eqn:E.
    + destruct (formEntry Fleet IsShipID key values l') as [l1'|o1'] eqn:E'.
      * eapply IH. exact H.
      * eauto.
    + rewrite (@formEntry_rejects key values l o1 E l'). eauto.
Qed.

Lemma sameFlow_refl (A : Type) (a : Flow Fleet A) : sameFlow a a.
Proof. destruct a; simpl; auto. Qed.

Lemma sameFlow_trans (A : Type) (a b c : Flow Fleet A) :
  sameFlow a b -> sameFlow b c -> sameFlow a c.
Proof. destruct a, b, c; simpl; intros; subst; auto; contradiction. Qed.

Lemma rangePostForm_swap (x y : string * list string) (rest : Values)
  (l : Locals) :
  fst x <> fst y ->
  sameFlow (range_form (x :: y :: rest) l) (range_form (y :: x :: rest) l).
Proof.
  destruct x as [k1 v1], y as [k2 v2]. simpl. intro Hne.
  destruct (formEntry Fleet IsShipID k1 v1 l) as [l1|o1] eqn:E1.
  - destruct (formEntry Fleet IsShipID k2 v2 l1) as [l12|o2] eqn:E2.
    + destruct (@formEntry_commute k1 k2 v1 v2 l l1 l12 Hne E1 E2)
        as (l2 & E3 & E4).
      rewrite E3, E4. apply sameFlow_refl.
    + rewrite (@formEntry_rejects k2 v2 l1 o2 E2 l). exact I.
  - destruct (formEntry Fleet IsShipID k2 v2 l) as [l2|o2] eqn:E2.
    + rewrite (@formEntry_rejects k1 v1 l o1 E1 l2). exact I.
    + exact I.
Qed.

(** The order in which the loop visits the entries of a form (a Go map:
    no key twice) does not matter for the variables it leaves. *)
Lemma rangePostForm_Permutation (f1 f2 : Values) :
  Permutation f1 f2 ->
  NoDup (map fst f1) ->
  forall l, sameFlow (range_form f1 l) (range_form f2 l).
Proof.
  induction 1 as [|[k v] f1 f2 HP IH|x y f|f1 f2 f3 HP1 IH1 HP2 IH2];
    intros Hnd l.
  - reflexivity.
  - simpl. destruct (formEntry Fleet IsShipID k v l) as [l1|o]; [|exact I].
    apply IH. now inversion Hnd.
  - apply rangePostForm_swap. simpl in Hnd. inversion Hnd as [|? ? Hn _].
    intro Hc. apply Hn. left. symmetry. exact Hc.
  - eapply sameFlow_trans; [apply IH1; exact Hnd|].
    apply IH2. eapply Permutation_NoDup; [|exact Hnd].
    now apply Permutation_map.
Qed.

(** X1.  Whatever bot serves the request: an intent that
    SendFleetHandler dispatches carries the planet id of the path; every
    ship in it has passed IsShipID and has a number from 0 up to the
    largest int64; the speed is HundredPercent or between 0 and 10; the
    metal, the crystal and the deuterium of the cargo are not negative. *)
Theorem SendFleetHandler_dispatches_checked (W : Type)
  (h : forall X, BotE Fleet Slots X -> W -> X * W) (w : W) (c : Request)
  (i : Intent) :
  In i (dispatched (snd (run h (sendFleetHandler c) w))) ->
  ParseInt (Param c "planetID") = Some (celestial i) /\
  ParseFormError c = None /\
  Forall (fun q => IsShipID (ID q) = true /\ 0 <= Nbr q < cutoff64)
    (ships (vars i)) /\
  (speed (vars i) = HundredPercent \/ 0 <= speed (vars i) <= 10) /\
  0 <= Metal (payload (vars i)) < cutoff64 /\
  0 <= Crystal (payload (vars i)) < cutoff64 /\
  0 <= Deuterium (payload (vars i)) < cutoff64.
Proof.
  unfold SendFleetHandler.
  destruct (ParseInt (Param c "planetID")) as [planetID|];
    [|simpl; contradiction].
  destruct (ParseFormError c); [simpl; contradiction|].
  destruct (rangePostForm Fleet IsShipID (PostForm c) start) as [l|o] eqn:El;
    [|simpl; contradiction].
  simpl.
  destruct (h _ (SendFleet planetID (ships l) (speed l) (where_ l)
                   (mission l) (payload l) (duration l) (unionID l)) w)
    as [[fleet err] w1].
  simpl. intros [<- | []]. simpl.
  split; [reflexivity|]. split; [reflexivity|].
  apply rangePostForm_checked in El; [exact El|].
  simpl. unfold cutoff64. repeat split; auto; lia.
Qed.

(** X3.  Whatever bot serves the request: the ships of a dispatched
    intent are the values posted under "ships", one ship for each value
    and in their order; the id of a ship is the text before the first
    comma of its value, the number the text after it, up to the next
    comma. *)
Theorem SendFleetHandler_ships_in_posted_order (W : Type)
  (h : forall X, BotE Fleet Slots X -> W -> X * W) (w : W) (c : Request)
  (i : Intent) :
  In i (dispatched (snd (run h (sendFleetHandler c) w))) ->
  Forall2
    (fun v q =>
       exists a1,
         nth_error (Split v ",") 1 = Some a1 /\
         ParseInt (nth 0 (Split v ",") EmptyString) = Some (ID q) /\
         ParseInt a1 = Some (Nbr q))
    (flat_map snd
       (filter (fun kv => String.eqb (fst kv) "ships") (PostForm c)))
    (ships (vars i)).
Proof.
  unfold SendFleetHandler.
  destruct (ParseInt (Param c "planetID")) as [planetID|];
    [|simpl; contradiction].
  destruct (ParseFormError c); [simpl; contradiction|].
  destruct (rangePostForm Fleet IsShipID (PostForm c) start) as [l|o] eqn:El;
    [|simpl; contradiction].
  simpl.
  destruct (h _ (SendFleet planetID (ships l) (speed l) (where_ l)
                   (mission l) (payload l) (duration l) (unionID l)) w)
    as [[fleet err] w1].
  simpl. intros [<- | []]. simpl.
  apply rangePostForm_ships in El. destruct El as (qs & -> & HF). simpl.
  eapply Forall2_impl; [|exact HF].
  intros v q Hv. exact (@shipEntry_reads v q Hv).
Qed.

(** X2.  The form is a Go map, which a range loop visits in no fixed
    order.  Two requests whose forms hold the same entries, no key twice,
    in two orders: either the handler runs in the same way on both, with
    the same intent and the same answer, or it refuses both by itself:
    the bot gets no call and stays as it is, and each of the two requests
    gets a bad request or a panic.  The order decides at most which of
    these a refused form gets. *)
Theorem SendFleetHandler_any_order (W : Type)
  (h : forall X, BotE Fleet Slots X -> W -> X * W) (w : W)
  (c1 c2 : Request) :
  Param c1 "planetID" = Param c2 "planetID" ->
  ParseFormError c1 = ParseFormError c2 ->
  Permutation (PostForm c1) (PostForm c2) ->
  NoDup (map fst (PostForm c1)) ->
  run h (sendFleetHandler c1) w = run h (sendFleetHandler c2) w \/
  (exists o1 o2 : Outcome Fleet,
      run h (sendFleetHandler c1) w = (o1, w, []) /\
      run h (sendFleetHandler c2) w = (o2, w, []) /\
      (o1 = Panicked \/ exists message, o1 = badRequest message) /\
      (o2 = Panicked \/ exists message, o2 = badRequest message)).
Proof.
  intros Hp Hf HP Hnd. unfold SendFleetHandler. rewrite <- Hp, <- Hf.
  destruct (ParseInt (Param c1 "planetID")) as [planetID|]; [|now left].
  destruct (ParseFormError c1); [now left|].
  pose proof (@rangePostForm_Permutation _ _ HP Hnd start) as Hs.
  destruct (rangePostForm Fleet IsShipID (PostForm c1) start) as [l1|o1]
    eqn:E1;
    destruct (rangePostForm Fleet IsShipID (PostForm c2) start) as [l2|o2]
      eqn:E2;
    simpl in Hs; try contradiction.
  - subst l2. now left.
  - right. exists o1, o2.
    split; [reflexivity|]. split; [reflexivity|]. split.
    + exact (@rangePostForm_refusal Fleet IsShipID (PostForm c1) start o1
               E1).
    + exact (@rangePostForm_refusal Fleet IsShipID (PostForm c2) start o2
               E2).
Qed.

(** X5.  A value of "ships" that is read as a ship is read as the same
    ship with a comma and any text after it: the fields after the number
    are not looked at. *)
Theorem shipEntry_ignores_further_fields (s more : string)
  (q : Quantifiable) :
  entry s = Continue q ->
  entry (s ++ "," ++ more) = Continue q.
Proof.
  intro H. destruct (@shipEntry_reads s q H) as (a1 & Ha1 & _ & _).
  unfold shipEntry in *.
  change (s ++ "," ++ more) with (s ++ String "," more).
  rewrite Split_app.
  assert (H0 : nth 0 (Split s "," ++ Split more ",")%list EmptyString
               = nth 0 (Split s ",") EmptyString).
  { destruct (Split s ",") as [|x xs]; [discriminate Ha1|reflexivity]. }
  assert (H1 : nth_error (Split s "," ++ Split more ",")%list 1
               = nth_error (Split s ",") 1).
  { destruct (Split s ",") as [|x [|y ys]]; try discriminate Ha1.
    reflexivity. }
  rewrite H0, H1. exact H.
Qed.

(** X4.  A value of "ships" that is the id of a ship and nothing else
    (no comma) makes the handler panic on [a[1]]: when the entries visited
    before "ships" and the values before it are accepted, the request gets
    no answer and the bot no call. *)
Theorem SendFleetHandler_ship_without_number_panics (W : Type)
  (h : forall X, BotE Fleet Slots X -> W -> X * W) (w : W) (c : Request)
  (planetID shipID : Z) (before after : Values)
  (earlier later : list string) (s : string) (l : Locals) :
  ParseInt (Param c "planetID") = Some planetID ->
  ParseFormError c = None ->
  PostForm c = (before ++ ("ships", earlier ++ s :: later) :: after)%list ->
  range_form before start = Continue l ->
  (forall v, In v earlier -> exists q, entry v = Continue q) ->
  ParseInt s = Some shipID ->
  IsShipID shipID = true ->
  run h (sendFleetHandler c) w = (Panicked, w, []).
Proof.
  intros Hp Hf Hform Hb He Hs Hi.
  assert (Hent : entry s = Return Panicked).
  { unfold shipEntry. rewrite (@ParseInt_Split s shipID Hs). simpl.
    rewrite Hs, Hi. reflexivity. }
  assert (Hall : forall acc,
             entries (earlier ++ s :: later) acc = Return Panicked).
  { clear Hform. induction earlier as [|v vs IH]; intro acc; simpl.
    - rewrite Hent. reflexivity.
    - destruct (He v (or_introl eq_refl)) as [q Hq]. rewrite Hq.
      apply IH. intros v' Hv'. apply He. now right. }
  unfold SendFleetHandler.
  rewrite Hp, Hf, Hform, rangePostForm_app, Hb.
  cbn [rangePostForm]. unfold formEntry at 1.
  rewrite String.eqb_refl, Hall. reflexivity.
Qed.

Lemma formEntry_first (key : string) (values : list string) (l : Locals) :
  String.eqb key "ships" = false ->
  form_entry key (firstn 1 values) l = form_entry key values l.
Proof.
  intro Hk. unfold formEntry. rewrite Hk.
  destruct values as [|v vs]; reflexivity.
Qed.

Lemma rangePostForm_first (form : Values) :
  forall l,
    range_form
      (map (fun kv => if String.eqb (fst kv) "ships" then kv
                      else (fst kv, firstn 1 (snd kv))) form) l
    = range_form form l.
Proof.
  induction form as [|[key values] rest IH]; intro l; [reflexivity|].
  cbn [map fst snd].
  destruct (String.eqb key "ships") eqn:Ek; cbn [rangePostForm].
  - destruct (formEntry Fleet IsShipID key values l); [apply IH|reflexivity].
  - rewrite (@formEntry_first key values l Ek).
    destruct (formEntry Fleet IsShipID key values l); [apply IH|reflexivity].
Qed.

(** X6.  For every key but "ships" the handler reads [values[0]] only:
    a request whose further values of these keys are dropped runs in the
    same way against any bot. *)
Theorem SendFleetHandler_reads_first_values (W : Type)
  (h : forall X, BotE Fleet Slots X -> W -> X * W) (w : W)
  (c1 c2 : Request) :
  Param c1 "planetID" = Param c2 "planetID" ->
  ParseFormError c1 = ParseFormError c2 ->
  PostForm c2 =
  map (fun kv => if String.eqb (fst kv) "ships" then kv
                 else (fst kv, firstn 1 (snd kv))) (PostForm c1) ->
  run h (sendFleetHandler c1) w = run h (sendFleetHandler c2) w.
Proof.
  intros Hp Hf Hform. unfold SendFleetHandler.
  rewrite <- Hp, <- Hf, Hform, rangePostForm_first. reflexivity.
Qed.

End SendFleetFacts.

(** ** The handlers that have the bot act *)

Section CommandFacts.

Variable Fleet : Type.
Variable sentinelText : error -> string.
Variable parseIntErrorText : string -> string.

Local Abbreviation handlers :=
  (commandHandlers Fleet sentinelText parseIntErrorText).

Ltac through h :=
  repeat first
    [ progress simpl
    | match goal with
      | |- context [match ParseInt ?s with _ => _ end] =>
          destruct (ParseInt s) eqn:?
      | |- context [h ?X ?e ?w] =>
          let err := fresh "err" in
          let w' := fresh "w" in
          destruct (h X e w) as [err w'] eqn:?; destruct err
      | |- context [if ?b then _ else _] => destruct b eqn:?
      end ].

(** X7.  Whatever bot serves the request: each of the seventeen
    handlers calls the bot once at most; a request that it refuses without
    a call is answered with 400; the answer is a success exactly when the
    one operation was performed and returned no error; any other answer
    has the status 400 or 500. *)
Theorem command_handlers_answer_for_one_call (W : Type)
  (h : forall X, CommandE X -> W -> X * W) (w : W)
  (handler : Request -> CommandHandler Fleet) (c : Request) :
  In handler handlers ->
  let outcome := fst (fst (run h (handler c) w)) in
  let tr := snd (run h (handler c) w) in
  (List.length tr <= 1)%nat /\
  (tr = [] -> statusOf outcome = Some 400) /\
  (isSuccess outcome = true <->
   exists cmd, answered tr = [(cmd, None)]) /\
  (isSuccess outcome = false ->
   statusOf outcome = Some 400 \/ statusOf outcome = Some 500).
Proof.
  intro Hin. simpl in Hin.
  repeat (destruct Hin as [<- | Hin]); [..|contradiction];
    unfold SendMessageHandler, BuyOfferOfTheDayHandler,
      ActivateCelestialItemHandler, SetResourceSettingsHandler,
      BuildHandler, BuildCancelableHandler, BuildProductionHandler,
      BuildBuildingHandler, BuildTechnologyHandler, BuildDefenseHandler,
      BuildShipsHandler, CancelBuildingHandler, CancelResearchHandler,
      DeleteMessageHandler, DeleteEspionageMessagesHandler,
      DeleteMessagesFromTabHandler, TeardownHandler;
    through h;
    (split; [lia|]);
    (split; [intro; reflexivity || discriminate|]);
    (split;
     [split;
      [intro; discriminate || (eexists; reflexivity)
      |intros [cmd Hc]; reflexivity || discriminate Hc]
     |intro; (left; reflexivity) || (right; reflexivity) || discriminate]).
Qed.

Local Abbreviation teardownHandler := (TeardownHandler Fleet sentinelText).

(** X8.  TeardownHandler tests the sign of the planet id twice and that
    of the ogame id never: bot.TearDown is called exactly when the planet
    id parses and is not negative and the ogame id parses, negative or
    not; "invalid ogame id" is the answer of the handler exactly when the
    planet id passes and the ogame id does not parse. *)
Theorem TeardownHandler_checks_the_planet_only (W : Type)
  (h : forall X, CommandE X -> W -> X * W) (w : W) (c : Request)
  (planetID ogameID : Z) :
  let outcome := fst (fst (run h (teardownHandler c) w)) in
  let tr := snd (run h (teardownHandler c) w) in
  (performed tr = [TearDown planetID ogameID] <->
   ParseInt (Param c "planetID") = Some planetID /\
   0 <= planetID /\
   ParseInt (Param c "ogameID") = Some ogameID) /\
  (tr = [] /\ outcome = badRequest "invalid ogame id" <->
   (exists p, ParseInt (Param c "planetID") = Some p /\ 0 <= p) /\
   ParseInt (Param c "ogameID") = None).
Proof.
  unfold TeardownHandler.
  destruct (ParseInt (Param c "planetID")) as [p|] eqn:Ep; simpl.
  2:{ split; split; try discriminate.
      - intros (Hc & _); discriminate Hc.
      - intros (_ & Hc); discriminate Hc.
      - intros ((p & Hc & _) & _); discriminate Hc. }
  destruct (p <? 0) eqn:Es; simpl.
  { apply Z.ltb_lt in Es. split; split; try discriminate.
    - intros (Hc & Hp & _). injection Hc as ->. lia.
    - intros (_ & Hc); discriminate Hc.
    - intros ((p' & Hc & Hp) & _). injection Hc as ->. lia. }
  apply Z.ltb_ge in Es.
  destruct (ParseInt (Param c "ogameID")) as [o|] eqn:Eo; simpl.
  2:{ split; split; try discriminate.
      - intros (_ & _ & Hc); discriminate Hc.
      - intros _. split; [|reflexivity]. exists p. split; [reflexivity|lia]. 
      - intros _. split; reflexivity. }
  destruct (h _ (Perform (TearDown p o)) w) as [[e|] w1]; simpl;
    (split; split;
     [ intro Hc; injection Hc as -> ->; repeat split; lia
     | intros (Hp & _ & Ho); injection Hp as ->; injection Ho as ->;
       reflexivity
     | intros (Hc & _); discriminate Hc
     | intros (_ & Hc); discriminate Hc ]).
Qed.

Local Abbreviation deleteFromTab :=
  (DeleteMessagesFromTabHandler Fleet).
Local Abbreviation deleteEspionage :=
  (DeleteEspionageMessagesHandler Fleet).

(** X9.  DeleteMessagesFromTabHandler calls
    bot.DeleteAllMessagesFromTab and nothing else, with the tab of the
    path exactly when it parses and lies between 20 and 24;
    DeleteEspionageMessagesHandler calls it with the tab 20. *)
Theorem delete_from_tab_stays_in_range (W : Type)
  (h : forall X, CommandE X -> W -> X * W) (w : W) (c : Request) :
  let tr := snd (run h (deleteFromTab c) w) in
  (tr = [] \/ exists tab, performed tr = [DeleteAllMessagesFromTab tab]) /\
  (forall tab,
      performed tr = [DeleteAllMessagesFromTab tab] <->
      ParseInt (Param c "tabIndex") = Some tab /\ 20 <= tab <= 24) /\
  performed (snd (run h (deleteEspionage c) w))
  = [DeleteAllMessagesFromTab 20].
Proof.
  unfold DeleteMessagesFromTabHandler, DeleteEspionageMessagesHandler.
  split; [|split].
  - destruct (ParseInt (Param c "tabIndex")) as [t|]; simpl; [|now left].
    destruct ((t <? 20) || (24 <? t)); simpl; [now left|].
    right. exists t.
    destruct (h _ (Perform (DeleteAllMessagesFromTab t)) w) as [[e|] w1];
      reflexivity.
  - intro tab.
    destruct (ParseInt (Param c "tabIndex")) as [t|]; simpl.
    2:{ split; [discriminate|]. intros (Hc & _). discriminate Hc. }
    destruct ((t <? 20) || (24 <? t)) eqn:Er; simpl.
    + apply orb_true_iff in Er. split; [discriminate|].
      intros (Hc & Hr). injection Hc as ->.
      destruct Er as [Er|Er]; apply Z.ltb_lt in Er; lia.
    + apply orb_false_iff in Er. destruct Er as [E1 E2].
      apply Z.ltb_ge in E1, E2.
      destruct (h _ (Perform (DeleteAllMessagesFromTab t)) w) as [[e|] w1];
        simpl;
        (split;
         [ intro Hc; injection Hc as ->; split; [reflexivity|lia]
         | intros (Hc & _); injection Hc as ->; reflexivity ]).
  - simpl.
    destruct (h _ (Perform (DeleteAllMessagesFromTab 20)) w) as [[e|] w1];
      reflexivity.
Qed.

(** X10.  The two handlers that delete the messages of a tab do not
    pass the error of the bot on: two bots that fail with different
    errors on the same request get the same operation and give the same
    answer. *)
Theorem delete_from_tab_hides_the_error (W1 W2 : Type)
  (h1 : forall X, CommandE X -> W1 -> X * W1) (w1 : W1)
  (h2 : forall X, CommandE X -> W2 -> X * W2) (w2 : W2)
  (handler : Request -> CommandHandler Fleet) (c : Request)
  (cmd1 cmd2 : Command) (e1 e2 : error) :
  In handler [deleteFromTab; deleteEspionage] ->
  answered (snd (run h1 (handler c) w1)) = [(cmd1, Some e1)] ->
  answered (snd (run h2 (handler c) w2)) = [(cmd2, Some e2)] ->
  cmd1 = cmd2 /\
  fst (fst (run h1 (handler c) w1)) = fst (fst (run h2 (handler c) w2)).
Proof.
  intros [<- | [<- | []]];
    unfold DeleteMessagesFromTabHandler, DeleteEspionageMessagesHandler.
  - destruct (ParseInt (Param c "tabIndex")) as [t|]; simpl;
      [|discriminate].
    destruct ((t <? 20) || (24 <? t)); simpl; [discriminate|].
    destruct (h1 _ (Perform (DeleteAllMessagesFromTab t)) w1)
      as [[e1'|] w1'];
      destruct (h2 _ (Perform (DeleteAllMessagesFromTab t)) w2)
        as [[e2'|] w2'];
      simpl; intros H1 H2; try discriminate.
    injection H1 as <- _. injection H2 as <- _. split; reflexivity.
  - simpl.
    destruct (h1 _ (Perform (DeleteAllMessagesFromTab 20)) w1)
      as [[e1'|] w1'];
      destruct (h2 _ (Perform (DeleteAllMessagesFromTab 20)) w2)
        as [[e2'|] w2'];
      simpl; intros H1 H2; try discriminate.
    injection H1 as <- _. injection H2 as <- _. split; reflexivity.
Qed.

Local Abbreviation setResourceSettings :=
  (SetResourceSettingsHandler Fleet sentinelText).

(** X11.  Whatever bot serves the request: an operation that
    SetResourceSettingsHandler performs is bot.SetResourceSettings with
    the planet id of the path and the seven posted values, each parsed;
    ErrInvalidPlanetID is answered with 400, any other error (also one
    with the same text) with 500, no error with 200. *)
Theorem SetResourceSettingsHandler_dispatches_posted (W : Type)
  (h : forall X, CommandE X -> W -> X * W) (w : W) (c : Request)
  (cmd : Command) (err : option error) :
  In (cmd, err) (answered (snd (run h (setResourceSettings c) w))) ->
  let outcome := fst (fst (run h (setResourceSettings c) w)) in
  (exists planetID settings,
      cmd = SetResourceSettings planetID settings /\
      ParseInt (Param c "planetID") = Some planetID /\
      ParseInt (PostFormValue c "metalMine") = Some (MetalMine settings) /\
      ParseInt (PostFormValue c "crystalMine")
      = Some (CrystalMine settings) /\
      ParseInt (PostFormValue c "deuteriumSynthesizer")
      = Some (DeuteriumSynthesizer settings) /\
      ParseInt (PostFormValue c "solarPlant") = Some (SolarPlant settings) /\
      ParseInt (PostFormValue c "fusionReactor")
      = Some (FusionReactor settings) /\
      ParseInt (PostFormValue c "solarSatellite")
      = Some (SolarSatellite settings) /\
      ParseInt (PostFormValue c "crawler") = Some (Crawler settings)) /\
  match err with
  | Some e =>
      (e = ErrInvalidPlanetID ->
       outcome = badRequest (Error sentinelText ErrInvalidPlanetID)) /\
      (e <> ErrInvalidPlanetID ->
       outcome = serverError Fleet (Error sentinelText e))
  | None => outcome = okNil Fleet
  end.
Proof.
  unfold SetResourceSettingsHandler.
  repeat match goal with
    | |- context [match ParseInt ?s with _ => _ end] =>
        destruct (ParseInt s) eqn:?; [|simpl; contradiction]
    end.
  simpl.
  match goal with
  | |- context [h ?X ?e ?w] => destruct (h X e w) as [[e'|] w1]
  end.
  - destruct (error_eqb e' ErrInvalidPlanetID) eqn:Ee; simpl;
      intros [Hc | []]; injection Hc as <- <-;
      (split; [do 2 eexists; repeat split|]).
    + apply error_eqb_eq in Ee. subst e'. split; [reflexivity|congruence].
    + split; [|reflexivity]. intro Hc. subst e'. discriminate Ee.
  - simpl. intros [Hc | []]; injection Hc as <- <-.
    split; [do 2 eexists; repeat split|reflexivity].
Qed.

Local Abbreviation sendMessage :=
  (SendMessageHandler Fleet sentinelText parseIntErrorText).

(** X12.  Whatever bot serves the request: SendMessageHandler calls
    bot.SendMessage with the posted player id and message; it tells the
    errors apart by their text: one that reads "invalid parameters" is
    answered with 400, any other with 500 and its text. *)
Theorem SendMessageHandler_classifies_by_text (W : Type)
  (h : forall X, CommandE X -> W -> X * W) (w : W) (c : Request)
  (cmd : Command) (e : error) :
  In (cmd, Some e) (answered (snd (run h (sendMessage c) w))) ->
  let outcome := fst (fst (run h (sendMessage c) w)) in
  (exists playerID,
      ParseInt (PostFormValue c "playerID") = Some playerID /\
      cmd = SendMessage playerID (PostFormValue c "message")) /\
  (Error sentinelText e = "invalid parameters" ->
   outcome = badRequest "invalid parameters") /\
  (Error sentinelText e <> "invalid parameters" ->
   outcome = serverError Fleet (Error sentinelText e)).
Proof.
  unfold SendMessageHandler.
  destruct (ParseInt (PostFormValue c "playerID")) as [playerID|];
    [|simpl; contradiction].
  simpl.
  match goal with
  | |- context [h ?X ?e ?w] => destruct (h X e w) as [[e'|] w1]
  end; [|simpl; intros [Hc | []]; discriminate Hc].
  destruct (String.eqb (Error sentinelText e') "invalid parameters") eqn:Et;
    simpl; intros [Hc | []]; injection Hc as <- <-;
    (split; [eexists; split; reflexivity|]).
  - apply String.eqb_eq in Et. rewrite Et. split; [reflexivity|congruence].
  - apply String.eqb_neq in Et. split; [congruence|reflexivity].
Qed.

(** X13.  The four handlers that build a number of units read the
    path parameters planetID, ogameID and nbr in the same way, and the
    three that build one level planetID and ogameID: on one request the
    handlers of a group give the same refusal without a call of the bot,
    or each calls its own operation with the parsed values, whatever
    their sign. *)
Theorem build_handlers_read_the_same_parameters (W : Type)
  (h : forall X, CommandE X -> W -> X * W) (w : W) (c : Request) :
  let three handler := run h (handler Fleet sentinelText c) w in
  ((exists refusal,
       three BuildHandler = (refusal, w, []) /\
       three BuildProductionHandler = (refusal, w, []) /\
       three BuildDefenseHandler = (refusal, w, []) /\
       three BuildShipsHandler = (refusal, w, []) /\
       statusOf refusal = Some 400) \/
   (exists planetID ogameID nbr,
       ParseInt (Param c "planetID") = Some planetID /\
       ParseInt (Param c "ogameID") = Some ogameID /\
       ParseInt (Param c "nbr") = Some nbr /\
       performed (snd (three BuildHandler))
       = [Build planetID ogameID nbr] /\
       performed (snd (three BuildProductionHandler))
       = [BuildProduction planetID ogameID nbr] /\
       performed (snd (three BuildDefenseHandler))
       = [BuildDefense planetID ogameID nbr] /\
       performed (snd (three BuildShipsHandler))
       = [BuildShips planetID ogameID nbr])) /\
  ((exists refusal,
       three BuildCancelableHandler = (refusal, w, []) /\
       three BuildBuildingHandler = (refusal, w, []) /\
       three BuildTechnologyHandler = (refusal, w, []) /\
       statusOf refusal = Some 400) \/
   (exists planetID ogameID,
       ParseInt (Param c "planetID") = Some planetID /\
       ParseInt (Param c "ogameID") = Some ogameID /\
       performed (snd (three BuildCancelableHandler))
       = [BuildCancelable planetID ogameID] /\
       performed (snd (three BuildBuildingHandler))
       = [BuildBuilding planetID ogameID] /\
       performed (snd (three BuildTechnologyHandler))
       = [BuildTechnology planetID ogameID])).
Proof.
  unfold BuildHandler, BuildProductionHandler, BuildDefenseHandler,
    BuildShipsHandler, BuildCancelableHandler, BuildBuildingHandler,
    BuildTechnologyHandler.
  destruct (ParseInt (Param c "planetID")) as [planetID|];
    [|split; left; eexists; repeat split].
  destruct (ParseInt (Param c "ogameID")) as [ogameID|];
    [|split; left; eexists; repeat split].
  split.
  - destruct (ParseInt (Param c "nbr")) as [nbr|];
      [|left; eexists; repeat split].
    right. exists planetID, ogameID, nbr. simpl.
    repeat match goal with
      | |- context [h ?X ?e ?w] => destruct (h X e w) as [[?|] ?]
      end; repeat split.
  - right. exists planetID, ogameID. simpl.
    repeat match goal with
      | |- context [h ?X ?e ?w] => destruct (h X e w) as [[?|] ?]
      end; repeat split.
Qed.

End CommandFacts.

(** ** The captcha exchange and the pages of the game *)

Section ExchangeFacts.

Variable Fleet : Type.
Variable Slots : Type.
Variable sentinelText : error -> string.
Variable ReplaceAll : string -> string -> string -> string.
Variable newRequestError : string -> string -> option error.
Variable CanonicalHeaderKey : string -> string.
Variable Encode : Values -> string.
Variable GenerateCodeCustom :
  string -> Z -> ValidateOpts -> string * option error.
Variable UnmarshalChallenge : string -> option error.
Variable UnmarshalCaptchaSolver : string -> captchaSolver * option error.
Variable gfChallengeID : string.

Local Abbreviation getCaptchaHandler :=
  (GetCaptchaHandler Fleet Slots sentinelText ReplaceAll newRequestError
     CanonicalHeaderKey Encode GenerateCodeCustom UnmarshalChallenge
     gfChallengeID).
Local Abbreviation exchange :=
  (captchaExchange Fleet Slots sentinelText ReplaceAll newRequestError
     CanonicalHeaderKey Encode UnmarshalChallenge gfChallengeID).
Local Abbreviation solverHandler :=
  (GetCaptchaSolverHandler Fleet Slots newRequestError CanonicalHeaderKey
     UnmarshalCaptchaSolver).
Local Abbreviation getFromGameHandler :=
  (GetFromGameHandler Fleet Slots sentinelText ReplaceAll).
Local Abbreviation errorText := (Error sentinelText).

Ltac served h :=
  match goal with
  | |- context [h ?X ?e ?w] =>
      let a := fresh "a" in
      let w' := fresh "w" in
      destruct (h X e w) as [a w'] eqn:?
  end.

(** The second request of the exchange. *)
Local Abbreviation challengeRequest resp payload :=
  {| Method := "GET";
     URL := "https://image-drop-challenge.gameforge.com/challenge/"
            ++ ReplaceAll (HeaderGet CanonicalHeaderKey (RespHeader resp)
                             gfChallengeID)
                 ";https://challenge.gameforge.com" EmptyString
            ++ "/en-GB";
     ReqBody := Some (Encode payload);
     ReqHeader := [] |}.

(** The request of the exchange, with the two headers of every session
    request. *)
Local Abbreviation sessionRequest req :=
  (HeaderAdd CanonicalHeaderKey
     (HeaderAdd CanonicalHeaderKey req "Content-Type"
        "application/x-www-form-urlencoded")
     "Accept-Encoding" "gzip, deflate, br").



Lemma sessionRequest_body (req : HTTPRequest) :
  ReqBody (sessionRequest req) = ReqBody req.
Proof. reflexivity. Qed.






(** X17.  Whatever bot serves the request: GetCaptchaSolverHandler
    panics exactly when it has no response to read; otherwise it answers
    409 exactly when bot.LoginWithExistingCookies was called and failed,
    and 200 in every other case, whatever the challenge service said. *)
Theorem GetCaptchaSolverHandler_conflict_on_failed_login (W : Type)
  (h : forall X, BotE Fleet Slots X -> W -> X * W) (w : W) (c : Request) :
  let outcome := fst (fst (run h (solverHandler c) w)) in
  let tr := snd (run h (solverHandler c) w) in
  (outcome = Panicked <-> bodiesRead tr = []) /\
  (statusOf outcome = Some 409 <->
   exists ok e, loginAnswers tr = [(ok, Some e)]) /\
  (outcome <> Panicked ->
   statusOf outcome = Some 409 \/ statusOf outcome = Some 200).
Proof.
  unfold GetCaptchaSolverHandler, NewRequest.
  destruct (newRequestError _ _).
  { simpl. split; [tauto|]. split; [|tauto].
    split; [discriminate|]. intros (ok' & e' & Hc). discriminate Hc. }
  simpl. served h. destruct a as [resp derr].
  destruct resp as [resp|].
  2:{ simpl. split; [tauto|]. split; [|tauto].
      split; [discriminate|]. intros (ok' & e' & Hc). discriminate Hc. }
  simpl. served h. destruct a as [body rerr].
  destruct (UnmarshalCaptchaSolver body) as [out uerr].
  destruct rerr as [re|]; simpl; [served h|];
    (destruct uerr as [ue|]; simpl; [served h|]);
    (destruct (String.eqb (cs_Status out) "solved"); simpl; [served h|]);
    (served h;
     match goal with
     | a : bool |- _ => destruct a; simpl
     end;
     [|served h;
       match goal with
       | a : (bool * option error)%type |- _ =>
           destruct a as [ok [le|]]; simpl; [served h|]
       end]);
    simpl;
    (split; [split; discriminate|]);
    (split;
     [split;
      [ intro Hc; discriminate Hc || (do 2 eexists; reflexivity)
      | intros (ok' & e' & Hc); discriminate Hc || reflexivity ]
     | intros _; (left; reflexivity) || (right; reflexivity) ]).
Qed.

(** X18.  GetFromGameHandler fetches one page: the overview when the
    request has no query parameters, the page of the query otherwise. *)
Theorem GetFromGameHandler_fetches_the_overview_by_default (W : Type)
  (h : forall X, BotE Fleet Slots X -> W -> X * W) (w : W) (c : Request) :
  let tr := snd (run h (getFromGameHandler c) w) in
  (QueryParams c = [] ->
   pageRequests tr = [[("page", ["ingame"]); ("component", ["overview"])]]) /\
  (QueryParams c <> [] -> pageRequests tr = [QueryParams c]).
Proof.
  unfold GetFromGameHandler.
  destruct (QueryParams c) as [|q qs] eqn:Eq.
  - split; [intros _|intro Hc; now elim Hc].
    simpl. served h. destruct (String.eqb a "Manuel Mode"); simpl;
      served h; destruct a0 as [pageHTML err]; simpl;
      served h; served h; reflexivity.
  - split; [discriminate|intros _].
    assert (Hl : (0 <? Z.of_nat (List.length (q :: qs))) = true).
    { apply Z.ltb_lt. simpl. lia. }
    rewrite Hl. simpl. served h.
    destruct (String.eqb a "Manuel Mode"); simpl;
      served h; destruct a0 as [pageHTML err]; simpl;
      served h; served h; reflexivity.
Qed.

(** X19.  When bot.apiNewHostname is set, the name under which the
    daemon was reached and the use of TLS play no part: two requests with
    the same query run in the same way. *)
Theorem GetFromGameHandler_prefers_the_configured_hostname (W : Type)
  (h : forall X, BotE Fleet Slots X -> W -> X * W) (w : W)
  (c1 c2 : Request) :
  QueryParams c1 = QueryParams c2 ->
  (forall name,
      In name (hostnameReads (snd (run h (getFromGameHandler c1) w))) ->
      name <> EmptyString) ->
  run h (getFromGameHandler c1) w = run h (getFromGameHandler c2) w.
Proof.
  intro Hq. unfold GetFromGameHandler. rewrite <- Hq.
  set (vals := if 0 <? Z.of_nat (List.length (QueryParams c1))
               then QueryParams c1
               else [("page", ["ingame"]); ("component", ["overview"])]).
  clearbody vals. simpl. served h.
  destruct (String.eqb a "Manuel Mode"); simpl;
    served h; destruct a0 as [pageHTML err]; simpl;
    served h; served h; simpl; intro Hn;
    (assert (Hl : (0 <? Z.of_nat (String.length a1)) = true);
     [ destruct a1 as [|ch rest];
       [ exfalso; apply (Hn EmptyString); [left|]; reflexivity
       | apply Z.ltb_lt; simpl; lia ]
     | rewrite Hl; reflexivity ]).
Qed.

End ExchangeFacts.

(** ** ExtractOverviewProduction *)

Section OverviewProductionFacts.

Variable Document : Type.
Variable NewDocumentFromReader : string -> option Document * option error.
Variable extractOverviewShipSumCountdownFromBytes : string -> Returns Z.
Variable extractOverviewProductionFromDoc :
  option Document -> Returns (list Quantifiable * option error).

Local Abbreviation overviewProduction :=
  (ExtractOverviewProduction NewDocumentFromReader
     extractOverviewShipSumCountdownFromBytes
     extractOverviewProductionFromDoc).

(** X20.  ExtractOverviewProduction puts together the countdown that the
    function of the package reads from the bytes and the production and
    the error that the function of the package reads from the document;
    the error of the parser is dropped; it panics exactly when one of the
    two functions does. *)
Theorem ExtractOverviewProduction_combines (pageHTML : string) :
  (forall production countdown err,
      overviewProduction pageHTML = Returned (production, countdown, err) <->
      extractOverviewShipSumCountdownFromBytes pageHTML = Returned countdown
      /\ extractOverviewProductionFromDoc
           (fst (NewDocumentFromReader pageHTML))
         = Returned (production, err)) /\
  (overviewProduction pageHTML = Panic <->
   extractOverviewShipSumCountdownFromBytes pageHTML = Panic \/
   extractOverviewProductionFromDoc (fst (NewDocumentFromReader pageHTML))
   = Panic).
Proof.
  unfold ExtractOverviewProduction,
    ExtractOverviewShipSumCountdownFromBytes,
    ExtractOverviewProductionFromDoc, document.
  destruct (NewDocumentFromReader pageHTML) as [doc perr]. simpl.
  destruct (extractOverviewShipSumCountdownFromBytes pageHTML)
    as [countdown'|]; simpl.
  - destruct (extractOverviewProductionFromDoc doc) as [[production' err']|];
      simpl.
    + split.
      * intros production countdown err. split.
        -- intro H. injection H as <- <- <-. split; reflexivity.
        -- intros [H1 H2]. injection H1 as <-. injection H2 as <- <-.
           reflexivity.
      * split; [discriminate|]. intros [H|H]; discriminate H.
    + split.
      * intros production countdown err. split; [discriminate|].
        intros [_ H]. discriminate H.
      * split; [intros _; now right|reflexivity].
  - split.
    + intros production countdown err. split; [discriminate|].
      intros [H _]. discriminate H.
    + split; [intros _; now left|reflexivity].
Qed.

End OverviewProductionFacts.

(** ** The other handlers on the scripted bots *)

(** Two cargo ships at speed 5 with metal aboard. *)
Lemma SendFleetHandler_dispatches_checked_witness :
  let bot :=
    Example.scripted
      (Example.script (1, None) (EmptyString, None) (true, None)
         EmptyString EmptyString EmptyString) in
  let c :=
    Example.requestWith
      [("ships", ["203,2"]); ("speed", ["5"]); ("metal", ["1000"])] in
  let i :=
    {| celestial := 123;
       vars := {| ships := [{| ID := 203; Nbr := 2 |}];
                  where_ := {| Galaxy := 0; System := 0; Position := 0;
                               CType := Example.PlanetType |};
                  mission := Example.Transport;
                  duration := 0;
                  unionID := 0;
                  payload := {| Metal := 1000; Crystal := 0;
                                Deuterium := 0 |};
                  speed := 5 |} |} in
  In i (dispatched (snd (run bot (sendFleetOn c) 0%nat))) /\
  Forall (fun q => Example.IsShipID (ID q) = true /\ 0 <= Nbr q < cutoff64)
    (ships (vars i)).
Proof.
  intros bot c i.
  assert (H : In i (dispatched (snd (run bot (sendFleetOn c) 0%nat))))
    by (simpl; left; reflexivity).
  split; [exact H|].
  exact (proj1 (proj2 (proj2
    (@SendFleetHandler_dispatches_checked Example.Fleet Example.Slots
       Example.IsShipID Example.PlanetType Example.Transport
       Example.HundredPercent Example.sentinelText nat bot 0%nat c i H)))).
Defined.

(** The same form, visited speed first and ships first. *)
Lemma SendFleetHandler_any_order_witness :
  let bot :=
    Example.scripted
      (Example.script (1, None) (EmptyString, None) (true, None)
         EmptyString EmptyString EmptyString) in
  let c1 := Example.requestWith [("speed", ["5"]); ("ships", ["203,2"])] in
  let c2 := Example.requestWith [("ships", ["203,2"]); ("speed", ["5"])] in
  Permutation (PostForm c1) (PostForm c2) /\
  NoDup (map fst (PostForm c1)) /\
  (run bot (sendFleetOn c1) 0%nat = run bot (sendFleetOn c2) 0%nat \/
   (exists o1 o2 : Outcome Example.Fleet,
       run bot (sendFleetOn c1) 0%nat = (o1, 0%nat, []) /\
       run bot (sendFleetOn c2) 0%nat = (o2, 0%nat, []) /\
       (o1 = Panicked \/ exists message, o1 = badRequest message) /\
       (o2 = Panicked \/ exists message, o2 = badRequest message))).
Proof.
  intros bot c1 c2.
  assert (HP : Permutation (PostForm c1) (PostForm c2))
    by (simpl; apply perm_swap).
  assert (HN : NoDup (map fst (PostForm c1))).
  { simpl. repeat constructor; simpl; intuition discriminate. }
  split; [exact HP|]. split; [exact HN|].
  exact (@SendFleetHandler_any_order Example.Fleet Example.Slots
           Example.IsShipID Example.PlanetType Example.Transport
           Example.HundredPercent Example.sentinelText nat bot 0%nat c1 c2
           eq_refl eq_refl HP HN).
Defined.

(** Two values under "ships", the second with a field too many. *)
Lemma SendFleetHandler_ships_in_posted_order_witness :
  let bot :=
    Example.scripted
      (Example.script (1, None) (EmptyString, None) (true, None)
         EmptyString EmptyString EmptyString) in
  let c :=
    Example.requestWith [("ships", ["203,2"; "204,10,7"]); ("galaxy", ["4"])] in
  let i :=
    {| celestial := 123;
       vars := {| ships := [{| ID := 203; Nbr := 2 |};
                            {| ID := 204; Nbr := 10 |}];
                  where_ := {| Galaxy := 4; System := 0; Position := 0;
                               CType := Example.PlanetType |};
                  mission := Example.Transport;
                  duration := 0;
                  unionID := 0;
                  payload := {| Metal := 0; Crystal := 0; Deuterium := 0 |};
                  speed := Example.HundredPercent |} |} in
  In i (dispatched (snd (run bot (sendFleetOn c) 0%nat))) /\
  List.length (ships (vars i)) = 2%nat.
Proof.
  intros bot c i.
  assert (H : In i (dispatched (snd (run bot (sendFleetOn c) 0%nat))))
    by (simpl; left; reflexivity).
  split; [exact H|].
  pose proof
    (@SendFleetHandler_ships_in_posted_order Example.Fleet Example.Slots
       Example.IsShipID Example.PlanetType Example.Transport
       Example.HundredPercent Example.sentinelText nat bot 0%nat c i H)
    as T.
  apply Forall2_length in T. symmetry. exact T.
Defined.

(** A light fighter with its number, then a heavy fighter without. *)
Lemma SendFleetHandler_ship_without_number_panics_witness :
  let bot :=
    Example.scripted
      (Example.script (1, None) (EmptyString, None) (true, None)
         EmptyString EmptyString EmptyString) in
  let c :=
    Example.requestWith [("speed", ["5"]); ("ships", ["204,1"; "205"])] in
  ParseInt "205" = Some 205 /\
  Example.IsShipID 205 = true /\
  run bot (sendFleetOn c) 0%nat = (Panicked, 0%nat, []).
Proof.
  intros bot c.
  assert (H1 : ParseInt "205" = Some 205) by reflexivity.
  assert (H2 : Example.IsShipID 205 = true) by reflexivity.
  split; [exact H1|]. split; [exact H2|].
  apply (@SendFleetHandler_ship_without_number_panics Example.Fleet
           Example.Slots Example.IsShipID Example.PlanetType
           Example.Transport Example.HundredPercent Example.sentinelText
           nat bot 0%nat c 123 205 [("speed", ["5"])] [] ["204,1"] []
           "205" _ eq_refl eq_refl eq_refl eq_refl).
  - intros v [<- | []]. eexists. reflexivity.
  - exact H1.
  - exact H2.
Defined.

(** A third field after the number. *)
Lemma shipEntry_ignores_further_fields_witness :
  shipEntry Example.Fleet Example.IsShipID "203,1"
  = Continue {| ID := 203; Nbr := 1 |} /\
  shipEntry Example.Fleet Example.IsShipID "203,1,9"
  = Continue {| ID := 203; Nbr := 1 |}.
Proof.
  assert (H : shipEntry Example.Fleet Example.IsShipID "203,1"
              = Continue {| ID := 203; Nbr := 1 |}) by reflexivity.
  split; [exact H|].
  exact (@shipEntry_ignores_further_fields Example.Fleet Example.IsShipID
           "203,1" "9" _ H).
Defined.

(** A second speed, out of range, after the first. *)
Lemma SendFleetHandler_reads_first_values_witness :
  let bot :=
    Example.scripted
      (Example.script (1, None) (EmptyString, None) (true, None)
         EmptyString EmptyString EmptyString) in
  let c1 :=
    Example.requestWith [("ships", ["203,2"]); ("speed", ["5"; "11"])] in
  let c2 := Example.requestWith [("ships", ["203,2"]); ("speed", ["5"])] in
  run bot (sendFleetOn c1) 0%nat = run bot (sendFleetOn c2) 0%nat /\
  isSuccess (fst (fst (run bot (sendFleetOn c1) 0%nat))) = true.
Proof.
  intros bot c1 c2.
  split; [|reflexivity].
  exact (@SendFleetHandler_reads_first_values Example.Fleet Example.Slots
           Example.IsShipID Example.PlanetType Example.Transport
           Example.HundredPercent Example.sentinelText nat bot 0%nat c1 c2
           eq_refl eq_refl eq_refl).
Defined.

Local Abbreviation teardownOn :=
  (TeardownHandler Example.Fleet Example.sentinelText).

(** The teardown of a building with a negative id, which the bot
    refuses. *)
Lemma command_handlers_answer_for_one_call_witness :
  let bot := Scripted.always (Some (ErrOther "invalid building")) in
  let c :=
    Scripted.requestAt [("planetID", "123"); ("ogameID", "-4")] [] in
  In teardownOn
    (commandHandlers Example.Fleet Example.sentinelText
       Scripted.parseIntErrorText) /\
  (List.length (snd (run bot (teardownOn c) 0%nat)) <= 1)%nat /\
  isSuccess (fst (fst (run bot (teardownOn c) 0%nat))) = false.
Proof.
  intros bot c.
  assert (H : In teardownOn
                (commandHandlers Example.Fleet Example.sentinelText
                   Scripted.parseIntErrorText))
    by (simpl; tauto).
  split; [exact H|].
  pose proof
    (@command_handlers_answer_for_one_call Example.Fleet
       Example.sentinelText Scripted.parseIntErrorText nat bot 0%nat
       teardownOn c H) as T.
  split; [exact (proj1 T)|]. reflexivity.
Defined.

(** Two bots that fail with different errors on the tab 21. *)
Lemma delete_from_tab_hides_the_error_witness :
  let bot1 := Scripted.always (Some (ErrOther "not logged")) in
  let bot2 := Scripted.always (Some ErrNoEventsRunning) in
  let c := Scripted.requestAt [("tabIndex", "21")] [] in
  let handler := DeleteMessagesFromTabHandler Example.Fleet in
  answered (snd (run bot1 (handler c) 0%nat))
  = [(DeleteAllMessagesFromTab 21, Some (ErrOther "not logged"))] /\
  answered (snd (run bot2 (handler c) 0%nat))
  = [(DeleteAllMessagesFromTab 21, Some ErrNoEventsRunning)] /\
  fst (fst (run bot1 (handler c) 0%nat))
  = fst (fst (run bot2 (handler c) 0%nat)) /\
  fst (fst (run bot1 (handler c) 0%nat))
  = badRequest "Unable to delete message from tab 21".
Proof.
  intros bot1 bot2 c handler.
  assert (H1 : answered (snd (run bot1 (handler c) 0%nat))
               = [(DeleteAllMessagesFromTab 21,
                   Some (ErrOther "not logged"))]) by reflexivity.
  assert (H2 : answered (snd (run bot2 (handler c) 0%nat))
               = [(DeleteAllMessagesFromTab 21, Some ErrNoEventsRunning)])
    by reflexivity.
  split; [exact H1|]. split; [exact H2|].
  split; [|reflexivity].
  exact (proj2 (@delete_from_tab_hides_the_error Example.Fleet nat nat
                  bot1 0%nat bot2 0%nat handler c _ _ _ _
                  (or_introl eq_refl) H1 H2)).
Defined.

(** Settings for a planet that the bot does not know. *)
Lemma SetResourceSettingsHandler_dispatches_posted_witness :
  let bot := Scripted.always (Some ErrInvalidPlanetID) in
  let c :=
    Scripted.requestAt [("planetID", "123")]
      [("metalMine", ["100"]); ("crystalMine", ["90"]);
       ("deuteriumSynthesizer", ["80"]); ("solarPlant", ["100"]);
       ("fusionReactor", ["0"]); ("solarSatellite", ["100"]);
       ("crawler", ["50"])] in
  let handler :=
    SetResourceSettingsHandler Example.Fleet Example.sentinelText in
  let settings :=
    {| MetalMine := 100; CrystalMine := 90; DeuteriumSynthesizer := 80;
       SolarPlant := 100; FusionReactor := 0; SolarSatellite := 100;
       Crawler := 50 |} in
  In (SetResourceSettings 123 settings, Some ErrInvalidPlanetID)
    (answered (snd (run bot (handler c) 0%nat))) /\
  fst (fst (run bot (handler c) 0%nat)) = badRequest "invalid planet id".
Proof.
  intros bot c handler settings.
  assert (H : In (SetResourceSettings 123 settings, Some ErrInvalidPlanetID)
                (answered (snd (run bot (handler c) 0%nat))))
    by (simpl; left; reflexivity).
  split; [exact H|].
  destruct (@SetResourceSettingsHandler_dispatches_posted Example.Fleet
              Example.sentinelText nat bot 0%nat c _ _ H) as (_ & T & _).
  exact (T eq_refl).
Defined.

(** A message that the bot refuses for its parameters. *)
Lemma SendMessageHandler_classifies_by_text_witness :
  let bot := Scripted.always (Some (ErrOther "invalid parameters")) in
  let c :=
    Scripted.requestAt []
      [("playerID", ["123"]); ("message", ["Sup boi!"])] in
  let handler :=
    SendMessageHandler Example.Fleet Example.sentinelText
      Scripted.parseIntErrorText in
  In (SendMessage 123 "Sup boi!", Some (ErrOther "invalid parameters"))
    (answered (snd (run bot (handler c) 0%nat))) /\
  fst (fst (run bot (handler c) 0%nat)) = badRequest "invalid parameters".
Proof.
  intros bot c handler.
  assert (H : In (SendMessage 123 "Sup boi!",
                  Some (ErrOther "invalid parameters"))
                (answered (snd (run bot (handler c) 0%nat))))
    by (simpl; left; reflexivity).
  split; [exact H|].
  destruct (@SendMessageHandler_classifies_by_text Example.Fleet
              Example.sentinelText Scripted.parseIntErrorText nat bot
              0%nat c _ _ H) as (_ & T & _).
  exact (T eq_refl).
Defined.


Local Abbreviation fromGameOn :=
  (GetFromGameHandler Example.Fleet Example.Slots Example.sentinelText
     Example.ReplaceAll).

(** The overview asked for under two names of the daemon. *)
Lemma GetFromGameHandler_prefers_the_configured_hostname_witness :
  let bot := Example.scripted (Scripted.behindProxy "<title>OGame</title>") in
  let c1 := Example.requestWith [] in
  let c2 := Scripted.overTLS c1 in
  hostnameReads (snd (run bot (fromGameOn c1) 0%nat))
  = ["http://proxy.example.org"] /\
  run bot (fromGameOn c1) 0%nat = run bot (fromGameOn c2) 0%nat.
Proof.
  intros bot c1 c2.
  assert (H : hostnameReads (snd (run bot (fromGameOn c1) 0%nat))
              = ["http://proxy.example.org"]) by reflexivity.
  split; [exact H|].
  apply (@GetFromGameHandler_prefers_the_configured_hostname Example.Fleet
           Example.Slots Example.sentinelText Example.ReplaceAll nat bot
           0%nat c1 c2 eq_refl).
  rewrite H. intros name [<- | []]. discriminate.
Defined.

(** ** The executor *)

Import Executor.











